(** * Hybrid RAG framework: validation, scoring, continuation and refinement

    A shallow embedding of the orchestration core of
    [src/hybrid_rag_framework.py]: the artifact cleaner, the lint-issue
    counter, the static validator and its report, the combined ranking
    score, the truncation-aware generator, the refinement loop and the
    multi-model fan-out.

    Conventions of the embedding.
    - A Python [str] is a [string] of 8-bit code points (the Latin-1 range);
      [str.strip], [str.lower], [in], [startswith], [split] and [join] are
      written out below with Python's behaviour on that range.
    - A Python [int] is a [Z].  A Python [float] is an exact rational [Q]:
      scores are compared up to [Qeq].  The threshold tests of the validator
      are re-run on IEEE binary64 values in [Binary64].
    - External collaborators (the lint subprocess, [json.loads], the
      language-model clients, the retriever, the clock) are oracles passed
      as arguments; an exception is a value [Raise msg].
*)

From Stdlib Require Import ZArith QArith Qminmax Qround Lia Lra Psatz.
From Stdlib Require Import Bool List String Ascii DecimalString.
From Stdlib Require Import Sorting.Permutation Sorting.Sorted.
From Stdlib Require Import Uint63 Floats.PrimFloat.
Import ListNotations.

Set Implicit Arguments.

Local Open Scope string_scope.
Local Open Scope Z_scope.

(* ================================================================== *)
(** * Python string primitives *)
(* ================================================================== *)

Module PyStr.

(** The newline used by [str.split('\n')] and ['\n'.join]. *)
Definition nl : ascii := "010"%char.

Definition is_nl (c : ascii) : bool := Ascii.eqb c nl.

(** [c.isspace()] for a code point below 256: TAB..CR, FS..US, SPACE,
    NEL and NBSP. *)
Definition isspace (c : ascii) : bool :=
  let n := nat_of_ascii c in
  ((9 <=? n) && (n <=? 13) || (28 <=? n) && (n <=? 32)
   || (n =? 133) || (n =? 160))%nat.

(** Truthiness of a string: [not s] holds for the empty string only. *)
Definition is_empty (s : string) : bool :=
  match s with EmptyString => true | String _ _ => false end.

Fixpoint lstrip (s : string) : string :=
  match s with
  | EmptyString => EmptyString
  | String c r => if isspace c then lstrip r else s
  end.

Fixpoint rstrip (s : string) : string :=
  match s with
  | EmptyString => EmptyString
  | String c r =>
      let r' := rstrip r in
      if is_empty r' && isspace c then EmptyString else String c r'
  end.

(** [s.strip()] *)
Definition strip (s : string) : string := lstrip (rstrip s).

(** [s.startswith(p)] *)
Definition startswith (p s : string) : bool := String.prefix p s.

(** [sub in s] *)
Fixpoint contains (sub s : string) : bool :=
  String.prefix sub s
  || match s with
     | EmptyString => false
     | String _ r => contains sub r
     end.

(** [c.lower()] on the Latin-1 range: A..Z and the accented capitals
    U+00C0..U+00DE (without the multiplication sign U+00D7) move up by 32. *)
Definition lower_char (c : ascii) : ascii :=
  let n := nat_of_ascii c in
  if ((65 <=? n) && (n <=? 90)
      || (192 <=? n) && (n <=? 222) && negb (n =? 215))%nat
  then ascii_of_nat (n + 32) else c.

Fixpoint lower (s : string) : string :=
  match s with
  | EmptyString => EmptyString
  | String c r => String (lower_char c) (lower r)
  end.

(** [s.split('\n')]: never the empty list. *)
Fixpoint split_nl (s : string) : list string :=
  match s with
  | EmptyString => [EmptyString]
  | String c r =>
      if is_nl c then EmptyString :: split_nl r
      else match split_nl r with
           | [] => [String c EmptyString]
           | l :: ls => String c l :: ls
           end
  end.

(** [sep.join(parts)] *)
Fixpoint join (sep : string) (parts : list string) : string :=
  match parts with
  | [] => EmptyString
  | [p] => p
  | p :: ps => p ++ sep ++ join sep ps
  end.

Definition join_nl : list string -> string := join (String nl EmptyString).

(** [x in xs] for a list of strings. *)
Definition mem (x : string) (xs : list string) : bool :=
  existsb (String.eqb x) xs.

(** [xs[a:b]] for [0 <= a], [0 <= b]. *)
Definition slice {A} (xs : list A) (a b : nat) : list A :=
  firstn (b - a) (skipn a xs).

(** [str(n)] for an integer. *)
Definition str_of_Z (n : Z) : string :=
  NilEmpty.string_of_int (Z.to_int n).

End PyStr.

Import PyStr.

(* ================================================================== *)
(** * Cleaning of generated artifacts and counting of lint lines *)
(* ================================================================== *)

(** The two fence literals of [clean_code_artifacts], as the source
    spells them. *)
Definition fence : string := "```".
Definition fence_go : string := "``````go".
Definition package_kw : string := "package ".

(** First loop of [clean_code_artifacts]: the index after the first line
    that opens with [fence_go], or the index of the first line that opens
    with [package_kw], whichever line comes first; [i] is the index of the
    head of [lines]. *)
Fixpoint find_start (lines : list string) (i : nat) : option nat :=
  match lines with
  | [] => None
  | line :: rest =>
      let stripped := strip line in
      if startswith fence_go stripped then Some (S i)
      else if startswith package_kw stripped then Some i
      else find_start rest (S i)
  end.

(** Second loop: [for i in range(len(lines) - 1, start_idx - 1, -1)],
    entered with [upto = len(lines)]; the first fence line met from the
    end, not below [start_idx]. *)
Fixpoint find_end (lines : list string) (start_idx upto : nat) : option nat :=
  match upto with
  | O => None
  | S i =>
      if (i <? start_idx)%nat then None
      else if startswith fence (strip (nth i lines EmptyString)) then Some i
      else find_end lines start_idx i
  end.

Definition clean_code_artifacts (response : string) : string :=
  if is_empty response || is_empty (strip response) then response
  else
    let lines := split_nl response in
    let start_idx := match find_start lines 0 with Some i => i | None => O end in
    let end_idx :=
      match find_end lines start_idx (List.length lines) with
      | Some i => i
      | None => List.length lines
      end in
    let code_lines := slice lines start_idx end_idx in
    let cleaned :=
      filter (fun line => negb (mem (strip line) [fence; fence_go])) code_lines in
    let result := strip (join_nl cleaned) in
    if is_empty result then strip response else result.

(** The test of one sub-line in [count_error_lines], after the blank and
    comment lines have been skipped. *)
Definition looks_like_error (line : string) : bool :=
  contains ".go:" line || contains "undefined" line
  || contains "not used" line || contains "error" (lower line).

(** One turn of the [for line in lines] loop of [count_error_lines]. *)
Definition count_step (error_count : Z) (line : string) : Z :=
  let line := strip line in
  if is_empty line then error_count
  else if startswith "#" line then error_count
  else if looks_like_error line then error_count + 1
  else error_count.

Definition count_error_lines (issue_text : string) : Z :=
  if is_empty issue_text then 0
  else
    let lines := split_nl (strip issue_text) in
    let error_count := fold_left count_step lines 0 in
    Z.max error_count 1.

(* ================================================================== *)
(** * Exceptions, decoded JSON and the monad of the guarded region *)
(* ================================================================== *)

(** The outcome of a call that may raise: [Raise msg] carries [str(e)]. *)
Inductive result (A : Type) : Type :=
| Ok (a : A)
| Raise (msg : string).

Arguments Ok {A} a.
Arguments Raise {A} msg.

(** A value returned by [json.loads]. *)
#[local] Unset Elimination Schemes.
Inductive json : Type :=
| JNull
| JBool (b : bool)
| JNum (q : Q)
| JStr (s : string)
| JArr (items : list json)
| JObj (fields : list (string * json)).
#[local] Set Elimination Schemes.

(** Truthiness of a decoded value. *)
Definition truthy (v : json) : bool :=
  match v with
  | JNull => false
  | JBool b => b
  | JNum q => negb (Qeq_bool q 0)
  | JStr s => negb (is_empty s)
  | JArr items => match items with [] => false | _ => true end
  | JObj fields => match fields with [] => false | _ => true end
  end.

Fixpoint assoc (key : string) (fields : list (string * json)) : option json :=
  match fields with
  | [] => None
  | (k, v) :: rest => if String.eqb k key then Some v else assoc key rest
  end.

Definition is_json_str (s : string) (v : json) : bool :=
  match v with JStr t => String.eqb t s | _ => false end.

(** [d.get(key, default)]: only a dict has [get]. *)
Definition dict_get (d : json) (key : string) (default : json) : result json :=
  match d with
  | JObj fields =>
      Ok (match assoc key fields with Some v => v | None => default end)
  | _ => Raise "AttributeError: object has no attribute 'get'"
  end.

(** [key in v] *)
Definition json_in (key : string) (v : json) : result bool :=
  match v with
  | JObj fields => Ok (match assoc key fields with Some _ => true | None => false end)
  | JArr items => Ok (existsb (is_json_str key) items)
  | JStr s => Ok (contains key s)
  | _ => Raise "TypeError: argument is not iterable"
  end.

(** [v[key]] for a string key. *)
Definition json_index (v : json) (key : string) : result json :=
  match v with
  | JObj fields =>
      match assoc key fields with
      | Some x => Ok x
      | None => Raise "KeyError"
      end
  | _ => Raise "TypeError: indices must be integers"
  end.

(** The items visited by [for x in v]. *)
Definition json_iter (v : json) : result (list json) :=
  match v with
  | JArr items => Ok items
  | JObj fields => Ok (map (fun kv => JStr (fst kv)) fields)
  | JStr s => Ok (map (fun c => JStr (String c EmptyString)) (list_ascii_of_string s))
  | _ => Raise "TypeError: object is not iterable"
  end.

(** State that survives an exception, as a mutated dict does. *)
Definition M (S A : Type) : Type := S -> result A * S.

Definition ret {S A} (a : A) : M S A := fun s => (Ok a, s).

Definition bind {S A B} (m : M S A) (k : A -> M S B) : M S B :=
  fun s =>
    match m s with
    | (Ok a, s') => k a s'
    | (Raise msg, s') => (Raise msg, s')
    end.

Definition lift {S A} (r : result A) : M S A := fun s => (r, s).

Definition modify {S} (f : S -> S) : M S unit := fun s => (Ok tt, f s).

Declare Scope py_scope.
Delimit Scope py_scope with py.
Notation "x <- m ;; k" := (bind m (fun x => k))
  (at level 61, m at next level, right associativity) : py_scope.
Notation "m ;;; k" := (bind m (fun _ => k))
  (at level 61, right associativity) : py_scope.

(** [for x in xs: body(x)] *)
Fixpoint for_each {S A} (xs : list A) (body : A -> M S unit) : M S unit :=
  match xs with
  | [] => ret tt
  | x :: rest => bind (body x) (fun _ => for_each rest body)
  end.

(** A loop that threads a local accumulator. *)
Fixpoint fold_each {S A B} (xs : list A) (acc : B) (body : B -> A -> M S B)
  : M S B :=
  match xs with
  | [] => ret acc
  | x :: rest => bind (body acc x) (fun acc' => fold_each rest acc' body)
  end.

(* ================================================================== *)
(** * The static validator *)
(* ================================================================== *)

(** The dictionary returned by the validator. [stage_errors] is
    [stage_details['golangci']['errors']]. *)
Record ValidationResult : Type := mkValidation {
  quality_score : Q;
  has_errors : bool;
  errors : list string;
  golangci_lint_errors : Z;
  total_errors : Z;
  validation_passed : bool;
  model_name : string;
  fixed_code : option string;
  was_fixed : bool;
  stage_errors : list string
}.

Definition initial_result (model : string) : ValidationResult :=
  mkValidation 0 false [] 0 0 false model None false [].

Definition add_error (msg : string) (r : ValidationResult) : ValidationResult :=
  mkValidation r.(quality_score) r.(has_errors) (r.(errors) ++ [msg])
    r.(golangci_lint_errors) r.(total_errors) r.(validation_passed)
    r.(model_name) r.(fixed_code) r.(was_fixed) r.(stage_errors).

Definition add_stage_error (msg : string) (r : ValidationResult) : ValidationResult :=
  mkValidation r.(quality_score) r.(has_errors) r.(errors)
    r.(golangci_lint_errors) r.(total_errors) r.(validation_passed)
    r.(model_name) r.(fixed_code) r.(was_fixed) (r.(stage_errors) ++ [msg]).

Definition set_has_errors (b : bool) (r : ValidationResult) : ValidationResult :=
  mkValidation r.(quality_score) b r.(errors)
    r.(golangci_lint_errors) r.(total_errors) r.(validation_passed)
    r.(model_name) r.(fixed_code) r.(was_fixed) r.(stage_errors).

Definition set_fixed_code (c : string) (r : ValidationResult) : ValidationResult :=
  mkValidation r.(quality_score) r.(has_errors) r.(errors)
    r.(golangci_lint_errors) r.(total_errors) r.(validation_passed)
    r.(model_name) (Some c) r.(was_fixed) r.(stage_errors).

Definition set_counts (n : Z) (r : ValidationResult) : ValidationResult :=
  mkValidation r.(quality_score) r.(has_errors) r.(errors)
    n n r.(validation_passed)
    r.(model_name) r.(fixed_code) r.(was_fixed) r.(stage_errors).

Definition set_quality (q : Q) (r : ValidationResult) : ValidationResult :=
  mkValidation q r.(has_errors) r.(errors)
    r.(golangci_lint_errors) r.(total_errors) r.(validation_passed)
    r.(model_name) r.(fixed_code) r.(was_fixed) r.(stage_errors).

Definition set_passed (b : bool) (r : ValidationResult) : ValidationResult :=
  mkValidation r.(quality_score) r.(has_errors) r.(errors)
    r.(golangci_lint_errors) r.(total_errors) b
    r.(model_name) r.(fixed_code) r.(was_fixed) r.(stage_errors).

(** [max(0.0, 1.0 - (golangci_lint_errors * 0.08))] *)
Definition score_of_count (n : Z) : Q :=
  Qmax 0 (1 - inject_Z n * (8 # 100)).

(** [quality_score >= 0.5] *)
Definition meets_threshold (q : Q) : bool := Qle_bool (1 # 2) q.

(** What [subprocess.run(..., capture_output=True, text=True)] returns. *)
Record CompletedProcess : Type := mkProcess {
  stdout : string;
  stderr : string;
  returncode : Z
}.

(** What the host does during one validation: creating the temporary
    directory, writing the code file, creating the script (the
    constructor [StaticCodeValidator()]) and running it under the 650 s
    timeout.  Each step either succeeds or raises. *)
Record LintEnv : Type := mkLintEnv {
  mkdtemp : result unit;
  write_code : result unit;
  make_script : result unit;
  run_script : result CompletedProcess
}.

(** One invocation of the external validator: the code and the model
    name that names its file. *)
Definition LintCall : Type := (string * string)%type.

(** The state of the guarded region: the dictionary under construction
    and the validator invocations made so far. *)
Record VState : Type := mkVState {
  report : ValidationResult;
  calls : list LintCall
}.

Definition on_report (f : ValidationResult -> ValidationResult) : M VState unit :=
  modify (fun s => mkVState (f s.(report)) s.(calls)).

Definition log_call (c : LintCall) : M VState unit :=
  modify (fun s => mkVState s.(report) (s.(calls) ++ [c])).

(** What the validator takes from outside: [json.loads] ([None] stands for
    [json.JSONDecodeError]), the rendering [str(v)] of a decoded value in an
    f-string, and the host's behaviour for the validation of a code under a
    model name. *)
Record Oracles : Type := mkOracles {
  json_loads : string -> option json;
  py_str : json -> string;
  lint_env : string -> string -> LintEnv
}.

Section Validator.

Variable o : Oracles.

Local Open Scope py_scope.

(** [count_error_lines(issue_text)] on whatever [issue.get('Text', '')]
    returned: a falsy value leaves at the first test, any other
    non-string has no [strip]. *)
Definition count_error_lines_of (issue_text : json) : result Z :=
  match issue_text with
  | JStr s => Ok (count_error_lines s)
  | v => if truthy v
         then Raise "AttributeError: object has no attribute 'strip'"
         else Ok 0
  end.

(** [[line.strip() for line in issue_text.split('\n') if line.strip()]] *)
Definition error_lines_of (issue_text : json) : result (list string) :=
  match issue_text with
  | JStr s =>
      Ok (map strip
            (filter (fun line => negb (is_empty (strip line))) (split_nl s)))
  | _ => Raise "AttributeError: object has no attribute 'split'"
  end.

(** Body of [for error_line in error_lines]. *)
Definition record_error_line (loc linter : json) (error_line : string)
  : M VState unit :=
  if startswith "#" error_line then ret tt
  else
    line_no <- lift (dict_get loc "Line" (JStr "?")) ;;
    let error_msg :=
      "Line " ++ o.(py_str) line_no ++ ": " ++ error_line
              ++ " [" ++ o.(py_str) linter ++ "]" in
    on_report (add_error error_msg) ;;;
    on_report (add_stage_error error_msg).

(** Body of [for issue in lint_issues] (step 6), threading the local
    [golangci_lint_errors]. *)
Definition process_issue (golangci_lint_errors : Z) (issue : json)
  : M VState Z :=
  issue_text <- lift (dict_get issue "Text" (JStr "")) ;;
  error_line_count <- lift (count_error_lines_of issue_text) ;;
  let golangci_lint_errors := golangci_lint_errors + error_line_count in
  loc <- lift (dict_get issue "Pos" (JObj [])) ;;
  linter <- lift (dict_get issue "FromLinter" (JStr "unknown")) ;;
  error_lines <- lift (error_lines_of issue_text) ;;
  for_each error_lines (record_error_line loc linter) ;;;
  ret golangci_lint_errors.

(** The decoded lint document (the body of the inner [try]). *)
Definition count_lint_data (lint_data : json) : M VState Z :=
  match lint_data with
  | JNull => ret 0
  | JObj [] => ret 0
  | _ =>
      has_key <- lift (json_in "Issues" lint_data) ;;
      if (has_key : bool) then
        lint_issues <- lift (json_index lint_data "Issues") ;;
        if truthy lint_issues then
          items <- lift (json_iter lint_issues) ;;
          fold_each items 0 process_issue
        else ret 0
      else ret 0
  end.

(** Steps 5 and 7: the issue count read off the finished process. *)
Definition count_issues (lint_result : CompletedProcess) : M VState Z :=
  if negb (is_empty lint_result.(stdout))
     && negb (is_empty (strip lint_result.(stdout)))
  then
    let stdout_clean := strip lint_result.(stdout) in
    if String.eqb stdout_clean "" || String.eqb stdout_clean "null"
       || String.eqb stdout_clean "{}"
    then ret 0
    else
      match o.(json_loads) stdout_clean with
      | Some lint_data => count_lint_data lint_data
      | None => ret 0    (* except json.JSONDecodeError: assume no errors *)
      end
  else
    if lint_result.(returncode) =? 0 then ret 0
    else
      on_report (add_error ("Validation failed: exit code "
                              ++ str_of_Z lint_result.(returncode))) ;;;
      on_report (set_has_errors true) ;;;
      ret 1.

(** Step 8: the final fields, from the issue count. *)
Definition finalize (code : string) (golangci_lint_errors : Z)
  (r : ValidationResult) : ValidationResult :=
  let r := set_counts golangci_lint_errors r in
  let r := set_fixed_code code r in
  let quality := score_of_count golangci_lint_errors in
  let r := set_quality quality r in
  let r := set_has_errors (0 <? golangci_lint_errors) r in
  set_passed (meets_threshold quality) r.

(** The body of the outer [try] (steps 2 to 8); its value is the issue
    count it reached step 8 with. *)
Definition guarded_region (code model : string) : M VState Z :=
  let env := o.(lint_env) code model in
  lift env.(write_code) ;;;
  lift env.(make_script) ;;;
  log_call (code, model) ;;;
  lint_result <- lift env.(run_script) ;;
  golangci_lint_errors <- count_issues lint_result ;;
  on_report (finalize code golangci_lint_errors) ;;;
  ret golangci_lint_errors.

(** The state in which the guarded region is entered. *)
Definition start_state (model : string) : VState :=
  mkVState (initial_result model) [].

(** Step 9: [except Exception as e]. *)
Definition on_exception (code msg : string) (r : ValidationResult)
  : ValidationResult :=
  set_fixed_code code
    (set_has_errors true (add_error ("Validation error: " ++ msg) r)).

(** [StaticCodeValidator.validate_and_fix_go_code(code, model_name)]:
    the report, or the exception that leaves the function, with the
    validator invocations made. *)
Definition validate_and_fix_go_code (code model : string)
  : result ValidationResult * list LintCall :=
  let validation_result := initial_result model in
  if is_empty code || is_empty (strip code) then
    (Ok (set_fixed_code code
           (set_has_errors true (add_error "Empty code" validation_result))),
     [])
  else
    match (o.(lint_env) code model).(mkdtemp) with
    | Raise msg => (Raise msg, [])
    | Ok _ =>
        match guarded_region code model (mkVState validation_result []) with
        | (Ok _, s) => (Ok s.(report), s.(calls))
        | (Raise msg, s) => (Ok (on_exception code msg s.(report)), s.(calls))
        end
    end.

(** The report for a language the validator does not support. *)
Definition unsupported_result (code model : string) : ValidationResult :=
  mkValidation (1 # 2) false [] 0 0 true model (Some code) false [].

(** [StaticCodeValidator.validate_code(code, language, model_name)] *)
Definition validate_code (code language model : string)
  : result ValidationResult * list LintCall :=
  let language :=
    if String.eqb language "auto" then
      if contains "package " code && contains "func " code then "go"
      else language
    else language in
  if String.eqb language "go" then validate_and_fix_go_code code model
  else (Ok (unsupported_result code model), []).

End Validator.

(* ================================================================== *)
(** * The truncation-aware generator *)
(* ================================================================== *)

(** What [client.chat.completions.create] returns, as the generator reads
    it: [choice.message.content] (which may be [None]),
    [choice.finish_reason] and [completion.usage.total_tokens] (absent
    when [usage] is [None]). *)
Record ChatCompletion : Type := mkCompletion {
  content : option string;
  finish_reason : string;
  usage_total_tokens : option Z
}.

(** A chat backend: the call number (from 1), the system and the user
    message give the completion or an exception. *)
Definition ChatClient : Type := Z -> string -> string -> result ChatCompletion.

Record GenMetadata : Type := mkGenMetadata {
  iterations : Z;
  finish_reasons : list string;
  total_tokens : Z;
  was_truncated : bool;
  gen_error : option string
}.

(** The local variables of [generate_with_continuation], with the list of
    backend calls made. *)
Record GenState : Type := mkGenState {
  full_response : string;
  iteration : Z;
  gen_metadata : GenMetadata;
  current_system : string;
  current_user : string;
  backend_calls : list (string * string)
}.

Definition continuation_system : string :=
  "You are continuing code generation. Continue EXACTLY from where the code was cut off. Do not repeat.".

Definition continuation_user (full : string) : string :=
  "Previous code (truncated at end):

" ++ full ++ "

CONTINUE the code from the exact point where it was cut off. Start with the incomplete line/function and complete it. Do not add explanations.".

Definition set_gen_error (msg : string) (m : GenMetadata) : GenMetadata :=
  mkGenMetadata m.(iterations) m.(finish_reasons) m.(total_tokens)
    m.(was_truncated) (Some msg).

(** The [while iteration < self.max_iterations] loop; [remaining] is
    [max_iterations - iteration], so the loop test holds exactly when it
    is a successor. *)
Fixpoint generation_loop (client : ChatClient) (remaining : nat) (st : GenState)
  : GenState :=
  match remaining with
  | O => st
  | S remaining' =>
      let iteration := st.(iteration) + 1 in
      let calls :=
        (st.(backend_calls) ++ [(st.(current_system), st.(current_user))])%list in
      let failed full md msg :=
        mkGenState full iteration (set_gen_error msg md)
          st.(current_system) st.(current_user) calls in
      match client iteration st.(current_system) st.(current_user) with
      | Raise msg => failed st.(full_response) st.(gen_metadata) msg
      | Ok completion =>
          match completion.(content) with
          | None =>
              failed st.(full_response) st.(gen_metadata)
                "can only concatenate str (not 'NoneType') to str"
          | Some chunk =>
              let full := st.(full_response) ++ chunk in
              let md := st.(gen_metadata) in
              let reasons :=
                (md.(finish_reasons) ++ [completion.(finish_reason)])%list in
              let md1 :=
                mkGenMetadata iteration reasons md.(total_tokens)
                  md.(was_truncated) md.(gen_error) in
              match completion.(usage_total_tokens) with
              | None =>
                  failed full md1
                    "'NoneType' object has no attribute 'total_tokens'"
              | Some used =>
                  let md2 :=
                    mkGenMetadata iteration reasons (md.(total_tokens) + used)
                      md.(was_truncated) md.(gen_error) in
                  if String.eqb completion.(finish_reason) "stop" then
                    mkGenState full iteration md2
                      st.(current_system) st.(current_user) calls
                  else if String.eqb completion.(finish_reason) "length" then
                    let md3 :=
                      mkGenMetadata iteration reasons (md.(total_tokens) + used)
                        true md.(gen_error) in
                    generation_loop client remaining'
                      (mkGenState full iteration md3
                         continuation_system (continuation_user full) calls)
                  else
                    mkGenState full iteration md2
                      st.(current_system) st.(current_user) calls
              end
          end
      end
  end.

Definition initial_gen_state (system_prompt user_prompt : string) : GenState :=
  mkGenState "" 0 (mkGenMetadata 0 [] 0 false None) system_prompt user_prompt [].

(** [IterativeGenerator(client, name, max_iterations)
       .generate_with_continuation(system_prompt, user_prompt)]:
    the cleaned text, the metadata and the backend calls made. *)
Definition generate_with_continuation (client : ChatClient) (max_iterations : Z)
  (system_prompt user_prompt : string)
  : string * GenMetadata * list (string * string) :=
  let st :=
    generation_loop client (Z.to_nat max_iterations)
      (initial_gen_state system_prompt user_prompt) in
  (clean_code_artifacts st.(full_response), st.(gen_metadata), st.(backend_calls)).

(* ================================================================== *)
(** * Candidates and the combined ranking score *)
(* ================================================================== *)

(** The [metadata] dictionary of a candidate: the three keys of a
    successful query, or the single key [error]. *)
Record Metadata : Type := mkMetadata {
  generation : option GenMetadata;
  static_validation : option ValidationResult;
  context_size : option Z;
  md_error : option string
}.

(** One entry of the list built by [query_all_models]. *)
Record Candidate : Type := mkCandidate {
  model : string;
  response : string;
  duration : Q;
  response_length : Z;
  metadata : Metadata
}.

(** [r.get('metadata', {}).get('static_validation', {}).get('quality_score', 0.0)] *)
Definition candidate_quality (r : Candidate) : Q :=
  match r.(metadata).(static_validation) with
  | Some v => v.(quality_score)
  | None => 0
  end.

(** [static_val.get('has_errors')], falsy when there is no report. *)
Definition candidate_has_errors (r : Candidate) : bool :=
  match r.(metadata).(static_validation) with
  | Some v => v.(has_errors)
  | None => false
  end.

(** The inner function [get_combined_score] of [query_all_models]. *)
Definition get_combined_score (r : Candidate) : Q :=
  let quality_score := candidate_quality r in
  let duration := r.(duration) in
  let time_score := Qmax 0 (1 - duration / 30) in
  let completeness := Qmin (inject_Z r.(response_length) / 3000) 1 in
  (quality_score * (70 # 100)) + (time_score * (10 # 100))
  + (completeness * (20 # 100)).

(** [results.sort(key=key, reverse=True)]: a stable sort, larger keys
    first; elements with equal keys keep their order.  The keys are
    exact rationals here, while the program compares their binary64
    values: elements whose exact keys are equal may come in either order
    in the program. *)
Fixpoint insert_desc {A} (key : A -> Q) (x : A) (l : list A) : list A :=
  match l with
  | [] => [x]
  | y :: ys =>
      if Qle_bool (key y) (key x) then x :: y :: ys
      else y :: insert_desc key x ys
  end.

Definition sort_desc {A} (key : A -> Q) (l : list A) : list A :=
  fold_right (insert_desc key) [] l.

(* ================================================================== *)
(** * Models, their backends and the refinement loop *)
(* ================================================================== *)

(** The fields of [ModelConfig] that the orchestration reads. *)
Record ModelConfig : Type := mkConfig {
  cfg_name : string;
  cfg_type : string
}.

(** The language model behind one configuration, as the refinement
    requests reach it, keyed by the refinement iteration:
    [AzureOpenAI(...).complete(prompt)] rendered by [str], and
    [OpenAI(...).chat.completions.create(system, user)]. *)
Record RefineBackend : Type := mkRefineBackend {
  complete : Z -> string -> result string;
  refine_chat : ChatClient
}.

Definition refinement_system : string :=
  "You are an expert Go developer. Fix the provided code errors while maintaining the exact same structure, format, and style. Only address the specific errors mentioned.".

Definition refinement_prompt (errors_text code_to_refine : string) : string :=
  "Here is source code that has some errors. Fix these errors while retaining the same format, structure, and style. Just address the errors without changing the overall approach or architecture.

ERRORS TO FIX:
" ++ errors_text ++ "

SOURCE CODE TO FIX:
```go
" ++ code_to_refine ++ "
```

Please provide the corrected code that fixes these specific errors while maintaining the same structure and functionality. Return only the corrected Go code without explanations.".

(** [_request_refinement_from_model]: the refined code, or [None]. *)
Definition request_refinement (backend : RefineBackend)
  (code_to_refine : string) (errors_context : list string)
  (model_config : ModelConfig) (iteration : Z) : option string :=
  let errors_text :=
    join_nl (map (fun error => "- " ++ error) (firstn 10 errors_context)) in
  let prompt := refinement_prompt errors_text code_to_refine in
  let answer : result (option string) :=
    if String.eqb model_config.(cfg_type) "azure_openai" then
      match backend.(complete) iteration prompt with
      | Ok text => Ok (Some text)
      | Raise msg => Raise msg
      end
    else if String.eqb model_config.(cfg_type) "openai_compatible" then
      match backend.(refine_chat) iteration refinement_system prompt with
      | Ok completion => Ok completion.(content)
      | Raise msg => Raise msg
      end
    else Ok None in
  match answer with
  | Ok (Some refined_code) =>
      if is_empty refined_code then None else Some (strip refined_code)
  | Ok None => None
  | Raise _ => None
  end.

(** One entry of [iteration_details]. *)
Record IterationData : Type := mkIterationData {
  it_iteration : Z;
  errors_before : Z;
  errors_after : Z;
  validation_result : ValidationResult;
  improvement : Z
}.

Record RefinementMetadata : Type := mkRefinementMetadata {
  refinement_needed : bool;
  initial_errors : Z;
  iterations_performed : Z;
  iteration_details : list IterationData;
  final_errors : Z;
  refinement_successful : bool
}.

(** How the refinement loop was left: the refinement request gave
    nothing, the validation counted no error, an iteration after the
    first brought no improvement, or the range was used up.
    [ExitNotNeeded] is the early return before the loop. *)
Inductive LoopExit : Type :=
| ExitNotNeeded
| ExitRequestFailed
| ExitSuccessful
| ExitNoImprovement
| ExitRangeDone.

(** The variables of [refine_response_iteratively] that the loop
    updates, with the iterations for which a refinement was requested. *)
Record RefineState : Type := mkRefineState {
  current_response : string;
  current_validation : option ValidationResult;
  refinement_metadata : RefinementMetadata;
  requests : list Z
}.

Section Refinement.

Variable o : Oracles.
Variable backend : RefineBackend.

(** [for iteration in range(1, self.max_refinement_iterations + 1)]:
    [remaining] iterations are left, the next one is [iteration]. *)
Fixpoint refinement_loop (best_model : string) (model_config : ModelConfig)
  (initial_validation : ValidationResult)
  (remaining : nat) (iteration : Z) (st : RefineState)
  : result (RefineState * LoopExit) :=
  match remaining with
  | O => Ok (st, ExitRangeDone)
  | S remaining' =>
      let code_to_refine :=
        if 1 <? iteration then clean_code_artifacts st.(current_response)
        else st.(current_response) in
      let errors_context :=
        if iteration =? 1 then initial_validation.(errors)
        else match st.(current_validation) with
             | Some v => v.(errors)
             | None => []
             end in
      let asked := (st.(requests) ++ [iteration])%list in
      match request_refinement backend code_to_refine errors_context
              model_config iteration with
      | None =>
          Ok (mkRefineState st.(current_response) st.(current_validation)
                st.(refinement_metadata) asked,
              ExitRequestFailed)
      | Some refined_response =>
          if is_empty refined_response then
            Ok (mkRefineState st.(current_response) st.(current_validation)
                  st.(refinement_metadata) asked,
                ExitRequestFailed)
          else
            let refined_response := clean_code_artifacts refined_response in
            match fst (validate_code o
                         refined_response "auto"
                         (best_model ++ "_refined_iter" ++ str_of_Z iteration)) with
            | Raise msg => Raise msg
            | Ok validation =>
                let md := st.(refinement_metadata) in
                let current_error_count := validation.(total_errors) in
                let iteration_data :=
                  mkIterationData iteration md.(final_errors)
                    current_error_count validation
                    (md.(final_errors) - current_error_count) in
                let md' :=
                  mkRefinementMetadata md.(refinement_needed)
                    md.(initial_errors) iteration
                    (md.(iteration_details) ++ [iteration_data])
                    current_error_count md.(refinement_successful) in
                if current_error_count =? 0 then
                  Ok (mkRefineState refined_response (Some validation)
                        (mkRefinementMetadata md'.(refinement_needed)
                           md'.(initial_errors) md'.(iterations_performed)
                           md'.(iteration_details) md'.(final_errors) true)
                        asked,
                      ExitSuccessful)
                else if (1 <? iteration) && (iteration_data.(improvement) <=? 0)
                then
                  Ok (mkRefineState refined_response (Some validation) md' asked,
                      ExitNoImprovement)
                else
                  refinement_loop best_model model_config initial_validation
                    remaining' (iteration + 1)
                    (mkRefineState refined_response (Some validation) md' asked)
            end
      end
  end.

(** [refine_response_iteratively(best_response_data, model_config,
    static_validator)] for a handler with the given
    [max_refinement_iterations]: the final state and the way the loop
    was left, or the exception that escapes. *)
Definition refine_response_iteratively (max_refinement_iterations : Z)
  (best_response_data : Candidate) (model_config : ModelConfig)
  : result (RefineState * LoopExit) :=
  let current_response := best_response_data.(response) in
  match best_response_data.(metadata).(static_validation) with
  | None =>
      Ok (mkRefineState current_response None
            (mkRefinementMetadata false 0 0 [] 0 false) [],
          ExitNotNeeded)
  | Some initial_validation =>
      if negb initial_validation.(has_errors) then
        Ok (mkRefineState current_response None
              (mkRefinementMetadata false 0 0 [] 0 false) [],
            ExitNotNeeded)
      else
        let initial_error_count := initial_validation.(total_errors) in
        refinement_loop best_response_data.(model) model_config
          initial_validation (Z.to_nat max_refinement_iterations) 1
          (mkRefineState current_response None
             (mkRefinementMetadata true initial_error_count 0 []
                initial_error_count false)
             [])
  end.

End Refinement.

(* ================================================================== *)
(** * The multi-model fan-out *)
(* ================================================================== *)

(** A retrieved node: its text and [metadata.get('node_type')]. *)
Record Node : Type := mkNode {
  text : string;
  node_type : option string
}.

(** What surrounds one model during a query: the retriever, the query
    engine of an Azure model ([str(query_engine.query(query))]), the chat
    client of an OpenAI-compatible model, and the wall-clock time the
    query has taken when it is measured. *)
Record Host : Type := mkHost {
  retrieve : string -> result (list Node);
  azure_query : string -> result string;
  chat_create : ChatClient;
  elapsed : Q
}.

Fixpoint repeat_char (c : ascii) (n : nat) : string :=
  match n with
  | O => EmptyString
  | S k => String c (repeat_char c k)
  end.

Definition is_complete_file (n : Node) : bool :=
  match n.(node_type) with
  | Some t => String.eqb t "COMPLETE_FILE"
  | None => false
  end.

(** Step 1 of [query_single_model]: the reference text of the prompt. *)
Definition assemble_context (retrieved_nodes : list Node) : string :=
  let complete_file_nodes := filter is_complete_file retrieved_nodes in
  let chunk_nodes := filter (fun n => negb (is_complete_file n)) retrieved_nodes in
  let rule := repeat_char "="%char 80 in
  let files_part :=
    match complete_file_nodes with
    | [] => []
    | _ =>
        [rule; "COMPLETE REFERENCE FILES (USE AS TEMPLATES)"; rule]
        ++ flat_map
             (fun n => [n.(text);
                        String nl (repeat_char "-"%char 80 ++ String nl "")])
             (firstn 2 complete_file_nodes)
    end%list in
  let chunks_part :=
    match chunk_nodes with
    | [] => []
    | _ =>
        [rule; "ADDITIONAL DETAILED CONTEXT"; rule]
        ++ flat_map (fun n => [n.(text); String nl ""]) (firstn 8 chunk_nodes)
    end%list in
  join_nl (files_part ++ chunks_part).

Definition generation_system : string :=
  "You are an expert Go code generator specializing in Kubernetes.

CRITICAL RULES:
1. Follow the same structural pattern (function signatures, registration, comments) as provided examples
2. Use idiomatic Go: proper error handling, context usage, and structuring.
3. Handle all edge cases
6. Important: provide your answer in plain text without any markdown code fences and explanation.


Generate production-ready code that compiles without errors.".

Definition generation_user (retrieved_context query : string) : string :=
  "Study these COMPLETE reference examples and replicate their patterns:

" ++ retrieved_context ++ "

Now generate code for this request:
" ++ query ++ "

Generate COMPLETE, WORKING code following the patterns above. Use JSON Patch format for all mutations. Start now:".

(** [s.replace(a + b, r)] for a pattern of two characters. *)
Fixpoint replace_pair (a b r : ascii) (s : string) : string :=
  match s with
  | EmptyString => EmptyString
  | String c rest =>
      match rest with
      | String d rest' =>
          if Ascii.eqb c a && Ascii.eqb d b then String r (replace_pair a b r rest')
          else String c (replace_pair a b r rest)
      | EmptyString => s
      end
  end.

(** [response.replace('\\n', '\n').replace('\\t', '\t')] *)
Definition unescape (response : string) : string :=
  replace_pair "\"%char "t"%char "009"%char
    (replace_pair "\"%char "n"%char nl response).

(** [round(x, 2)]: to the nearest hundredth, ties to the even one. *)
Definition round2 (x : Q) : Q :=
  let scaled := (x * 100)%Q in
  let low := Qfloor scaled in
  let rest := (scaled - inject_Z low)%Q in
  let hundredths :=
    match Qcompare rest (1 # 2) with
    | Lt => low
    | Gt => low + 1
    | Eq => if Z.even low then low else low + 1
    end in
  (inject_Z hundredths / 100)%Q.

Section Dispatch.

Variable o : Oracles.
(** The surroundings of each configured model, by its key. *)
Variable host : string -> Host.

(** The [try] block of [query_single_model]: the response text and the
    metadata, or the exception caught by its handler. *)
Definition query_attempt (query model_key : string) (config : ModelConfig)
  : result (string * Metadata) :=
  let h := host model_key in
  match h.(retrieve) query with
  | Raise msg => Raise msg
  | Ok retrieved_nodes =>
      let retrieved_context := assemble_context retrieved_nodes in
      let generated : result (string * GenMetadata) :=
        if String.eqb config.(cfg_type) "azure_openai" then
          match h.(azure_query) query with
          | Raise msg => Raise msg
          | Ok response =>
              Ok (clean_code_artifacts response,
                  mkGenMetadata 1 ["stop"] 0 false None)
          end
        else if String.eqb config.(cfg_type) "openai_compatible" then
          let '(response_text, gen_metadata, _) :=
            generate_with_continuation h.(chat_create) 3
              generation_system (generation_user retrieved_context query) in
          Ok (response_text, gen_metadata)
        else
          Raise "local variable 'response_text' referenced before assignment" in
      match generated with
      | Raise msg => Raise msg
      | Ok (response_text, gen_metadata) =>
          match fst (validate_code o
                       response_text "auto" config.(cfg_name)) with
          | Raise msg => Raise msg
          | Ok static_validation =>
              let response_text :=
                match static_validation.(fixed_code) with
                | Some fixed => if is_empty fixed then response_text else fixed
                | None => response_text
                end in
              Ok (response_text,
                  mkMetadata (Some gen_metadata) (Some static_validation)
                    (Some (Z.of_nat (String.length retrieved_context))) None)
          end
      end
  end.

(** [query_single_model(query, model_key)], with the configuration
    that [self.model_configs[model_key]] holds. *)
Definition query_single_model (query model_key : string) (config : ModelConfig)
  : string * string * Q * Metadata :=
  let duration := (host model_key).(elapsed) in
  match query_attempt query model_key config with
  | Ok (response_text, metadata) =>
      (config.(cfg_name), response_text, duration, metadata)
  | Raise msg =>
      (config.(cfg_name), "Error: " ++ msg, duration,
       mkMetadata None None None (Some msg))
  end.

(** The dictionary appended to [results] for one finished future. *)
Definition as_candidate (answer : string * string * Q * Metadata) : Candidate :=
  let '(model_name, response, duration, metadata) := answer in
  mkCandidate model_name
    (if is_empty response then "" else unescape response)
    (round2 duration)
    (if is_empty response then 0 else Z.of_nat (String.length response))
    metadata.

(** The list [results] before it is ranked: one entry per key of
    [model_configs], in the order of the keys. *)
Definition collect_results (query : string)
  (model_configs : list (string * ModelConfig)) : list Candidate :=
  map (fun kc => as_candidate (query_single_model query (fst kc) (snd kc)))
    model_configs.

(** [query_all_models(query)] *)
Definition query_all_models (query : string)
  (model_configs : list (string * ModelConfig)) : list Candidate :=
  sort_desc get_combined_score (collect_results query model_configs).

End Dispatch.

(* ================================================================== *)
(** * The validator's arithmetic on IEEE binary64 values *)
(* ================================================================== *)

Module Binary64.

#[local] Set Warnings "-inexact-float".
Local Open Scope float_scope.

(** [float(n)] for a count below 2^53. *)
Definition of_count (n : Z) : float := of_uint63 (Uint63.of_Z n).

(** [max(0.0, x)] *)
Definition max0 (x : float) : float := if ltb 0 x then x else 0.

(** [min(x, 1.0)] *)
Definition min1 (x : float) : float := if ltb 1 x then 1 else x.

Definition score_of_count (n : Z) : float :=
  max0 (1 - of_count n * 0.08).

Definition meets_threshold (q : float) : bool := leb 0.5 q.

(** The combined score on the three component scores. *)
Definition combine (quality time_score completeness : float) : float :=
  (quality * 0.70) + (time_score * 0.10) + (completeness * 0.20).

Definition counts_upto (n : nat) : list Z := map Z.of_nat (seq 0 n).

End Binary64.

(* ================================================================== *)
(** * The specification's wording of the line counter *)
(* ================================================================== *)

Module Spec.

Definition is_digit (c : ascii) : bool :=
  let n := nat_of_ascii c in ((48 <=? n) && (n <=? 57))%nat.

Definition is_colon (c : ascii) : bool := Ascii.eqb c ":"%char.

(** One or more digits, then a colon. *)
Fixpoint digits_then_colon (seen : bool) (s : string) : bool :=
  match s with
  | EmptyString => false
  | String c r =>
      if is_digit c then digits_then_colon true r
      else seen && is_colon c
  end.

(** A file location [<path>:<line>:]: a path character, a colon, a line
    number, a colon. *)
Fixpoint has_location_from (after_path : bool) (s : string) : bool :=
  match s with
  | EmptyString => false
  | String c r =>
      after_path && is_colon c && digits_then_colon false r
      || has_location_from (negb (isspace c) && negb (is_colon c)) r
  end.

Definition has_location (line : string) : bool := has_location_from false line.

(** One of the tokens, whatever its case. *)
Definition has_token (line : string) : bool :=
  let l := lower line in
  contains "undefined" l || contains "not used" l || contains "error" l.

(** A sub-line that counts as a distinct issue. *)
Definition countable (line : string) : bool :=
  negb (is_empty (strip line)) && negb (startswith "#" (strip line))
  && (has_location line || has_token line).

(** The issue count of a text blob as the specification words it: the
    countable sub-lines, and 1 when there is none. *)
Definition count_error_lines (issue_text : string) : Z :=
  Z.max (Z.of_nat (List.length (filter countable (split_nl issue_text)))) 1.

End Spec.

(** The sub-lines that [count_error_lines] counts, once trimmed. *)
Definition counted_line (line : string) : bool :=
  negb (is_empty line) && negb (startswith "#" line) && looks_like_error line.

(** A line that opens, once trimmed, with the [package] keyword. *)
Definition is_package_line (line : string) : bool :=
  startswith package_kw (strip line).

(** The first [package] line of a text, if it has one, is its first line. *)
Definition package_line_first (response : string) : bool :=
  match split_nl response with
  | [] => true
  | first :: rest =>
      is_package_line first || forallb (fun l => negb (is_package_line l)) rest
  end.

(* ================================================================== *)
(** * Concrete inputs *)
(* ================================================================== *)

Definition NL : string := String nl "".

(** A Go file without fences or surrounding whitespace. *)
Definition clean_go_text : string :=
  "package main" ++ NL ++ NL ++ "func main() {}".

(** A Go file whose [package] line follows a comment. *)
Definition commented_go_text : string :=
  "// Code generated by a model." ++ NL ++ "package main" ++ NL ++ NL
  ++ "func main() {}".

Definition capitals_text : string :=
  "Undefined: x" ++ NL ++ "y declared and Not Used".

Definition c_locations_text : string :=
  "main.c:3:1: bad call" ++ NL ++ "main.c:4:1: bad call".

Definition go_mentions_text : string :=
  "see main.go: fine" ++ NL ++ "see util.go: fine".

(** A rendering of decoded values for the concrete runs. *)
Definition show_json (v : json) : string :=
  match v with
  | JStr s => s
  | JNum q => str_of_Z (Qfloor q)
  | JNull => "None"
  | JBool true => "True"
  | JBool false => "False"
  | JArr _ => "[...]"
  | JObj _ => "{...}"
  end.

Definition go_code : string :=
  "package main" ++ NL ++ NL ++ "func main() { x := 1 }".

(** A host on which every step succeeds and the script prints [out] and
    exits with [code]. *)
Definition host_printing (out : string) (code : Z) : LintEnv :=
  mkLintEnv (Ok tt) (Ok tt) (Ok tt) (Ok (mkProcess out "" code)).

(** One lint issue whose text groups two compiler errors under a header. *)
Definition grouped_issue : json :=
  JObj [("Text",
         JStr ("# temp/validation" ++ NL
               ++ "./m.go:3:2: x declared and not used" ++ NL
               ++ "./m.go:4:2: undefined: y"));
        ("Pos", JObj [("Line", JNum 3)]);
        ("FromLinter", JStr "typecheck")].

Definition lint_document (issues : list json) : json :=
  JObj [("Issues", JArr issues)].

(** A decoder that reads every output as the given document, and one
    that rejects every output. *)
Definition decode_as (doc : json) : string -> option json := fun _ => Some doc.
Definition decode_nothing : string -> option json := fun _ => None.

(** A snippet that is not Go. *)
Definition python_code : string := "print('hello')".

(** The host of the concrete validations: the script prints a document. *)
Definition printing_host : string -> string -> LintEnv :=
  fun _ _ => host_printing "{...}" 1.

(** A host whose script crashes, one whose script is killed by the
    timeout, and one whose script prints something that is not JSON. *)
Definition timing_out_host : string -> string -> LintEnv :=
  fun _ _ => mkLintEnv (Ok tt) (Ok tt) (Ok tt)
               (Raise "Command timed out after 650 seconds").

Definition garbled_host : string -> string -> LintEnv :=
  fun _ _ => host_printing "panic: runtime error" 2.

(** A host on which the temporary directory cannot be created. *)
Definition full_disk_host : string -> string -> LintEnv :=
  fun _ _ => mkLintEnv (Raise "No space left on device") (Ok tt) (Ok tt)
               (Ok (mkProcess "" "" 0)).

(** A backend that is cut off on every call before call [b] and
    completes on call [b]. *)
Definition scripted_client (b : Z) : ChatClient :=
  fun call _ _ =>
    Ok (mkCompletion (Some "x := 1;") (if call <? b then "length" else "stop")
          (Some 10)).

(** A backend that raises on every call. *)
Definition failing_client : ChatClient :=
  fun _ _ _ => Raise "connection refused".

(** A lint issue with a single error, and a document of [n] of them. *)
Definition single_issue : json :=
  JObj [("Text", JStr "./m.go:4:2: undefined: y");
        ("Pos", JObj [("Line", JNum 4)]);
        ("FromLinter", JStr "typecheck")].

Definition issues_document (n : nat) : json := lint_document (repeat single_issue n).

(** A decoder for the outputs of the scripted hosts below: the output
    names its number of issues. *)
Definition decode_named : string -> option json :=
  fun out =>
    if String.eqb out "twelve" then Some (issues_document 12)
    else if String.eqb out "five" then Some (issues_document 5)
    else if String.eqb out "four" then Some (issues_document 4)
    else if String.eqb out "two" then Some (issues_document 2)
    else if String.eqb out "none" then Some (issues_document 0)
    else None.

(** A host whose lint run finds 5, 2 and 2 issues in the three refined
    versions of a model's code, and one that finds 4 and then none. *)
Definition host_5_2_2 : string -> string -> LintEnv :=
  fun _ name =>
    if String.eqb name "gpt_refined_iter1" then host_printing "five" 1
    else host_printing "two" 1.

Definition host_4_0 : string -> string -> LintEnv :=
  fun _ name =>
    if String.eqb name "gpt_refined_iter1" then host_printing "four" 1
    else host_printing "none" 0.

(** A model that answers every refinement request with the same file. *)
Definition steady_backend : RefineBackend :=
  mkRefineBackend (fun _ _ => Ok go_code) failing_client.

Definition azure_config : ModelConfig := mkConfig "gpt" "azure_openai".

(** A best candidate whose report counts 8 errors. *)
Definition faulty_candidate : Candidate :=
  mkCandidate "gpt" go_code 2 (Z.of_nat (String.length go_code))
    (mkMetadata (Some (mkGenMetadata 1 ["stop"] 0 false None))
       (Some (mkValidation (36 # 100) true ["Line 4: undefined: y [typecheck]"]
                8 8 false "gpt" (Some go_code) false []))
       (Some 0) None).

(** The combined score as the specification writes it, on the quality
    score [q], the duration [d] in seconds and the response length [len]. *)
Definition spec_combined_score (q d : Q) (len : Z) : Q :=
  ((7 # 10) * q + (1 # 10) * Qmax 0 (1 - d / 30)
   + (2 # 10) * Qmin (inject_Z len / 3000) 1)%Q.

(** Three configured models: the first raises on every query, the other
    two answer slowly with a short file in which the lint run finds
    twelve errors. *)
Definition three_models : list (string * ModelConfig) :=
  [("MODEL_1", mkConfig "alpha" "azure_openai");
   ("MODEL_2", mkConfig "beta" "azure_openai");
   ("MODEL_3", mkConfig "gamma" "azure_openai")].

Definition three_hosts : string -> Host :=
  fun key =>
    if String.eqb key "MODEL_1" then
      mkHost (fun _ => Ok []) (fun _ => Raise "connection refused")
        failing_client 1
    else
      mkHost (fun _ => Ok []) (fun _ => Ok go_code) failing_client 40.

Definition twelve_errors_host : string -> string -> LintEnv :=
  fun _ _ => host_printing "twelve" 1.

(** The same three models when the lint run finds nothing to report. *)
Definition clean_host : string -> string -> LintEnv :=
  fun _ _ => host_printing "none" 0.

(** An OpenAI-compatible model whose client raises on every call. *)
Definition chat_config : ModelConfig := mkConfig "delta" "openai_compatible".

(** A host whose script prints nothing and exits with the code 3. *)
Definition silent_failure_host : string -> string -> LintEnv :=
  fun _ _ => host_printing "" 3.

(** The oracles of the concrete runs. *)
Definition silent_failure_oracles : Oracles :=
  mkOracles decode_nothing show_json silent_failure_host.

(** Oracles that decode the output as the number 5. *)
Definition number_oracles : Oracles :=
  mkOracles (decode_as (JNum 5)) show_json printing_host.

Definition grouped_oracles : Oracles :=
  mkOracles (decode_as (lint_document [grouped_issue])) show_json printing_host.

Definition document_oracles (n : nat) : Oracles :=
  mkOracles (decode_as (issues_document n)) show_json printing_host.

Definition garbled_oracles : Oracles :=
  mkOracles decode_nothing show_json garbled_host.

Definition full_disk_oracles : Oracles :=
  mkOracles decode_nothing show_json full_disk_host.

Definition timing_out_oracles : Oracles :=
  mkOracles decode_nothing show_json timing_out_host.

Definition oracles_5_2_2 : Oracles := mkOracles decode_named show_json host_5_2_2.

Definition oracles_4_0 : Oracles := mkOracles decode_named show_json host_4_0.

Definition clean_oracles : Oracles := mkOracles decode_named show_json clean_host.

Definition twelve_errors_oracles : Oracles :=
  mkOracles decode_named show_json twelve_errors_host.

(** The ranking of the three models when the lint run finds twelve
    errors in the files of the two that answer. *)
Definition ranked_with_twelve_errors : list Candidate :=
  query_all_models twelve_errors_oracles three_hosts
    "add a webhook" three_models.

(* ================================================================== *)
(** * Predicates of the proofs *)
(* ================================================================== *)

(** A property of the state that a computation keeps, however it ends. *)
Definition preserves {S A} (P : S -> Prop) (m : M S A) : Prop :=
  forall s x s', m s = (x, s') -> P s -> P s'.

(** The fields that only step 8 writes are still the initial ones. *)
Definition unscored (s : VState) : Prop :=
  s.(report).(total_errors) = 0
  /\ s.(report).(quality_score) = 0%Q
  /\ s.(report).(validation_passed) = false.

(** What holds of the loop state when iteration [i] is about to start. *)
Definition loop_entry (i : Z) (st : RefineState) : Prop :=
  1 <= i
  /\ iterations_performed (refinement_metadata st) = i - 1
  /\ refinement_successful (refinement_metadata st) = false
  /\ Z.of_nat (List.length (iteration_details (refinement_metadata st))) = i - 1
  /\ Z.of_nat (List.length (requests st)) = i - 1.

(** What holds when the loop is left, [bound] being the last iteration of
    the range. *)
Definition loop_result (bound : Z) (st : RefineState) (exit : LoopExit) : Prop :=
  let md := refinement_metadata st in
  0 <= iterations_performed md <= bound
  /\ Z.of_nat (List.length (iteration_details md)) = iterations_performed md
  /\ Z.of_nat (List.length (requests st)) <= bound
  /\ (refinement_successful md = true <-> exit = ExitSuccessful)
  /\ (exit = ExitSuccessful ->
      final_errors md = 0
      /\ exists earlier d,
          iteration_details md = (earlier ++ [d])%list
          /\ errors_after d = 0
          /\ total_errors (validation_result d) = 0
          /\ current_validation st = Some (validation_result d))
  /\ (exit = ExitNoImprovement ->
      exists earlier d,
        iteration_details md = (earlier ++ [d])%list
        /\ it_iteration d = iterations_performed md
        /\ 1 < it_iteration d
        /\ improvement d = errors_before d - errors_after d
        /\ improvement d <= 0).

(* ================================================================== *)
(** * Invariants of the generator *)
(* ================================================================== *)

(** What holds of the generator's variables whenever the loop test is
    evaluated: every call so far was recorded and cut off. *)
Definition gen_entry (st : GenState) : Prop :=
  0 <= iteration st
  /\ iterations (gen_metadata st) = iteration st
  /\ Z.of_nat (List.length (finish_reasons (gen_metadata st))) = iteration st
  /\ Z.of_nat (List.length (backend_calls st)) = iteration st
  /\ Forall (eq "length") (finish_reasons (gen_metadata st))
  /\ (was_truncated (gen_metadata st) = true
      <-> finish_reasons (gen_metadata st) <> [])
  /\ gen_error (gen_metadata st) = None.

(** What holds when the loop is left, [bound] being the largest number
    of calls the loop test allows. *)
Definition gen_exit (bound : Z) (st : GenState) : Prop :=
  let md := gen_metadata st in
  Z.of_nat (List.length (backend_calls st)) = iteration st
  /\ iteration st <= bound
  /\ Z.of_nat (List.length (finish_reasons md)) = iterations md
  /\ iterations md <= iteration st
  /\ (gen_error md = None -> iterations md = iteration st)
  /\ Forall (eq "length") (removelast (finish_reasons md))
  /\ (was_truncated md = true -> In "length" (finish_reasons md)).

(** The calls numbered [from + 1] to [from + n]. *)
Definition call_numbers (from : Z) (n : nat) : list Z :=
  map (fun k => from + Z.of_nat k) (seq 1 n).

(** The chunks of the given calls, one after the other, and the tokens
    they used. *)
Definition chunks_of (chunk : Z -> string) (calls : list Z) : string :=
  fold_right (fun call rest => chunk call ++ rest) "" calls.

Definition tokens_of (used : Z -> Z) (calls : list Z) : Z :=
  fold_right (fun call rest => used call + rest) 0 calls.

(** The backend answers each of the calls [from + 1 .. from + n],
    whatever the messages, with the call's chunk, cut off by the token
    limit. *)
Definition cut_off_calls (client : ChatClient) (chunk : Z -> string)
  (used : Z -> Z) (from : Z) (n : nat) : Prop :=
  forall call sys usr, from < call <= from + Z.of_nat n ->
    client call sys usr
    = Ok (mkCompletion (Some (chunk call)) "length" (Some (used call))).

(** A backend whose every answer is cut off: call [k] gives the decimal
    numeral of [k] followed by a semicolon, for [k] tokens. *)
Definition numbering_chunk (call : Z) : string := str_of_Z call ++ ";".

Definition cut_off_client : ChatClient :=
  fun call _ _ => Ok (mkCompletion (Some (numbering_chunk call)) "length" (Some call)).

(** The same backend, except that call [n] ends for the given reason. *)
Definition ending_client (n : Z) (reason : string) : ChatClient :=
  fun call _ _ =>
    Ok (mkCompletion (Some (numbering_chunk call))
          (if call =? n then reason else "length") (Some call)).

(** The same backend, except that call [n] raises. *)
Definition breaking_client (n : Z) (msg : string) : ChatClient :=
  fun call _ _ =>
    if call =? n then Raise msg
    else Ok (mkCompletion (Some (numbering_chunk call)) "length" (Some call)).

(** The state [st'] that [m] calls which were cut off lead to from [st]. *)
Definition after_cut_off (chunk : Z -> string) (used : Z -> Z)
  (st : GenState) (m : nat) (st' : GenState) : Prop :=
  iteration st' = iteration st + Z.of_nat m
  /\ full_response st'
     = full_response st ++ chunks_of chunk (call_numbers (iteration st) m)
  /\ iterations (gen_metadata st') = iteration st'
  /\ finish_reasons (gen_metadata st')
     = (finish_reasons (gen_metadata st) ++ repeat "length" m)%list
  /\ total_tokens (gen_metadata st')
     = total_tokens (gen_metadata st)
       + tokens_of used (call_numbers (iteration st) m)
  /\ was_truncated (gen_metadata st')
     = was_truncated (gen_metadata st) || (0 <? Z.of_nat m)
  /\ gen_error (gen_metadata st') = gen_error (gen_metadata st)
  /\ List.length (backend_calls st')
     = (List.length (backend_calls st) + m)%nat.

(* ================================================================== *)
(** * Invariants of the validator *)
(* ================================================================== *)

(** The fields of the report that only the start and step 8 write, and
    the invocations made, compared with those of [s0]. *)
Definition same_identity (s0 s : VState) : Prop :=
  was_fixed (report s) = was_fixed (report s0)
  /\ model_name (report s) = model_name (report s0)
  /\ fixed_code (report s) = fixed_code (report s0)
  /\ golangci_lint_errors (report s) = golangci_lint_errors (report s0)
  /\ calls s = calls s0.

(** No error message is recorded unless an error has been counted. *)
Definition errors_counted (count : Z) (s : VState) : Prop :=
  errors (report s) = [] \/ 0 < count.

(** The report of the concrete validation with one grouped issue. *)
Definition grouped_report : ValidationResult :=
  Eval vm_compute in
    match fst (validate_code grouped_oracles go_code "auto" "gpt") with
    | Ok r => r
    | Raise _ => initial_result ""
    end.

(* ================================================================== *)
(** * Invariants of the refinement loop *)
(* ================================================================== *)

(** The entries of [iteration_details] form a chain: they are numbered
    from [i], each starts from the error count that the one before ended
    with ([before] for the first), ends with the count of its own
    validation, and records the difference as its improvement. *)
Fixpoint chain_from (before i : Z) (details : list IterationData) : Prop :=
  match details with
  | [] => True
  | d :: rest =>
      it_iteration d = i
      /\ errors_before d = before
      /\ errors_after d = total_errors (validation_result d)
      /\ improvement d = errors_before d - errors_after d
      /\ chain_from (errors_after d) (i + 1) rest
  end.

(** The count the last entry ended with, [before] when there is none. *)
Definition last_errors (before : Z) (details : list IterationData) : Z :=
  last (map errors_after details) before.

Definition total_improvement (details : list IterationData) : Z :=
  fold_right (fun d rest => improvement d + rest) 0 details.

Definition history_ok (md : RefinementMetadata) : Prop :=
  chain_from (initial_errors md) 1 (iteration_details md)
  /\ final_errors md = last_errors (initial_errors md) (iteration_details md)
  /\ Z.of_nat (List.length (iteration_details md)) = iterations_performed md.

(** The returned response is the one the metadata describes: the
    untouched response of the candidate when no iteration was performed,
    and otherwise the text whose validation, under the name of the last
    iteration, is [current_validation] and counts [final_errors]. *)
Definition describes_response (o : Oracles) (best_model response0 : string)
  (st : RefineState) : Prop :=
  let md := refinement_metadata st in
  (iterations_performed md = 0
   /\ current_response st = response0
   /\ current_validation st = None
   /\ final_errors md = initial_errors md)
  \/ (1 <= iterations_performed md
      /\ exists v,
          current_validation st = Some v
          /\ fst (validate_code o (current_response st) "auto"
                    (best_model ++ "_refined_iter"
                       ++ str_of_Z (iterations_performed md))) = Ok v
          /\ final_errors md = total_errors v
          /\ exists earlier d,
              iteration_details md = (earlier ++ [d])%list
              /\ validation_result d = v).

(** The returned response is the cleaned answer to the refinement request
    of the last performed iteration; the first request is made for the
    candidate's response, with the errors of its report. *)
Definition last_answer (backend : RefineBackend) (model_config : ModelConfig)
  (response0 : string) (initial_errors_list : list string)
  (st : RefineState) : Prop :=
  let k := iterations_performed (refinement_metadata st) in
  1 <= k ->
  exists code_to_refine errors_context refined,
    request_refinement backend code_to_refine errors_context model_config k
    = Some refined
    /\ is_empty refined = false
    /\ current_response st = clean_code_artifacts refined
    /\ (k = 1 ->
        code_to_refine = response0 /\ errors_context = initial_errors_list).

(** What each way of leaving the refinement says about the metadata and
    the requests made; [bound] is the last iteration of the range. *)
Definition exit_ok (bound : Z) (st : RefineState) (exit : LoopExit) : Prop :=
  let md := refinement_metadata st in
  let asked := Z.of_nat (List.length (requests st)) in
  match exit with
  | ExitNotNeeded =>
      refinement_needed md = false /\ asked = 0
      /\ iterations_performed md = 0 /\ refinement_successful md = false
  | ExitRequestFailed =>
      refinement_needed md = true /\ asked = iterations_performed md + 1
      /\ (1 <= iterations_performed md -> final_errors md <> 0)
      /\ refinement_successful md = false
  | ExitSuccessful =>
      refinement_needed md = true /\ asked = iterations_performed md
      /\ 1 <= iterations_performed md /\ final_errors md = 0
      /\ refinement_successful md = true
  | ExitNoImprovement =>
      refinement_needed md = true /\ asked = iterations_performed md
      /\ 2 <= iterations_performed md /\ final_errors md <> 0
      /\ refinement_successful md = false
  | ExitRangeDone =>
      refinement_needed md = true /\ asked = iterations_performed md
      /\ iterations_performed md = bound
      /\ (1 <= iterations_performed md -> final_errors md <> 0)
      /\ refinement_successful md = false
  end.

(** What holds of the loop state when iteration [i] is about to start. *)
Definition refine_entry (o : Oracles) (best_model response0 : string)
  (i : Z) (st : RefineState) : Prop :=
  let md := refinement_metadata st in
  1 <= i
  /\ history_ok md
  /\ iterations_performed md = i - 1
  /\ refinement_successful md = false
  /\ refinement_needed md = true
  /\ Z.of_nat (List.length (requests st)) = i - 1
  /\ describes_response o best_model response0 st
  /\ (1 < i -> final_errors md <> 0).

(** A model of a type that the refinement does not support. *)
Definition other_config : ModelConfig := mkConfig "gpt" "anthropic".

(* ================================================================== *)
(** * The retrieved nodes that reach the prompt *)
(* ================================================================== *)


(** What [results.sort(key=get_combined_score, reverse=True)] may return
    for the collected candidates: the same candidates, by non-increasing
    combined score.  Among candidates whose exact scores are equal the
    program decides on the binary64 values of the keys, which may differ
    in the last place, so that their order is left open here. *)
Definition ranking_of (collected ranked : list Candidate) : Prop :=
  Permutation collected ranked
  /\ StronglySorted
       (fun a b => (get_combined_score b <= get_combined_score a)%Q) ranked.

(** The sort key as the program computes it, on binary64 values, for a
    candidate whose report counts [issues] errors, whose duration is
    [hundredths / 100] seconds after [round(duration, 2)] and whose
    response has [len] characters. *)
Module Binary64Key.

Local Open Scope float_scope.

Definition combined (issues hundredths len : Z) : float :=
  Binary64.combine (Binary64.score_of_count issues)
    (Binary64.max0 (1 - (Binary64.of_count hundredths / 100) / 30))
    (Binary64.min1 (Binary64.of_count len / 3000)).

End Binary64Key.

(** The same key on exact rationals. *)
Definition exact_key (issues hundredths len : Z) : Q :=
  spec_combined_score (score_of_count issues) (inject_Z hundredths / 100) len.

(** A text of three blank characters. *)
Definition blank_text : string := "   ".

(** A fenced answer with a remark before the fence. *)
Definition fenced_text : string :=
  "Here is the code:" ++ NL ++ "``````go" ++ NL ++ "package main" ++ NL
  ++ "```" ++ NL.

(* ================================================================== *)
(** * The endpoints [/query] and [/query-multi] *)
(* ================================================================== *)

(** The builder as the two endpoints read it: whether [builder.index] is
    set (it is [None] until [/build] has run), the dictionary
    [builder.model_configs] in the order of its keys, and the
    [max_refinement_iterations] of [builder.refinement_handler]. *)
Record Builder : Type := mkBuilder {
  index_built : bool;
  model_configs : list (string * ModelConfig);
  max_refinement_iterations : Z
}.

(** [for key, config in builder.model_configs.items():
       if config.name == best['model']: best_model_key = key; break] *)
Definition find_model_key (configs : list (string * ModelConfig))
  (name : string) : option string :=
  match find (fun kc => String.eqb (cfg_name (snd kc)) name) configs with
  | Some kc => Some (fst kc)
  | None => None
  end.

(** [builder.model_configs[key]] *)
Definition config_of_key (configs : list (string * ModelConfig))
  (key : string) : option ModelConfig :=
  match find (fun kc => String.eqb (fst kc) key) configs with
  | Some kc => Some (snd kc)
  | None => None
  end.

Section Endpoints.

Variable o : Oracles.
Variable host : string -> Host.
(** The language model that the refinement requests of a configured
    model reach, by the key of the model. *)
Variable backend : string -> RefineBackend.

(** The body of [/query] once [builder.index] is set and after
    [results[0]] has been taken: the text that is returned with the
    status 200, or the exception that escapes. *)
Definition answer_of_best (b : Builder) (best : Candidate) : result string :=
  match best.(metadata).(static_validation) with
  | None => Ok best.(response)
  | Some static_val =>
      if static_val.(has_errors) then
        match find_model_key b.(model_configs) best.(model) with
        | None => Ok best.(response)
        | Some best_model_key =>
            if is_empty best_model_key then Ok best.(response)
            else
              match config_of_key b.(model_configs) best_model_key with
              | None => Raise "KeyError"
              | Some model_config =>
                  match refine_response_iteratively o (backend best_model_key)
                          b.(max_refinement_iterations) best model_config with
                  | Raise msg => Raise msg
                  | Ok (res, _) =>
                      if res.(refinement_metadata).(refinement_needed)
                      then Ok res.(current_response)
                      else Ok best.(response)
                  end
              end
        end
      else Ok best.(response)
  end.

(** [query()] of the route [/query], on the text [q] of the request:
    the body and the status of the answer, or the exception that
    escapes the handler. *)
Definition query_endpoint (b : Builder) (q : string) : result (string * Z) :=
  if negb b.(index_built) then
    Ok ("Error: Index not built yet. Call /build first.", 400)
  else
    match query_all_models o host q b.(model_configs) with
    | [] => Ok ("Error: No valid responses received.", 500)
    | best :: _ =>
        match answer_of_best b best with
        | Ok body => Ok (body, 200)
        | Raise msg => Raise msg
        end
    end.

End Endpoints.

(** One entry of ['results'] in the answer of [/query-multi]; its
    ['refinement_info'] is left out: it is [{}] for every entry, since no
    dictionary built by [query_all_models] has the key
    ['refinement_metadata']. *)
Record ModelSummary : Type := mkSummary {
  sum_model : string;
  sum_response : string;
  sum_duration : Q;
  sum_response_length : Z;
  sum_quality_score : Q;
  sum_golangci_lint_errors : Z;
  sum_total_errors : Z;
  sum_has_errors : bool;
  sum_errors : list string
}.

(** The fields of the JSON answer of [/query-multi] that depend on the
    request. *)
Record MultiAnswer : Type := mkMultiAnswer {
  ans_query : string;
  models_queried : Z;
  ans_results : list ModelSummary;
  best_model : option string
}.

(** The body of the loop [for r in results] of [query_multi]. *)
Definition summarize (r : Candidate) : ModelSummary :=
  let static_val := r.(metadata).(static_validation) in
  let get {A} (field : ValidationResult -> A) (default : A) : A :=
    match static_val with Some v => field v | None => default end in
  mkSummary r.(model) r.(response) r.(duration) r.(response_length)
    (get quality_score 0%Q) (get golangci_lint_errors 0) (get total_errors 0)
    (get has_errors false) (get errors []).

(** [query_multi()] of the route [/query-multi]: the error answer with
    the status 400, or the comparison. *)
Definition query_multi_endpoint (o : Oracles) (host : string -> Host)
  (b : Builder) (q : string) : string * Z + MultiAnswer :=
  if negb b.(index_built) then
    inl ("Index not built yet. Call /build first.", 400)
  else
    let results := query_all_models o host q b.(model_configs) in
    inr (mkMultiAnswer q (Z.of_nat (List.length results))
           (map summarize results)
           (match results with r :: _ => Some r.(model) | [] => None end)).

(** Builders of the concrete runs: the three models of the ranking; the
    first of them alone, which raises on every query; and the two others,
    in whose files the lint run finds twelve errors. *)
Definition three_builder : Builder := mkBuilder true three_models 3.

Definition failing_builder : Builder :=
  mkBuilder true [("MODEL_1", mkConfig "alpha" "azure_openai")] 3.

Definition faulty_builder : Builder :=
  mkBuilder true
    [("MODEL_2", mkConfig "beta" "azure_openai");
     ("MODEL_3", mkConfig "gamma" "azure_openai")] 3.

Definition steady_backends : string -> RefineBackend := fun _ => steady_backend.

(* ================================================================== *)
(** * The hybrid parser and the index build *)
(* ================================================================== *)

(** A value of a node's [metadata] dictionary, and the dictionary in the
    order of its keys. *)
Inductive MetaValue : Type :=
| MStr (s : string)
| MInt (n : Z).

Definition MetaDict : Type := list (string * MetaValue).

(** [d.get(key)] *)
Fixpoint meta_get (key : string) (d : MetaDict) : option MetaValue :=
  match d with
  | [] => None
  | (k, v) :: rest => if String.eqb k key then Some v else meta_get key rest
  end.

(** [d[key] = v]: an existing key keeps its place. *)
Fixpoint meta_set (key : string) (v : MetaValue) (d : MetaDict) : MetaDict :=
  match d with
  | [] => [(key, v)]
  | (k, w) :: rest =>
      if String.eqb k key then (k, v) :: rest else (k, w) :: meta_set key v rest
  end.

(** [d.update(other)] *)
Definition meta_update (d other : MetaDict) : MetaDict :=
  fold_left (fun acc kv => meta_set (fst kv) (snd kv) acc) other d.

(** A [TextNode]: its text and its metadata. *)
Record TextNode : Type := mkTextNode {
  tn_text : string;
  tn_metadata : MetaDict
}.

(** [n.metadata.get('node_type')] as the retrieval reads it, and the node
    as [query_single_model] sees it once retrieved. *)
Definition tn_node_type (n : TextNode) : option string :=
  match meta_get "node_type" n.(tn_metadata) with
  | Some (MStr s) => Some s
  | _ => None
  end.

Definition as_retrieved (n : TextNode) : Node :=
  mkNode n.(tn_text) (tn_node_type n).

(** A node of the tree that tree-sitter returns: its type, its byte
    range, the rows of its two end points and its children. *)
#[local] Unset Elimination Schemes.
Inductive Ast : Type :=
| AstNode (ast_type : string) (start_byte end_byte : nat)
    (start_line end_line : Z) (children : list Ast).
#[local] Set Elimination Schemes.

Definition ast_type_of (node : Ast) : string :=
  match node with AstNode ty _ _ _ _ _ => ty end.

(** The node types that [walk_go_tree] keeps. *)
Definition go_declaration_types : list string :=
  ["function_declaration"; "method_declaration"; "type_declaration";
   "const_declaration"; "var_declaration"; "import_declaration"].

(** [content[a:b]] on the bytes of a file. *)
Definition slice_bytes (content : string) (a b : nat) : string :=
  string_of_list_ascii (slice (list_ascii_of_string content) a b).

(** The inner function [walk_go_tree] of [_extract_go_nodes], with the
    nodes it appends; [decode] is [bytes.decode('utf-8', errors='ignore')]. *)
Fixpoint walk_go_tree (decode : string -> string) (content file_path : string)
  (node : Ast) : list TextNode :=
  match node with
  | AstNode ty sb eb sl el children =>
      let here :=
        if mem ty go_declaration_types then
          let text := decode (slice_bytes content sb eb) in
          [mkTextNode text
             [("source", MStr file_path);
              ("node_type", MStr ty);
              ("start_line", MInt sl);
              ("end_line", MInt el);
              ("syntactic_type", MStr "go_ast_node");
              ("size", MInt (Z.of_nat (String.length text)))]]
        else [] in
      (here ++ flat_map (walk_go_tree decode content file_path) children)%list
  end.

(** The types of the nodes of a tree, parents before children and
    children in their order. *)
Fixpoint preorder_types (node : Ast) : list string :=
  match node with
  | AstNode ty _ _ _ _ children => ty :: flat_map preorder_types children
  end.

(** What the parser takes from outside: [Path(p).suffix] and
    [Path(p).name], [Path(p).read_text(encoding='utf-8')] and
    [Path(p).read_bytes()], the root node of [self.go_parser.parse],
    the decoding of a byte range, and
    [self.go_semantic_splitter.get_nodes_from_documents([node])]. *)
Record ParserEnv : Type := mkParserEnv {
  path_suffix : string -> string;
  path_name : string -> string;
  read_text : string -> result string;
  read_bytes : string -> result string;
  go_parse : string -> result Ast;
  decode_utf8 : string -> string;
  semantic_split : TextNode -> result (list TextNode)
}.

(** [s.upper()] on the letters [a] to [z]; the parser applies it to
    ['go'] and ['text'] only. *)
Definition upper_char (c : ascii) : ascii :=
  let n := nat_of_ascii c in
  if ((97 <=? n) && (n <=? 122))%nat then ascii_of_nat (n - 32) else c.

Fixpoint upper (s : string) : string :=
  match s with
  | EmptyString => EmptyString
  | String c r => String (upper_char c) (upper r)
  end.

Section Parser.

Variable env : ParserEnv.

(** [_extract_go_nodes(root_node, content, file_path)] *)
Definition extract_go_nodes (root_node : Ast) (content file_path : string)
  : list TextNode :=
  walk_go_tree env.(decode_utf8) content file_path root_node.

(** [metadata['language'] = 'go'; metadata['priority'] = 'MEDIUM'] *)
Definition mark_go (d : MetaDict) : MetaDict :=
  meta_set "priority" (MStr "MEDIUM") (meta_set "language" (MStr "go") d).

(** One turn of the loop of [_parse_go_file]: the chunks appended for a
    syntactic node, or the node itself when the splitter raises. *)
Definition split_go_node (node : TextNode) : list TextNode :=
  match env.(semantic_split) node with
  | Ok semantic_chunks =>
      map (fun chunk =>
             mkTextNode chunk.(tn_text)
               (mark_go (meta_update chunk.(tn_metadata) node.(tn_metadata))))
        semantic_chunks
  | Raise _ => [mkTextNode node.(tn_text) (mark_go node.(tn_metadata))]
  end.

(** [_parse_go_file(file_path)] *)
Definition parse_go_file (file_path : string) : result (list TextNode) :=
  match env.(read_bytes) file_path with
  | Raise msg => Raise msg
  | Ok content =>
      match env.(go_parse) content with
      | Raise msg => Raise msg
      | Ok root_node =>
          Ok (flat_map split_go_node
                (extract_go_nodes root_node content file_path))
      end
  end.

(** [_parse_generic_file(file_path, lang)] *)
Definition parse_generic_file (file_path lang : string) : list TextNode :=
  match env.(read_text) file_path with
  | Ok content =>
      [mkTextNode content
         [("source", MStr file_path);
          ("language", MStr lang);
          ("parser", MStr "generic");
          ("syntactic_type", MStr "generic_text");
          ("priority", MStr "LOW")]]
  | Raise _ => []
  end.

(** [_detect_language(ext)] *)
Definition detect_language (ext : string) : string :=
  if String.eqb ext ".go" then "go" else "text".

(** [_create_complete_file_node(file_path, lang)] *)
Definition create_complete_file_node (file_path lang : string)
  : result TextNode :=
  match env.(read_text) file_path with
  | Raise msg => Raise msg
  | Ok content =>
      let size := Z.of_nat (String.length content) in
      let metadata :=
        [("source", MStr file_path);
         ("language", MStr lang);
         ("node_type", MStr "COMPLETE_FILE");
         ("file_name", MStr (env.(path_name) file_path));
         ("syntactic_type", MStr "complete_file");
         ("priority", MStr "CRITICAL");
         ("file_size", MInt size)] in
      let enhanced_content :=
        "# COMPLETE FILE: " ++ env.(path_name) file_path ++ String nl
        ("# Language: " ++ upper lang ++ String nl
        ("# Size: " ++ str_of_Z size ++ " characters" ++ String nl
        ("# ===== FILE BEGINS =====" ++ String nl (String nl
        (content ++ String nl (String nl
        ("# ===== FILE ENDS =====" ++ String nl ""))))))) in
      Ok (mkTextNode enhanced_content metadata)
  end.

(** [parse_file(file_path)] *)
Definition parse_file (file_path : string) : result (list TextNode) :=
  let ext := lower (env.(path_suffix) file_path) in
  let lang := detect_language ext in
  let chunks : result (list TextNode) :=
    if String.eqb lang "go" then parse_go_file file_path
    else Ok (parse_generic_file file_path lang) in
  match chunks with
  | Raise msg => Raise msg
  | Ok chunk_nodes =>
      match create_complete_file_node file_path lang with
      | Raise msg => Raise msg
      | Ok complete_file_node => Ok (complete_file_node :: chunk_nodes)
      end
  end.

(** The loop [for idx, d in enumerate(docs)] of [build_index]: the
    nodes of all the files, in their order. *)
Fixpoint parse_all (file_paths : list string) : result (list TextNode) :=
  match file_paths with
  | [] => Ok []
  | file_path :: rest =>
      match parse_file file_path with
      | Raise msg => Raise msg
      | Ok parsed =>
          match parse_all rest with
          | Raise msg => Raise msg
          | Ok nodes => Ok (parsed ++ nodes)%list
          end
      end
  end.

End Parser.

(** [sum(1 for n in nodes if n.metadata.get('node_type') == 'COMPLETE_FILE')] *)
Definition count_complete_files (nodes : list TextNode) : Z :=
  Z.of_nat (List.length
              (filter (fun n => is_complete_file (as_retrieved n)) nodes)).

(** What [build_index] takes from outside besides the parser: the
    [file_path] of each document that
    [SimpleDirectoryReader(directory, ...).load_data()] returns, the
    construction [VectorStoreIndex(nodes, ...)], whether Qdrant is
    enabled, and the count read from its collection. *)
Record BuildEnv : Type := mkBuildEnv {
  load_data : string -> result (list string);
  make_index : list TextNode -> result unit;
  use_qdrant : bool;
  qdrant_count : result unit
}.

(** The attributes of the builder that [build_index] writes: [index]
    (the nodes it was built from), [index_status] and
    [indexed_files_list]. *)
Record IndexState : Type := mkIndexState {
  index : option (list TextNode);
  status_built : bool;
  status_files : Z;
  status_nodes : Z;
  indexed_files_list : list string
}.

(** The builder after [__init__]. *)
Definition initial_index_state : IndexState := mkIndexState None false 0 0 [].

(** [build_index(directory)]: how the call ends and the attributes
    after it. *)
Definition build_index (penv : ParserEnv) (benv : BuildEnv) (directory : string)
  : M IndexState unit :=
  fun st =>
    match benv.(load_data) directory with
    | Raise msg => (Raise msg, st)
    | Ok docs =>
        match parse_all penv docs with
        | Raise msg => (Raise msg, st)
        | Ok nodes =>
            match benv.(make_index) nodes with
            | Raise msg => (Raise msg, st)
            | Ok _ =>
                let st' :=
                  mkIndexState (Some nodes) true
                    (Z.of_nat (List.length docs))
                    (Z.of_nat (List.length nodes)) docs in
                if benv.(use_qdrant) then
                  match benv.(qdrant_count) with
                  | Raise msg => (Raise msg, st')
                  | Ok _ => (Ok tt, st')
                  end
                else (Ok tt, st')
            end
        end
    end.

(** The metadata that [walk_go_tree] gives to a node of type [ty]. *)
Definition go_node_metadata (file_path ty : string) (sl el : Z) (text : string)
  : MetaDict :=
  [("source", MStr file_path);
   ("node_type", MStr ty);
   ("start_line", MInt sl);
   ("end_line", MInt el);
   ("syntactic_type", MStr "go_ast_node");
   ("size", MInt (Z.of_nat (String.length text)))].

(** What every chunk of a Go file carries. *)
Definition go_chunk (file_path : string) (c : TextNode) : Prop :=
  meta_get "language" c.(tn_metadata) = Some (MStr "go")
  /\ meta_get "priority" c.(tn_metadata) = Some (MStr "MEDIUM")
  /\ meta_get "source" c.(tn_metadata) = Some (MStr file_path)
  /\ meta_get "syntactic_type" c.(tn_metadata) = Some (MStr "go_ast_node")
  /\ exists ty, tn_node_type c = Some ty /\ In ty go_declaration_types.

(** A concrete file system: a Go file whose function declares a
    variable, a text file, and a file that cannot be read. *)
Definition sample_go_source : string :=
  "package main" ++ NL ++ "func main() {" ++ NL ++ "var x int" ++ NL ++ "}".

Definition sample_tree : Ast :=
  AstNode "source_file" 0 38 0 3
    [AstNode "package_clause" 0 12 0 0 [];
     AstNode "function_declaration" 13 38 1 3
       [AstNode "block" 25 38 1 3
          [AstNode "var_declaration" 27 36 2 2 []]]].

Definition sample_parser : ParserEnv :=
  mkParserEnv
    (fun p => if String.eqb p "main.GO" then ".GO" else ".txt")
    (fun p => p)
    (fun p => if String.eqb p "missing.txt" then Raise "No such file"
              else if String.eqb p "main.GO" then Ok sample_go_source
              else Ok "notes")
    (fun p => if String.eqb p "main.GO" then Ok sample_go_source
              else Raise "No such file")
    (fun _ => Ok sample_tree)
    (fun bytes => bytes)
    (fun n => if String.eqb (tn_text n) "var x int" then Raise "too short"
              else Ok [mkTextNode (tn_text n) [("priority", MStr "HIGH")]]).

Definition sample_build : BuildEnv :=
  mkBuildEnv
    (fun directory =>
       if String.eqb directory "./feeds" then Ok ["main.GO"; "notes.txt"]
       else Ok ["main.GO"; "missing.txt"])
    (fun _ => Ok tt) false (Ok tt).

(* ================================================================== *)
(** * The model configurations read from the environment *)
(* ================================================================== *)

(** Whether [MODEL_<num>_TYPE] and [MODEL_<num>_NAME] are both set and
    not empty ([config.type and config.name]), for [os.getenv] given as
    [getenv]. *)
Definition model_is_set (getenv : string -> option string) (num : string)
  : bool :=
  match getenv ("MODEL_" ++ num ++ "_TYPE"),
        getenv ("MODEL_" ++ num ++ "_NAME") with
  | Some ty, Some name => negb (is_empty ty) && negb (is_empty name)
  | _, _ => false
  end.

(** One turn of the loop [for i in range(1, 6)] of
    [MultiModelRAGBuilder.__init__]: the entry added to
    [self.model_configs], if any. *)
Definition load_model_config (getenv : string -> option string) (i : Z)
  : list (string * ModelConfig) :=
  let num := str_of_Z i in
  match getenv ("MODEL_" ++ num ++ "_TYPE"),
        getenv ("MODEL_" ++ num ++ "_NAME") with
  | Some ty, Some name =>
      if negb (is_empty ty) && negb (is_empty name)
      then [("model_" ++ num, mkConfig name ty)]
      else []
  | _, _ => []
  end.

(** [self.model_configs] after [__init__], in the order of its keys. *)
Definition load_model_configs (getenv : string -> option string)
  : list (string * ModelConfig) :=
  flat_map (load_model_config getenv) [1; 2; 3; 4; 5].

(** An environment that sets the models 1, 3 and 6, and the type of the
    model 2 without its name. *)
Definition sample_getenv : string -> option string :=
  fun name =>
    if String.eqb name "MODEL_1_TYPE" then Some "azure_openai"
    else if String.eqb name "MODEL_1_NAME" then Some "gpt"
    else if String.eqb name "MODEL_2_TYPE" then Some "openai_compatible"
    else if String.eqb name "MODEL_3_TYPE" then Some "openai_compatible"
    else if String.eqb name "MODEL_3_NAME" then Some "llama"
    else if String.eqb name "MODEL_6_TYPE" then Some "openai_compatible"
    else if String.eqb name "MODEL_6_NAME" then Some "grok"
    else None.

(* ================================================================== *)
(** * Facts about the string primitives *)
(* ================================================================== *)

Lemma is_empty_true (s : string) : is_empty s = true <-> s = "".
Proof. destruct s; simpl; split; congruence. Qed.

Lemma is_nl_true (c : ascii) : is_nl c = true -> c = nl.
Proof. unfold is_nl. apply Ascii.eqb_eq. Qed.

Lemma split_nl_not_nil (s : string) : split_nl s <> [].
Proof.
  induction s as [|c r IH]; simpl; [discriminate|].
  destruct (is_nl c); [discriminate|].
  destruct (split_nl r); discriminate.
Qed.

Lemma join_cons (sep p : string) (ps : list string) :
  ps <> [] -> join sep (p :: ps) = p ++ sep ++ join sep ps.
Proof. destruct ps; [congruence | reflexivity]. Qed.

(** Splitting at the newlines and joining with newlines gives the text back. *)
Lemma join_split_nl (s : string) : join_nl (split_nl s) = s.
Proof.
  unfold join_nl.
  induction s as [|c r IH]; [reflexivity|].
  simpl split_nl. destruct (is_nl c) eqn:Hc.
  - apply is_nl_true in Hc. subst c.
    rewrite join_cons by apply split_nl_not_nil.
    rewrite IH. reflexivity.
  - pose proof (split_nl_not_nil r) as Hne.
    destruct (split_nl r) as [|l ls]; [congruence|].
    destruct ls as [|l' ls'].
    + simpl in *. congruence.
    + rewrite join_cons by discriminate.
      rewrite join_cons in IH by discriminate.
      rewrite <- IH. reflexivity.
Qed.

Lemma prefix_nil (s : string) : String.prefix "" s = true.
Proof. destruct s; reflexivity. Qed.

Lemma prefix_app (p s q : string) :
  String.prefix p s = true -> String.prefix p (s ++ q) = true.
Proof.
  revert s. induction p as [|a p IH]; intros s H; [apply prefix_nil|].
  destruct s as [|b s]; simpl in *; [discriminate|].
  destruct (ascii_dec a b); [auto | discriminate].
Qed.

Lemma prefix_of_prefix (a b s : string) :
  String.prefix (a ++ b) s = true -> String.prefix a s = true.
Proof.
  revert s. induction a as [|c a IH]; intros s H; [apply prefix_nil|].
  destruct s as [|d s]; simpl in *; [discriminate|].
  destruct (ascii_dec c d); [eauto | discriminate].
Qed.

Lemma startswith_contains (sub s : string) :
  startswith sub s = true -> contains sub s = true.
Proof.
  unfold startswith. intros H. destruct s; cbn [contains]; rewrite H; reflexivity.
Qed.

Lemma contains_app_l (sub a q : string) :
  contains sub a = true -> contains sub (a ++ q) = true.
Proof.
  induction a as [|c a IH]; cbn [contains append]; intros H.
  - rewrite orb_false_r in H. destruct sub; [|discriminate].
    destruct q; cbn [contains]; rewrite prefix_nil; reflexivity.
  - apply orb_true_iff in H. destruct H as [H|H].
    + change (String c (a ++ q)) with (String c a ++ q).
      rewrite (prefix_app _ _ q H). reflexivity.
    + rewrite (IH H). apply orb_true_r.
Qed.

Lemma contains_app_r (sub p a : string) :
  contains sub a = true -> contains sub (p ++ a) = true.
Proof.
  intros H. induction p as [|c p IH]; cbn [contains append]; [exact H|].
  rewrite IH. apply orb_true_r.
Qed.

Lemma contains_inside (sub p a q : string) :
  contains sub a = true -> contains sub (p ++ a ++ q) = true.
Proof. intros H. apply contains_app_r, contains_app_l, H. Qed.

Lemma lstrip_suffix (s : string) : exists p, s = p ++ lstrip s.
Proof.
  induction s as [|c r [p IH]]; [exists ""; reflexivity|].
  simpl. destruct (isspace c).
  - exists (String c p). simpl. congruence.
  - exists "". reflexivity.
Qed.

Lemma rstrip_prefix (s : string) : exists q, s = rstrip s ++ q.
Proof.
  induction s as [|c r [q IH]]; [exists ""; reflexivity|].
  simpl. destruct (is_empty (rstrip r) && isspace c).
  - exists (String c r). reflexivity.
  - exists q. simpl. congruence.
Qed.

Lemma strip_inside (s : string) : exists p q, s = p ++ strip s ++ q.
Proof.
  unfold strip.
  destruct (rstrip_prefix s) as [q Hq].
  destruct (lstrip_suffix (rstrip s)) as [p Hp].
  exists p, q. rewrite Hq at 1. rewrite Hp at 1.
  clear. induction p; simpl; congruence.
Qed.

Lemma app_assoc_str (a b c : string) : (a ++ b) ++ c = a ++ b ++ c.
Proof. induction a; simpl; congruence. Qed.

Lemma line_inside (s l : string) :
  In l (split_nl s) -> exists p q, s = p ++ l ++ q.
Proof.
  revert l. induction s as [|c r IH]; intros l Hin; simpl in Hin.
  - destruct Hin as [<-|[]]. exists "", "". reflexivity.
  - destruct (is_nl c) eqn:Hc.
    + destruct Hin as [<-|Hin].
      * exists "", (String c r). reflexivity.
      * destruct (IH _ Hin) as (p & q & ->).
        exists (String c p), q. reflexivity.
    + destruct (split_nl r) as [|l0 ls] eqn:Hs.
      * destruct Hin as [<-|[]]. exists "", r. reflexivity.
      * destruct Hin as [<-|Hin].
        -- destruct (IH l0 (or_introl eq_refl)) as (p & q & Hr).
           (* the head line starts the text *)
           assert (Hhead : exists q', r = l0 ++ q').
           { clear -Hs. revert l0 ls Hs.
             induction r as [|d r' IHr]; intros l0 ls Hs; simpl in Hs.
             - injection Hs as <- <-. exists "". reflexivity.
             - destruct (is_nl d).
               + injection Hs as <- <-. exists (String d r'). reflexivity.
               + destruct (split_nl r') as [|l1 ls1] eqn:Hs'.
                 * injection Hs as <- <-. exists r'. reflexivity.
                 * injection Hs as <- <-.
                   destruct (IHr _ _ eq_refl) as [q' ->].
                   exists q'. reflexivity. }
           destruct Hhead as [q' ->].
           exists "", q'. reflexivity.
        -- destruct (IH l (or_intror Hin)) as (p & q & ->).
           exists (String c p), q. reflexivity.
Qed.

(** A line that opens with a fence once trimmed lies in a text that
    contains a fence. *)
Lemma fence_line_in_text (sub s l : string) :
  In l (split_nl s) -> startswith sub (strip l) = true -> contains sub s = true.
Proof.
  intros Hin Hst.
  destruct (line_inside _ _ Hin) as (p & q & ->).
  apply contains_inside.
  destruct (strip_inside l) as (p' & q' & Hl). rewrite Hl.
  apply contains_inside, startswith_contains, Hst.
Qed.

(* ================================================================== *)
(** * The artifact cleaner on texts without fences *)
(* ================================================================== *)

Lemma strip_empty (s : string) : is_empty s = true -> is_empty (strip s) = true.
Proof. intros H. apply is_empty_true in H. subst s. reflexivity. Qed.

Lemma filter_all {A} (f : A -> bool) (l : list A) :
  (forall x, In x l -> f x = true) -> filter f l = l.
Proof.
  induction l as [|x l IH]; intros H; [reflexivity|].
  simpl. rewrite (H x (or_introl eq_refl)). f_equal.
  apply IH. intros y Hy. apply H. right. exact Hy.
Qed.

Section NoFence.

Variable lines : list string.
Hypothesis no_fence_line :
  forall l, In l lines -> startswith fence (strip l) = false.

Lemma no_fence_go_line (l : string) :
  In l lines -> startswith fence_go (strip l) = false.
Proof.
  intros Hin. destruct (startswith fence_go (strip l)) eqn:H; [|reflexivity].
  rewrite <- (no_fence_line l Hin). symmetry.
  apply (prefix_of_prefix fence "```go"). exact H.
Qed.

Lemma find_end_none (start_idx upto : nat) :
  (upto <= List.length lines)%nat -> find_end lines start_idx upto = None.
Proof.
  induction upto as [|i IH]; intros Hle; [reflexivity|].
  simpl. destruct (i <? start_idx)%nat; [reflexivity|].
  rewrite no_fence_line by (apply nth_In; lia).
  apply IH. lia.
Qed.

Lemma keep_all_lines :
  filter (fun line => negb (mem (strip line) [fence; fence_go])) lines = lines.
Proof.
  apply filter_all. intros l Hin. unfold mem. simpl.
  destruct (String.eqb_spec (strip l) fence) as [E|_].
  - pose proof (no_fence_line l Hin) as H. rewrite E in H. discriminate.
  - destruct (String.eqb_spec (strip l) fence_go) as [E|_]; [|reflexivity].
    pose proof (no_fence_go_line l Hin) as H. rewrite E in H. discriminate.
Qed.

End NoFence.

Lemma find_start_no_package (lines : list string) (i : nat) :
  (forall l, In l lines -> startswith fence (strip l) = false) ->
  forallb (fun l => negb (is_package_line l)) lines = true ->
  find_start lines i = None.
Proof.
  revert i. induction lines as [|l ls IH]; intros i Hf Hp; [reflexivity|].
  simpl in *. apply andb_true_iff in Hp. destruct Hp as [Hl Hp].
  rewrite (no_fence_go_line (l :: ls) Hf l (or_introl eq_refl)).
  unfold is_package_line in Hl. apply negb_true_iff in Hl. rewrite Hl.
  apply IH; [|exact Hp]. intros l' Hin. apply Hf. right. exact Hin.
Qed.

(** Without fence lines, and with no line before the [package] line, the
    code starts at the first line. *)
Lemma find_start_first (response : string) :
  (forall l, In l (split_nl response) -> startswith fence (strip l) = false) ->
  package_line_first response = true ->
  match find_start (split_nl response) 0 with Some i => i | None => O end = O.
Proof.
  unfold package_line_first. intros Hf Hp.
  destruct (split_nl response) as [|l ls] eqn:E; [reflexivity|].
  apply orb_true_iff in Hp. destruct Hp as [Hp|Hp].
  - simpl. rewrite (no_fence_go_line (l :: ls) Hf l (or_introl eq_refl)).
    unfold is_package_line in Hp. rewrite Hp. reflexivity.
  - destruct (is_package_line l) eqn:Hl.
    + simpl. rewrite (no_fence_go_line (l :: ls) Hf l (or_introl eq_refl)).
      unfold is_package_line in Hl. rewrite Hl. reflexivity.
    + rewrite find_start_no_package; [reflexivity | exact Hf |].
      simpl. rewrite Hl. exact Hp.
Qed.

Lemma no_fence_lines_of_text (response : string) :
  contains fence response = false ->
  forall l, In l (split_nl response) -> startswith fence (strip l) = false.
Proof.
  intros Hc l Hin. destruct (startswith fence (strip l)) eqn:H; [|reflexivity].
  rewrite <- Hc. symmetry. eapply fence_line_in_text; eauto.
Qed.

(** C9 (as amended).  A text that contains no fence, and in which no line
    precedes the first line opening with [package], is returned trimmed of
    its surrounding whitespace (and as it is when it is blank); so it is
    returned unchanged when it has no surrounding whitespace. *)
Theorem clean_code_artifacts_without_fence (response : string) :
  contains fence response = false ->
  package_line_first response = true ->
  clean_code_artifacts response
  = (if is_empty (strip response) then response else strip response)
  /\ (strip response = response -> clean_code_artifacts response = response).
Proof.
  intros Hc Hp.
  assert (Hmain : clean_code_artifacts response
                  = if is_empty (strip response) then response else strip response).
  { unfold clean_code_artifacts.
    destruct (is_empty (strip response)) eqn:Hblank.
    - rewrite orb_true_r. reflexivity.
    - destruct (is_empty response) eqn:He.
      + rewrite (strip_empty _ He) in Hblank. discriminate.
      + simpl orb. cbv zeta.
        pose proof (no_fence_lines_of_text _ Hc) as Hf.
        rewrite (find_start_first _ Hf Hp).
        rewrite (find_end_none _ Hf) by lia.
        unfold slice. rewrite Nat.sub_0_r. simpl skipn. rewrite firstn_all.
        rewrite (keep_all_lines _ Hf), join_split_nl, Hblank. reflexivity. }
  split; [exact Hmain|].
  intros Hs. rewrite Hmain, Hs. destruct (is_empty response); reflexivity.
Qed.

(** The same at a concrete Go file. *)
Lemma clean_code_artifacts_without_fence_witness :
  contains fence clean_go_text = false
  /\ package_line_first clean_go_text = true
  /\ strip clean_go_text = clean_go_text
  /\ clean_code_artifacts clean_go_text = clean_go_text.
Proof.
  split; [reflexivity|]. split; [reflexivity|]. split; [reflexivity|].
  apply (clean_code_artifacts_without_fence clean_go_text); reflexivity.
Defined.

(** C9 (as stated) fails: a text without any fence loses the comment that
    precedes its [package] line, and another loses its final newline. *)
Lemma clean_code_artifacts_changes_clean_text :
  (contains fence commented_go_text = false
   /\ clean_code_artifacts commented_go_text <> commented_go_text)
  /\ (contains fence (String.append "package main" (String nl ""))  = false
      /\ clean_code_artifacts (String.append "package main" (String nl ""))
         = "package main").
Proof. split; split; try reflexivity. vm_compute. discriminate. Qed.

(** A fenced answer is reduced to the code from its [package] line to its
    last fence. *)
Example clean_code_artifacts_fenced :
  clean_code_artifacts
    ("Here is the code:" ++ NL ++ "```go" ++ NL ++ "package main" ++ NL
     ++ "func main() {}" ++ NL ++ "```" ++ NL ++ "Hope this helps.")
  = "package main" ++ NL ++ "func main() {}".
Proof. vm_compute. reflexivity. Qed.

(* ================================================================== *)
(** * The line counter *)
(* ================================================================== *)

Lemma count_step_spec (acc : Z) (line : string) :
  count_step acc line = acc + (if counted_line (strip line) then 1 else 0).
Proof.
  unfold count_step, counted_line.
  destruct (is_empty (strip line)); simpl; [lia|].
  destruct (startswith "#" (strip line)); simpl; [lia|].
  destruct (looks_like_error (strip line)); lia.
Qed.

Lemma fold_count_step (lines : list string) (acc : Z) :
  fold_left count_step lines acc
  = acc + Z.of_nat (List.length (filter counted_line (map strip lines))).
Proof.
  revert acc. induction lines as [|l ls IH]; intros acc; simpl; [lia|].
  rewrite IH, count_step_spec.
  destruct (counted_line (strip l)); simpl List.length; lia.
Qed.

(** C4 (as amended).  The empty text counts 0.  Any other text counts its
    trimmed sub-lines that are not blank, do not open with [#] and contain
    [.go:], [undefined] or [not used] as written or [error] in any case;
    it counts 1 when there is no such line. *)
Theorem count_error_lines_counts (issue_text : string) :
  count_error_lines issue_text
  = if is_empty issue_text then 0
    else Z.max
           (Z.of_nat (List.length
                        (filter counted_line
                           (map strip (split_nl (strip issue_text))))))
           1.
Proof.
  unfold count_error_lines. destruct (is_empty issue_text); [reflexivity|].
  rewrite fold_count_step. reflexivity.
Qed.

Lemma count_error_lines_nonneg (issue_text : string) :
  0 <= count_error_lines issue_text.
Proof.
  unfold count_error_lines. destruct (is_empty issue_text); lia.
Qed.

(** C4 (as stated) fails: the empty text counts 0 and not 1; [Undefined]
    and [Not Used] in capitals are not counted; a location in a file that
    is not a [.go] file is not counted; [.go:] counts without a line
    number. *)
Lemma count_error_lines_differs_from_wording :
  (count_error_lines "" = 0 /\ Spec.count_error_lines "" = 1)
  /\ (count_error_lines capitals_text = 1
      /\ Spec.count_error_lines capitals_text = 2)
  /\ (count_error_lines c_locations_text = 1
      /\ Spec.count_error_lines c_locations_text = 2)
  /\ (count_error_lines go_mentions_text = 2
      /\ Spec.count_error_lines go_mentions_text = 1).
Proof. repeat split; vm_compute; reflexivity. Qed.

(* ================================================================== *)
(** * The score as a function of the issue count *)
(* ================================================================== *)

Lemma score_of_count_positive (n : Z) :
  n <= 12 -> (score_of_count n == 1 - inject_Z n * (8 # 100))%Q.
Proof.
  intros H. unfold score_of_count. apply Q.max_r.
  assert (inject_Z n <= inject_Z 12)%Q by (rewrite <- Zle_Qle; exact H).
  change (inject_Z 12) with 12%Q in *. lra.
Qed.

Lemma score_of_count_clamped (n : Z) :
  13 <= n -> (score_of_count n == 0)%Q.
Proof.
  intros H. unfold score_of_count. apply Q.max_l.
  assert (inject_Z 13 <= inject_Z n)%Q by (rewrite <- Zle_Qle; exact H).
  change (inject_Z 13) with 13%Q in *. lra.
Qed.

Lemma score_of_count_range (n : Z) :
  0 <= n -> (0 <= score_of_count n <= 1)%Q.
Proof.
  intros H. unfold score_of_count. split; [apply Q.le_max_l|].
  assert (inject_Z 0 <= inject_Z n)%Q by (rewrite <- Zle_Qle; exact H).
  change (inject_Z 0) with 0%Q in *.
  apply Q.max_lub; lra.
Qed.

Lemma score_of_count_antitone (n m : Z) :
  n <= m -> (score_of_count m <= score_of_count n)%Q.
Proof.
  intros H. unfold score_of_count.
  assert (inject_Z n <= inject_Z m)%Q by (rewrite <- Zle_Qle; exact H).
  apply Q.max_le_compat_l. lra.
Qed.

Lemma meets_threshold_iff (q : Q) : meets_threshold q = true <-> (1 # 2 <= q)%Q.
Proof. unfold meets_threshold. apply Qle_bool_iff. Qed.

Lemma threshold_at_count (n : Z) :
  (1 # 2 <= score_of_count n)%Q <-> n <= 6.
Proof.
  split; intros H.
  - destruct (Z_le_gt_dec n 6) as [|Hgt]; [assumption|exfalso].
    assert (inject_Z 7 <= inject_Z n)%Q by (rewrite <- Zle_Qle; lia).
    change (inject_Z 7) with 7%Q in *.
    unfold score_of_count in H.
    destruct (Q.max_spec 0 (1 - inject_Z n * (8 # 100))) as [[_ E]|[_ E]];
      rewrite E in H; lra.
  - rewrite score_of_count_positive by lia.
    assert (inject_Z n <= inject_Z 6)%Q by (rewrite <- Zle_Qle; exact H).
    change (inject_Z 6) with 6%Q in *. lra.
Qed.

(* ================================================================== *)
(** * Reasoning in the monad of the guarded region *)
(* ================================================================== *)

Lemma bind_ok_inv {S A B} (m : M S A) (k : A -> M S B) s b s' :
  bind m k s = (Ok b, s') ->
  exists a s1, m s = (Ok a, s1) /\ k a s1 = (Ok b, s').
Proof.
  unfold bind. destruct (m s) as [[a|msg] s1]; intros H; [eauto | discriminate].
Qed.

Lemma bind_raise_inv {S A B} (m : M S A) (k : A -> M S B) s msg s' :
  bind m k s = (Raise msg, s') ->
  m s = (Raise msg, s')
  \/ exists a s1, m s = (Ok a, s1) /\ k a s1 = (Raise msg, s').
Proof.
  unfold bind. destruct (m s) as [[a|msg'] s1]; intros H; [eauto|].
  left. congruence.
Qed.

Section Preserves.

Context {S : Type} (P : S -> Prop).

Lemma preserves_ret {A} (a : A) : preserves P (ret a).
Proof. intros s x s' H. injection H as _ <-. auto. Qed.

Lemma preserves_lift {A} (r : result A) : preserves P (lift r).
Proof. intros s x s' H. injection H as _ <-. auto. Qed.

Lemma preserves_modify (f : S -> S) :
  (forall s, P s -> P (f s)) -> preserves P (modify f).
Proof. intros Hf s x s' H. injection H as _ <-. auto. Qed.

Lemma preserves_bind {A B} (m : M S A) (k : A -> M S B) :
  preserves P m -> (forall a, preserves P (k a)) -> preserves P (bind m k).
Proof.
  intros Hm Hk s x s' H Hs. unfold bind in H.
  destruct (m s) as [[a|msg] s1] eqn:E.
  - eapply Hk; eauto.
  - injection H as _ <-. eauto.
Qed.

Lemma preserves_for_each {A} (xs : list A) (body : A -> M S unit) :
  (forall x, preserves P (body x)) -> preserves P (for_each xs body).
Proof.
  intros Hb. induction xs as [|x xs IH]; simpl.
  - apply preserves_ret.
  - apply preserves_bind; auto.
Qed.

Lemma preserves_fold_each {A B} (xs : list A) (body : B -> A -> M S B) :
  (forall b x, preserves P (body b x)) ->
  forall acc, preserves P (fold_each xs acc body).
Proof.
  intros Hb. induction xs as [|x xs IH]; intros acc; simpl.
  - apply preserves_ret.
  - apply preserves_bind; auto.
Qed.

End Preserves.

Lemma unscored_on_report (f : ValidationResult -> ValidationResult) :
  (forall r, total_errors (f r) = total_errors r
             /\ quality_score (f r) = quality_score r
             /\ validation_passed (f r) = validation_passed r) ->
  preserves unscored (on_report f).
Proof.
  intros Hf. apply preserves_modify. intros s (H1 & H2 & H3).
  destruct (Hf (report s)) as (E1 & E2 & E3).
  unfold unscored. simpl. rewrite E1, E2, E3. auto.
Qed.

Section ValidatorFacts.

Variable o : Oracles.


Lemma record_error_line_unscored loc linter line :
  preserves unscored (record_error_line o loc linter line).
Proof.
  unfold record_error_line. destruct (startswith "#" line).
  - apply preserves_ret.
  - apply preserves_bind; [apply preserves_lift|]. intros a.
    apply preserves_bind; intros; apply unscored_on_report; intros r; auto.
Qed.

Lemma process_issue_unscored n issue :
  preserves unscored (process_issue o n issue).
Proof.
  unfold process_issue.
  repeat (apply preserves_bind; [apply preserves_lift|]; intros ?).
  apply preserves_bind; [|intros; apply preserves_ret].
  apply preserves_for_each. intros. apply record_error_line_unscored.
Qed.

Lemma count_lint_data_unscored lint_data :
  preserves unscored (count_lint_data o lint_data).
Proof.
  assert (Hgen : preserves unscored
            (bind (lift (json_in "Issues" lint_data))
               (fun has_key : bool =>
                  if has_key then
                    bind (lift (json_index lint_data "Issues"))
                      (fun lint_issues =>
                         if truthy lint_issues then
                           bind (lift (json_iter lint_issues))
                             (fun items => fold_each items 0 (process_issue o))
                         else ret 0)
                  else ret 0))).
  { apply preserves_bind; [apply preserves_lift|]. intros [|]; [|apply preserves_ret].
    apply preserves_bind; [apply preserves_lift|]. intros v.
    destruct (truthy v); [|apply preserves_ret].
    apply preserves_bind; [apply preserves_lift|]. intros items.
    apply preserves_fold_each. intros. apply process_issue_unscored. }
  unfold count_lint_data.
  destruct lint_data as [| | | | |fields]; try exact Hgen.
  - apply preserves_ret.
  - destruct fields; [apply preserves_ret | exact Hgen].
Qed.

Lemma count_issues_unscored p : preserves unscored (count_issues o p).
Proof.
  unfold count_issues.
  destruct (negb (is_empty (stdout p)) && negb (is_empty (strip (stdout p)))).
  - destruct (_ || _); [apply preserves_ret|].
    destruct (json_loads o _); [apply count_lint_data_unscored | apply preserves_ret].
  - destruct (returncode p =? 0); [apply preserves_ret|].
    apply preserves_bind; [apply unscored_on_report; intros r; auto|]. intros _.
    apply preserves_bind; [apply unscored_on_report; intros r; auto|]. intros _.
    apply preserves_ret.
Qed.

(** The issue count never falls below its start. *)
Lemma process_issue_grows n issue s n' s' :
  process_issue o n issue s = (Ok n', s') -> n <= n'.
Proof.
  unfold process_issue. intros H.
  apply bind_ok_inv in H. destruct H as (text & s1 & _ & H).
  apply bind_ok_inv in H. destruct H as (cnt & s2 & Hc & H).
  assert (0 <= cnt).
  { unfold lift in Hc. injection Hc as Hc _.
    unfold count_error_lines_of in Hc.
    destruct text; try (destruct (truthy _); inversion Hc; lia).
    inversion Hc. apply count_error_lines_nonneg. }
  repeat (apply bind_ok_inv in H; destruct H as (? & ? & _ & H)).
  injection H as <- _. lia.
Qed.

Lemma fold_process_issue_grows items n s n' s' :
  fold_each items n (process_issue o) s = (Ok n', s') -> n <= n'.
Proof.
  revert n s. induction items as [|i items IH]; intros n s H; simpl in H.
  - injection H as <- _. lia.
  - apply bind_ok_inv in H. destruct H as (n1 & s1 & H1 & H).
    apply process_issue_grows in H1. apply IH in H. lia.
Qed.

Lemma count_lint_data_nonneg lint_data s n s' :
  count_lint_data o lint_data s = (Ok n, s') -> 0 <= n.
Proof.
  assert (Hgen :
            bind (lift (json_in "Issues" lint_data))
               (fun has_key : bool =>
                  if has_key then
                    bind (lift (json_index lint_data "Issues"))
                      (fun lint_issues =>
                         if truthy lint_issues then
                           bind (lift (json_iter lint_issues))
                             (fun items => fold_each items 0 (process_issue o))
                         else ret 0)
                  else ret 0) s = (Ok n, s') -> 0 <= n).
  { intros H. apply bind_ok_inv in H. destruct H as ([|] & s1 & _ & H).
    - apply bind_ok_inv in H. destruct H as (v & s2 & _ & H).
      destruct (truthy v).
      + apply bind_ok_inv in H. destruct H as (items & s3 & _ & H).
        apply fold_process_issue_grows in H. exact H.
      + injection H as <- _. lia.
    - injection H as <- _. lia. }
  unfold count_lint_data.
  destruct lint_data as [| | | | |fields]; try exact Hgen.
  - intros H. injection H as <- _. lia.
  - destruct fields; [|exact Hgen]. intros H. injection H as <- _. lia.
Qed.

Lemma count_issues_nonneg p s n s' :
  count_issues o p s = (Ok n, s') -> 0 <= n.
Proof.
  unfold count_issues.
  destruct (negb (is_empty (stdout p)) && negb (is_empty (strip (stdout p)))).
  - destruct (_ || _); [intros H; injection H as <- _; lia|].
    destruct (json_loads o _); [apply count_lint_data_nonneg|].
    intros H; injection H as <- _; lia.
  - destruct (returncode p =? 0); [intros H; injection H as <- _; lia|].
    intros H.
    repeat (apply bind_ok_inv in H; destruct H as (? & ? & _ & H)).
    injection H as <- _. lia.
Qed.

(** When the guarded region ends normally it has gone through step 8. *)
Lemma guarded_region_ok code model s0 n s :
  guarded_region o code model s0 = (Ok n, s) ->
  0 <= n /\ exists r, s.(report) = finalize code n r.
Proof.
  unfold guarded_region. intros H.
  apply bind_ok_inv in H. destruct H as (? & ? & _ & H).
  apply bind_ok_inv in H. destruct H as (? & ? & _ & H).
  apply bind_ok_inv in H. destruct H as (? & ? & _ & H).
  apply bind_ok_inv in H. destruct H as (p & s1 & _ & H).
  apply bind_ok_inv in H. destruct H as (m & s2 & Hc & H).
  apply bind_ok_inv in H. destruct H as (? & s3 & Hf & H).
  injection H as <- <-. split; [eapply count_issues_nonneg; eauto|].
  unfold on_report, modify in Hf. injection Hf as _ <-. simpl. eauto.
Qed.

(** When it raises, step 8 has not run. *)
Lemma guarded_region_raise code model s0 msg s :
  guarded_region o code model s0 = (Raise msg, s) -> unscored s0 -> unscored s.
Proof.
  unfold guarded_region. intros H H0.
  assert (Hpre : forall A (r : result A), preserves unscored (@lift VState A r))
    by (intros; apply preserves_lift).
  assert (Hlog : forall c, preserves unscored (log_call c)).
  { intros c. apply preserves_modify. intros x Hx. exact Hx. }
  apply bind_raise_inv in H. destruct H as [H|(? & s1 & E1 & H)].
  { exact (Hpre _ _ _ _ _ H H0). }
  pose proof (Hpre _ _ _ _ _ E1 H0) as H1.
  apply bind_raise_inv in H. destruct H as [H|(? & s2 & E2 & H)].
  { exact (Hpre _ _ _ _ _ H H1). }
  pose proof (Hpre _ _ _ _ _ E2 H1) as H2.
  apply bind_raise_inv in H. destruct H as [H|(? & s3 & E3 & H)].
  { exact (Hlog _ _ _ _ H H2). }
  pose proof (Hlog _ _ _ _ E3 H2) as H3.
  apply bind_raise_inv in H. destruct H as [H|(? & s4 & E4 & H)].
  { exact (Hpre _ _ _ _ _ H H3). }
  pose proof (Hpre _ _ _ _ _ E4 H3) as H4.
  apply bind_raise_inv in H. destruct H as [H|(? & s5 & E5 & H)].
  { eapply count_issues_unscored; eauto. }
  unfold bind, on_report, modify, ret in H. simpl in H. discriminate.
Qed.

End ValidatorFacts.

Section ValidatorClaims.

Variable o : Oracles.

Lemma start_unscored model : unscored (start_state model).
Proof. repeat split. Qed.

(** C1.  When the lint run of a code reaches step 8 with [n] issues, [n]
    is not negative and the report has [total_errors = n] and
    [quality_score = max(0, 1 - 0.08 n)]; the score does not increase
    with the count and is 0 from 13 issues on; the report has passed
    exactly when the score is at least 0.5, that is exactly when
    [n <= 6]. *)
Theorem quality_score_of_issue_count (code model : string) (n : Z) (s : VState) :
  is_empty code || is_empty (strip code) = false ->
  mkdtemp (lint_env o code model) = Ok tt ->
  guarded_region o code model (start_state model) = (Ok n, s) ->
  0 <= n
  /\ exists r calls,
      validate_and_fix_go_code o code model = (Ok r, calls)
      /\ total_errors r = n
      /\ (quality_score r == Qmax 0 (1 - (8 # 100) * inject_Z n))%Q
      /\ (forall m, n <= m -> (score_of_count m <= quality_score r)%Q)
      /\ (13 <= n -> (quality_score r == 0)%Q)
      /\ (validation_passed r = true <-> (1 # 2 <= quality_score r)%Q)
      /\ (validation_passed r = true <-> n <= 6).
Proof.
  intros Hcode Htmp Hrun. unfold start_state in Hrun.
  destruct (guarded_region_ok _ _ _ _ Hrun) as (Hn & r0 & Hr).
  split; [exact Hn|].
  exists (report s), (calls s).
  unfold validate_and_fix_go_code. rewrite Hcode, Htmp, Hrun.
  split; [reflexivity|]. rewrite Hr. simpl.
  split; [reflexivity|].
  split; [unfold score_of_count; apply Q.max_compat; [reflexivity | ring]|].
  split; [intros m Hm; apply score_of_count_antitone, Hm|].
  split; [apply score_of_count_clamped|].
  split; [apply meets_threshold_iff|].
  rewrite meets_threshold_iff. apply threshold_at_count.
Qed.

(** C2, on the empty code: the report counts no issue and yet scores 0,
    not 1, while it carries one error and [has_errors]. *)
Theorem empty_code_report (model : string) :
  exists r,
    validate_and_fix_go_code o "" model = (Ok r, [])
    /\ total_errors r = 0
    /\ (quality_score r == 0)%Q
    /\ ~ (quality_score r == 1)%Q
    /\ has_errors r = true
    /\ errors r = ["Empty code"].
Proof.
  eexists. split; [reflexivity|]. simpl.
  repeat split; try reflexivity. intros H. discriminate H.
Qed.

(** The same on the exception path: whatever raises inside the guarded
    region, the report counts no issue and scores 0. *)
Lemma exception_report (code model msg : string) (s : VState) :
  is_empty code || is_empty (strip code) = false ->
  mkdtemp (lint_env o code model) = Ok tt ->
  guarded_region o code model (start_state model) = (Raise msg, s) ->
  exists r calls,
    validate_and_fix_go_code o code model = (Ok r, calls)
    /\ total_errors r = 0
    /\ quality_score r = 0%Q
    /\ validation_passed r = false
    /\ has_errors r = true
    /\ errors r = (errors (report s) ++ [("Validation error: " ++ msg)%string])%list.
Proof.
  intros Hcode Htmp Hrun. unfold start_state in Hrun.
  pose proof Hrun as Hu.
  eapply guarded_region_raise in Hu; [|apply (start_unscored model)].
  destruct Hu as (H1 & H2 & H3).
  exists (on_exception code msg (report s)), (calls s).
  unfold validate_and_fix_go_code. rewrite Hcode, Htmp, Hrun.
  simpl. auto 10.
Qed.

(** Every report of the validator scores between 0 and 1. *)
Lemma validate_code_quality_range (code language model : string) r calls :
  validate_code o code language model = (Ok r, calls) ->
  (0 <= quality_score r <= 1)%Q.
Proof.
  unfold validate_code.
  set (lang := if String.eqb language "auto" then _ else _).
  destruct (String.eqb lang "go").
  2:{ intros H. injection H as <- _. simpl. lra. }
  unfold validate_and_fix_go_code.
  destruct (is_empty code || is_empty (strip code)) eqn:Hcode.
  { intros H. injection H as <- _. simpl. lra. }
  destruct (mkdtemp (lint_env o code model)); [|discriminate].
  destruct (guarded_region o code model _)
    as [[n|msg] s] eqn:Hrun; intros H; injection H as <- _.
  - destruct (guarded_region_ok _ _ _ _ Hrun) as (Hn & r0 & Hr).
    rewrite Hr. simpl. apply score_of_count_range, Hn.
  - pose proof Hrun as Hu.
    eapply guarded_region_raise in Hu; [|apply (start_unscored model)].
    destruct Hu as (_ & H2 & _).
    simpl. rewrite H2. lra.
Qed.

(** C3 (as amended).  Once the temporary directory exists the call
    returns a report.  Whatever raises inside the guarded region adds the
    one issue [Validation error: ...] and sets [has_errors]: so a crash
    or a timeout of the script gives exactly that issue.  A script that
    prints nothing and exits with a non-zero code gives the one issue
    [Validation failed: exit code ...], counted as one error.  An output
    that [json.loads] rejects gives a report without issue, with
    [has_errors] false and the score 1. *)
Theorem validator_degrade_paths (code model : string) :
  mkdtemp (lint_env o code model) = Ok tt ->
  exists r calls,
    validate_and_fix_go_code o code model = (Ok r, calls)
    /\ (forall msg s,
           is_empty code || is_empty (strip code) = false ->
           guarded_region o code model (start_state model) = (Raise msg, s) ->
           has_errors r = true
           /\ errors r
              = (errors (report s)
                 ++ [("Validation error: " ++ msg)%string])%list)
    /\ (forall msg,
           is_empty code || is_empty (strip code) = false ->
           write_code (lint_env o code model) = Ok tt ->
           make_script (lint_env o code model) = Ok tt ->
           run_script (lint_env o code model) = Raise msg ->
           has_errors r = true
           /\ errors r = ["Validation error: " ++ msg])
    /\ (forall p,
           is_empty code || is_empty (strip code) = false ->
           write_code (lint_env o code model) = Ok tt ->
           make_script (lint_env o code model) = Ok tt ->
           run_script (lint_env o code model) = Ok p ->
           is_empty (strip (stdout p)) = true ->
           returncode p <> 0 ->
           has_errors r = true
           /\ errors r = ["Validation failed: exit code " ++ str_of_Z (returncode p)]
           /\ total_errors r = 1)
    /\ (forall p,
           is_empty code || is_empty (strip code) = false ->
           write_code (lint_env o code model) = Ok tt ->
           make_script (lint_env o code model) = Ok tt ->
           run_script (lint_env o code model) = Ok p ->
           is_empty (strip (stdout p)) = false ->
           String.eqb (strip (stdout p)) "null" = false ->
           String.eqb (strip (stdout p)) "{}" = false ->
           json_loads o (strip (stdout p)) = None ->
           has_errors r = false
           /\ errors r = []
           /\ total_errors r = 0
           /\ (quality_score r == 1)%Q).
Proof.
  intros Htmp.
  unfold validate_and_fix_go_code. rewrite Htmp.
  destruct (is_empty code || is_empty (strip code)) eqn:Hcode.
  { do 2 eexists. split; [reflexivity|].
    repeat split; intros; discriminate. }
  destruct (guarded_region o code model _)
    as [[n|msg0] s0] eqn:Hrun.
  - exists (report s0), (calls s0). split; [reflexivity|].
    split; [intros; discriminate|].
    unfold guarded_region, bind, lift, log_call, modify in Hrun.
    split; [|split].
    + intros msg _ Hw Hs Hr. rewrite Hw, Hs, Hr in Hrun. discriminate.
    + intros p _ Hw Hs Hr Hout Hrc. rewrite Hw, Hs, Hr in Hrun.
      unfold count_issues in Hrun. rewrite Hout, andb_false_r in Hrun.
      apply Z.eqb_neq in Hrc. rewrite Hrc in Hrun.
      unfold bind, on_report, modify, ret in Hrun. simpl in Hrun.
      injection Hrun as <- <-. simpl. auto.
    + intros p _ Hw Hs Hr Hout Hnull Hobj Hjson. rewrite Hw, Hs, Hr in Hrun.
      unfold count_issues in Hrun.
      assert (Hraw : is_empty (stdout p) = false).
      { destruct (is_empty (stdout p)) eqn:E; [|reflexivity].
        rewrite (strip_empty _ E) in Hout. discriminate. }
      rewrite Hout, Hraw, Hnull, Hobj, Hjson in Hrun. simpl in Hrun.
      destruct (String.eqb (strip (stdout p)) "") eqn:E.
      { apply String.eqb_eq in E. rewrite E in Hout. discriminate. }
      unfold bind, on_report, modify, ret in Hrun. simpl in Hrun.
      injection Hrun as <- <-. simpl. repeat split; reflexivity.
  - exists (on_exception code msg0 (report s0)), (calls s0).
    split; [reflexivity|].
    split.
    { intros msg s _ E. injection E as <- <-. simpl. auto. }
    unfold guarded_region, bind, lift, log_call, modify in Hrun.
    split; [|split].
    + intros msg _ Hw Hs Hr. rewrite Hw, Hs, Hr in Hrun.
      injection Hrun as <- <-. simpl. auto.
    + intros p _ Hw Hs Hr Hout Hrc. rewrite Hw, Hs, Hr in Hrun.
      unfold count_issues in Hrun. rewrite Hout, andb_false_r in Hrun.
      apply Z.eqb_neq in Hrc. rewrite Hrc in Hrun.
      unfold bind, on_report, modify, ret in Hrun. simpl in Hrun. discriminate.
    + intros p _ Hw Hs Hr Hout Hnull Hobj Hjson. rewrite Hw, Hs, Hr in Hrun.
      unfold count_issues in Hrun.
      assert (Hraw : is_empty (stdout p) = false).
      { destruct (is_empty (stdout p)) eqn:E; [|reflexivity].
        rewrite (strip_empty _ E) in Hout. discriminate. }
      rewrite Hout, Hraw, Hnull, Hobj, Hjson in Hrun. simpl in Hrun.
      destruct (String.eqb (strip (stdout p)) "") eqn:E.
      { apply String.eqb_eq in E. rewrite E in Hout. discriminate. }
      unfold bind, on_report, modify, ret in Hrun. simpl in Hrun. discriminate.
Qed.

(** C10.  A code that does not contain both [package ] and [func ] is
    not taken for Go under [language = 'auto']: no validator is invoked
    and the report is the default one, with the score 0.5, no error,
    [validation_passed] and the code itself as [fixed_code]. *)
Theorem validate_code_skips_other_languages (code model : string) :
  contains "package " code && contains "func " code = false ->
  validate_code o code "auto" model
  = (Ok (mkValidation (1 # 2) false [] 0 0 true model (Some code) false []), []).
Proof.
  intros H. unfold validate_code. simpl String.eqb. rewrite H. reflexivity.
Qed.

End ValidatorClaims.

(** C1 at a lint document with one issue that groups two errors. *)
Lemma quality_score_of_issue_count_witness :
  0 <= 2
  /\ exists r calls,
      validate_and_fix_go_code grouped_oracles go_code "gpt" = (Ok r, calls)
      /\ total_errors r = 2
      /\ (quality_score r == Qmax 0 (1 - (8 # 100) * inject_Z 2))%Q
      /\ (forall m, 2 <= m -> (score_of_count m <= quality_score r)%Q)
      /\ (13 <= 2 -> (quality_score r == 0)%Q)
      /\ (validation_passed r = true <-> (1 # 2 <= quality_score r)%Q)
      /\ (validation_passed r = true <-> 2 <= 6).
Proof.
  eapply (@quality_score_of_issue_count
            grouped_oracles go_code "gpt" 2).
  - reflexivity.
  - reflexivity.
  - vm_compute. reflexivity.
Defined.

(** The errors recorded for that document. *)
Example grouped_issue_errors :
  match fst (validate_and_fix_go_code grouped_oracles go_code "gpt") with
  | Ok r =>
      errors r
      = ["Line 3: ./m.go:3:2: x declared and not used [typecheck]";
         "Line 3: ./m.go:4:2: undefined: y [typecheck]"]
      /\ has_errors r = true
  | Raise _ => False
  end.
Proof. vm_compute. split; reflexivity. Qed.

(** C3 (as stated) fails: the script prints something that is not JSON,
    and the report has no issue and [has_errors] false; and where the
    temporary directory cannot be created, the call raises. *)
Lemma unparsable_output_reported_clean :
  (exists r calls,
      validate_and_fix_go_code garbled_oracles go_code "gpt"
      = (Ok r, calls)
      /\ has_errors r = false
      /\ errors r = []
      /\ total_errors r = 0
      /\ validation_passed r = true)
  /\ validate_and_fix_go_code full_disk_oracles go_code "gpt"
     = (Raise "No space left on device", []).
Proof.
  split; [|reflexivity].
  do 2 eexists. vm_compute. repeat split; reflexivity.
Qed.

(** C3 at a host on which the script is killed by the timeout. *)
Lemma validator_degrade_paths_witness :
  mkdtemp (timing_out_host go_code "gpt") = Ok tt
  /\ exists r calls,
      validate_and_fix_go_code timing_out_oracles
        go_code "gpt" = (Ok r, calls)
      /\ has_errors r = true
      /\ errors r = ["Validation error: Command timed out after 650 seconds"].
Proof.
  split; [reflexivity|].
  destruct (@validator_degrade_paths timing_out_oracles
              go_code "gpt" eq_refl)
    as (r & calls & E & _ & Hcrash & _).
  exists r, calls. split; [exact E|].
  apply Hcrash; reflexivity.
Defined.

(** A script that prints nothing and exits with the code 3 is reported as
    one error. *)
Example silent_failure_report :
  exists r calls,
    validate_and_fix_go_code silent_failure_oracles go_code "gpt" = (Ok r, calls)
    /\ has_errors r = true
    /\ errors r = ["Validation failed: exit code 3"]
    /\ total_errors r = 1
    /\ calls = [(go_code, "gpt")].
Proof. do 2 eexists. vm_compute. repeat split; reflexivity. Qed.

(** An output that decodes to a number makes the membership test raise:
    the report has the synthetic issue, no counted error and the score 0. *)
Example unexpected_shape_report :
  exists r calls,
    validate_and_fix_go_code number_oracles go_code "gpt" = (Ok r, calls)
    /\ has_errors r = true
    /\ errors r = ["Validation error: TypeError: argument is not iterable"]
    /\ total_errors r = 0
    /\ validation_passed r = false.
Proof. do 2 eexists. vm_compute. repeat split; reflexivity. Qed.

(** C10 at a Python snippet. *)
Lemma validate_code_skips_other_languages_witness :
  contains "package " python_code && contains "func " python_code = false
  /\ validate_code timing_out_oracles python_code "auto" "gpt"
     = (Ok (mkValidation (1 # 2) false [] 0 0 true "gpt" (Some python_code) false []),
        []).
Proof.
  split; [reflexivity|].
  apply (@validate_code_skips_other_languages timing_out_oracles python_code "gpt").
  reflexivity.
Defined.

(** Every count is reached: a lint document of [n] issues of one error
    each brings the guarded region to step 8 with the count [n]. *)
Lemma bind_lift_ok {S A B} (r : result A) (a : A) (k : A -> M S B) (s : S) :
  r = Ok a -> bind (lift r) k s = k a s.
Proof. intros ->. reflexivity. Qed.

Lemma process_single_issue (o : Oracles) (acc : Z) (s : VState) :
  exists s', process_issue o acc single_issue s = (Ok (acc + 1), s').
Proof.
  unfold process_issue.
  rewrite (@bind_lift_ok _ _ _ _ (JStr "./m.go:4:2: undefined: y")) by reflexivity.
  rewrite (@bind_lift_ok _ _ _ _ 1) by (vm_compute; reflexivity).
  rewrite (@bind_lift_ok _ _ _ _ (JObj [("Line", JNum 4)])) by reflexivity.
  rewrite (@bind_lift_ok _ _ _ _ (JStr "typecheck")) by reflexivity.
  rewrite (@bind_lift_ok _ _ _ _ ["./m.go:4:2: undefined: y"])
    by (vm_compute; reflexivity).
  cbn [for_each]. unfold record_error_line.
  change (startswith "#" "./m.go:4:2: undefined: y") with false. cbv iota.
  eexists. reflexivity.
Qed.

Lemma fold_single_issues (o : Oracles) (n : nat) :
  forall (acc : Z) (s : VState),
  exists s',
    fold_each (repeat single_issue n) acc (process_issue o) s
    = (Ok (acc + Z.of_nat n), s').
Proof.
  induction n as [|n IH]; intros acc s.
  - exists s. cbn [repeat fold_each Z.of_nat]. rewrite Z.add_0_r. reflexivity.
  - destruct (process_single_issue o acc s) as [s1 E1].
    destruct (IH (acc + 1) s1) as [s2 E2].
    exists s2. replace (acc + Z.of_nat (S n)) with (acc + 1 + Z.of_nat n) by lia.
    cbn [repeat fold_each]. unfold bind at 1. rewrite E1. exact E2.
Qed.

Lemma guarded_region_of_document (n : nat) :
  guarded_region (document_oracles (S n))
    go_code "gpt" (start_state "gpt")
  = bind (fold_each (repeat single_issue (S n)) 0
            (process_issue
               (document_oracles (S n))))
      (fun count =>
         bind (on_report (finalize go_code count)) (fun _ => ret count))
      (mkVState (initial_result "gpt") [(go_code, "gpt")]).
Proof. reflexivity. Qed.

Lemma issue_count_reachable (n : nat) :
  exists s,
    guarded_region (document_oracles n)
      go_code "gpt" (start_state "gpt")
    = (Ok (Z.of_nat n), s).
Proof.
  destruct n as [|n]; [eexists; reflexivity|].
  destruct (fold_single_issues
              (document_oracles (S n))
              (S n) 0
              (mkVState (initial_result "gpt") [(go_code, "gpt")])) as [s' E].
  rewrite guarded_region_of_document. unfold bind at 1. rewrite E.
  change (0 + Z.of_nat (S n)) with (Z.of_nat (S n)).
  eexists. reflexivity.
Qed.

(** On binary64 values the same thresholds hold for every count below
    200: the report passes exactly up to 6 issues and the score is 0
    exactly from 13 issues on. *)
Lemma binary64_thresholds :
  forallb
    (fun n =>
       Bool.eqb (Binary64.meets_threshold (Binary64.score_of_count n)) (n <=? 6)
       && Bool.eqb (PrimFloat.eqb (Binary64.score_of_count n) 0%float) (13 <=? n))
    (Binary64.counts_upto 200)
  = true.
Proof. vm_compute. reflexivity. Qed.

(** On binary64 values the score does not increase over those counts. *)
Lemma binary64_antitone :
  forallb
    (fun n => PrimFloat.leb (Binary64.score_of_count (n + 1))
                (Binary64.score_of_count n))
    (Binary64.counts_upto 200)
  = true.
Proof. vm_compute. reflexivity. Qed.

(** On binary64 values the combined score of three component scores of 1
    is 1, and that of three component scores of 0 is 0. *)
Lemma binary64_combine_extremes :
  Binary64.combine 1 1 1 = 1%float /\ Binary64.combine 0 0 0 = 0%float.
Proof. split; vm_compute; reflexivity. Qed.

(* ================================================================== *)
(** * The generator under a scripted backend *)
(* ================================================================== *)

(** One turn of the loop on a call that is cut off, and on one that
    completes. *)
Lemma generation_loop_cut_off (client : ChatClient) (remaining : nat)
  (st : GenState) (chunk : string) (used : Z) :
  client (iteration st + 1) (current_system st) (current_user st)
  = Ok (mkCompletion (Some chunk) "length" (Some used)) ->
  generation_loop client (S remaining) st
  = generation_loop client remaining
      (mkGenState (full_response st ++ chunk) (iteration st + 1)
         (mkGenMetadata (iteration st + 1)
            (finish_reasons (gen_metadata st) ++ ["length"])
            (total_tokens (gen_metadata st) + used) true
            (gen_error (gen_metadata st)))
         continuation_system (continuation_user (full_response st ++ chunk))
         (backend_calls st ++ [(current_system st, current_user st)])).
Proof. intros H. cbn [generation_loop]. rewrite H. reflexivity. Qed.

Lemma generation_loop_complete (client : ChatClient) (remaining : nat)
  (st : GenState) (chunk : string) (used : Z) :
  client (iteration st + 1) (current_system st) (current_user st)
  = Ok (mkCompletion (Some chunk) "stop" (Some used)) ->
  generation_loop client (S remaining) st
  = mkGenState (full_response st ++ chunk) (iteration st + 1)
      (mkGenMetadata (iteration st + 1)
         (finish_reasons (gen_metadata st) ++ ["stop"])
         (total_tokens (gen_metadata st) + used)
         (was_truncated (gen_metadata st)) (gen_error (gen_metadata st)))
      (current_system st) (current_user st)
      (backend_calls st ++ [(current_system st, current_user st)]).
Proof. intros H. cbn [generation_loop]. rewrite H. reflexivity. Qed.

Section ScriptedBackend.

Variable client : ChatClient.
Variable budget : Z.

(** Calls before the last are cut off, the last one completes; every
    call returns a text and a token usage. *)
Hypothesis cut_off_before :
  forall call sys usr, 1 <= call < budget ->
    exists chunk used,
      client call sys usr = Ok (mkCompletion (Some chunk) "length" (Some used)).
Hypothesis complete_at_last :
  forall sys usr,
    exists chunk used,
      client budget sys usr = Ok (mkCompletion (Some chunk) "stop" (Some used)).

Lemma generation_loop_scripted (remaining : nat) (st : GenState) :
  (1 <= remaining)%nat ->
  0 <= iteration st ->
  iteration st + Z.of_nat remaining = budget ->
  List.length (backend_calls (generation_loop client remaining st))
  = (List.length (backend_calls st) + remaining)%nat
  /\ iterations (gen_metadata (generation_loop client remaining st)) = budget
  /\ was_truncated (gen_metadata (generation_loop client remaining st))
     = was_truncated (gen_metadata st) || (2 <=? remaining)%nat
  /\ gen_error (gen_metadata (generation_loop client remaining st))
     = gen_error (gen_metadata st)
  /\ exists before,
      finish_reasons (gen_metadata (generation_loop client remaining st))
      = (before ++ ["stop"])%list.
Proof.
  revert st. induction remaining as [|r IH]; intros st Hr Hi Hsum; [lia|].
  destruct r as [|r'].
  - (* the last call *)
    assert (Hb : iteration st + 1 = budget) by lia.
    destruct (complete_at_last (current_system st) (current_user st))
      as (chunk & used & E).
    rewrite <- Hb in E. rewrite (generation_loop_complete _ _ _ E).
    cbn. rewrite length_app. cbn.
    repeat split; try lia.
    + rewrite orb_false_r. reflexivity.
    + eexists. reflexivity.
  - (* a call that is cut off *)
    assert (Hlt : 1 <= iteration st + 1 < budget) by lia.
    destruct (cut_off_before (current_system st) (current_user st) Hlt)
      as (chunk & used & E).
    rewrite (generation_loop_cut_off _ _ _ E).
    match goal with
    | |- context [generation_loop client (S r') ?s] => specialize (IH s)
    end.
    cbn [iteration backend_calls gen_metadata was_truncated gen_error] in IH.
    destruct IH as (H1 & H2 & H3 & H4 & H5); [lia | lia | lia |].
    rewrite H1, H2, H3, H4. rewrite length_app. cbn [List.length].
    repeat split; try lia.
    + rewrite orb_true_r. reflexivity.
    + exact H5.
Qed.

(** C8 (as amended).  With a budget of at least one call and a backend
    that is cut off on every call before the last and completes on the
    last, the generator makes exactly [budget] calls and reports
    [budget] iterations without error; [was_truncated] is set exactly
    when the budget is at least 2, since a budget of 1 leaves no call
    that is cut off. *)
Theorem generate_with_continuation_scripted (system_prompt user_prompt : string) :
  1 <= budget ->
  Z.of_nat
    (List.length
       (snd (generate_with_continuation client budget system_prompt user_prompt)))
  = budget
  /\ iterations
       (snd (fst (generate_with_continuation client budget
                    system_prompt user_prompt))) = budget
  /\ was_truncated
       (snd (fst (generate_with_continuation client budget
                    system_prompt user_prompt))) = (2 <=? budget)
  /\ gen_error
       (snd (fst (generate_with_continuation client budget
                    system_prompt user_prompt))) = None.
Proof.
  intros Hb. unfold generate_with_continuation. cbn [fst snd].
  destruct (@generation_loop_scripted (Z.to_nat budget)
              (initial_gen_state system_prompt user_prompt))
    as (H1 & H2 & H3 & H4 & _);
    [lia | unfold initial_gen_state; cbn [iteration]; lia
     | unfold initial_gen_state; cbn [iteration]; lia |].
  rewrite H1, H2, H3, H4.
  unfold initial_gen_state.
  cbn [backend_calls gen_metadata was_truncated gen_error List.length orb Nat.add].
  repeat split; try lia.
  destruct (Nat.leb_spec 2 (Z.to_nat budget)), (Z.leb_spec 2 budget);
    try reflexivity; lia.
Qed.

End ScriptedBackend.

(** C8 at a budget of three calls. *)
Lemma generate_with_continuation_scripted_witness :
  1 <= 3
  /\ Z.of_nat
       (List.length
          (snd (generate_with_continuation (scripted_client 3) 3 "system" "user")))
     = 3
  /\ was_truncated
       (snd (fst (generate_with_continuation (scripted_client 3) 3 "system" "user")))
     = true.
Proof.
  split; [lia|].
  destruct (@generate_with_continuation_scripted (scripted_client 3) 3)
    with (system_prompt := "system") (user_prompt := "user")
    as (H1 & _ & H3 & _).
  - intros call sys usr Hc. exists "x := 1;", 10. unfold scripted_client.
    destruct (Z.ltb_spec call 3); [reflexivity | lia].
  - intros sys usr. exists "x := 1;", 10. reflexivity.
  - lia.
  - split; [exact H1 | exact H3].
Defined.

(** C8 (as stated) fails at a budget of one call: the only call
    completes, one call is made, and [was_truncated] stays false. *)
Lemma single_call_is_not_truncated :
  (forall call, 1 <= call < 1 -> False)
  /\ List.length
       (snd (generate_with_continuation (scripted_client 1) 1 "system" "user"))
     = 1%nat
  /\ finish_reasons
       (snd (fst (generate_with_continuation (scripted_client 1) 1 "system" "user")))
     = ["stop"]
  /\ was_truncated
       (snd (fst (generate_with_continuation (scripted_client 1) 1 "system" "user")))
     = false.
Proof. split; [intros; lia|]. vm_compute. repeat split; reflexivity. Qed.

(* ================================================================== *)
(** * The refinement loop *)
(* ================================================================== *)

Section RefinementFacts.

Variable o : Oracles.
Variable backend : RefineBackend.

Lemma refinement_loop_result (best_model : string) (model_config : ModelConfig)
  (initial_validation : ValidationResult) (remaining : nat) :
  forall (i : Z) (st res : RefineState) (exit : LoopExit),
    refinement_loop o backend best_model model_config
      initial_validation remaining i st = Ok (res, exit) ->
    loop_entry i st ->
    loop_result (i - 1 + Z.of_nat remaining) res exit.
Proof.
  induction remaining as [|r IH]; intros i st res exit Hrun Hin;
    destruct Hin as (Hi & Hperf & Hsucc & Hdet & Hreq).
  - cbn in Hrun. injection Hrun as <- <-.
    unfold loop_result. cbv zeta. rewrite Hsucc.
    split; [lia|]. split; [lia|]. split; [lia|].
    split; [split; discriminate|]. split; discriminate.
  - cbn [refinement_loop] in Hrun.
    replace (i - 1 + Z.of_nat (S r)) with (i + Z.of_nat r) by lia.
    assert (Hfail :
              forall res exit,
                Ok (mkRefineState (current_response st) (current_validation st)
                      (refinement_metadata st) (requests st ++ [i])%list,
                    ExitRequestFailed) = Ok (res, exit) ->
                loop_result (i + Z.of_nat r) res exit).
    { intros res0 exit0 E. injection E as <- <-.
      unfold loop_result. cbn. rewrite Hsucc, !length_app. cbn.
      split; [lia|]. split; [lia|]. split; [lia|].
      split; [split; discriminate|]. split; discriminate. }
    destruct (request_refinement _ _ _ _ _) as [refined|]; [|eauto].
    destruct (is_empty refined); [eauto|].
    destruct (fst (validate_code _ _ _ _)) as [validation|msg];
      [|discriminate].
    cbv zeta in Hrun. cbn [improvement] in Hrun.
    destruct (total_errors validation =? 0) eqn:Hzero.
    + (* no error left *)
      apply Z.eqb_eq in Hzero.
      injection Hrun as <- <-. unfold loop_result. cbn.
      rewrite !length_app. cbn.
      split; [lia|]. split; [lia|]. split; [lia|].
      split; [split; reflexivity|].
      split; [|discriminate].
      intros _. split; [exact Hzero|].
      do 2 eexists. split; [reflexivity|]. cbn. auto.
    + destruct ((1 <? i)
                && (final_errors (refinement_metadata st)
                    - total_errors validation <=? 0)) eqn:Hstall.
      * (* no improvement after the first iteration *)
        apply andb_true_iff in Hstall. destruct Hstall as [H1 H2].
        apply Z.ltb_lt in H1. apply Z.leb_le in H2.
        injection Hrun as <- <-. unfold loop_result. cbn.
        rewrite !length_app, Hsucc. cbn.
        split; [lia|]. split; [lia|]. split; [lia|].
        split; [split; discriminate|].
        split; [discriminate|].
        intros _. do 2 eexists. split; [reflexivity|]. cbn.
        repeat split; try reflexivity; lia.
      * (* next iteration *)
        apply IH in Hrun.
        -- replace (i + Z.of_nat r) with (i + 1 - 1 + Z.of_nat r) by lia.
           exact Hrun.
        -- unfold loop_entry. cbn. rewrite !length_app. cbn.
           repeat split; try lia. exact Hsucc.
Qed.

(** C6.  A refinement run that returns has performed at most as many
    iterations as its budget allows, and has requested at most that many
    refinements.  It has ended as successful exactly when it left the
    loop at an iteration whose validation counted no error, which is
    then the last one recorded.  It has left the loop for lack of
    improvement only at an iteration after the first whose improvement,
    the errors before less the errors after, was not positive. *)
Theorem refinement_within_budget (max_refinement_iterations : Z)
  (best_response_data : Candidate) (model_config : ModelConfig)
  (res : RefineState) (exit : LoopExit) :
  refine_response_iteratively o backend
    max_refinement_iterations best_response_data model_config
  = Ok (res, exit) ->
  let md := refinement_metadata res in
  iterations_performed md <= Z.max 0 max_refinement_iterations
  /\ (List.length (iteration_details md)
      <= Z.to_nat max_refinement_iterations)%nat
  /\ (List.length (requests res) <= Z.to_nat max_refinement_iterations)%nat
  /\ (refinement_successful md = true ->
      exit = ExitSuccessful
      /\ final_errors md = 0
      /\ exists earlier d,
          iteration_details md = (earlier ++ [d])%list
          /\ errors_after d = 0
          /\ total_errors (validation_result d) = 0)
  /\ (exit = ExitNoImprovement ->
      exists earlier d,
        iteration_details md = (earlier ++ [d])%list
        /\ 1 < it_iteration d
        /\ improvement d = errors_before d - errors_after d
        /\ improvement d <= 0).
Proof.
  unfold refine_response_iteratively. intros Hrun.
  assert (Hskip :
            forall response,
              Ok (mkRefineState response None
                    (mkRefinementMetadata false 0 0 [] 0 false) [],
                  ExitNotNeeded) = Ok (res, exit) ->
              let md := refinement_metadata res in
              iterations_performed md <= Z.max 0 max_refinement_iterations
              /\ (List.length (iteration_details md)
                  <= Z.to_nat max_refinement_iterations)%nat
              /\ (List.length (requests res)
                  <= Z.to_nat max_refinement_iterations)%nat
              /\ (refinement_successful md = true ->
                  exit = ExitSuccessful
                  /\ final_errors md = 0
                  /\ exists earlier d,
                      iteration_details md = (earlier ++ [d])%list
                      /\ errors_after d = 0
                      /\ total_errors (validation_result d) = 0)
              /\ (exit = ExitNoImprovement ->
                  exists earlier d,
                    iteration_details md = (earlier ++ [d])%list
                    /\ 1 < it_iteration d
                    /\ improvement d = errors_before d - errors_after d
                    /\ improvement d <= 0)).
  { intros response E. injection E as <- <-. cbn.
    repeat split; try lia; try discriminate. }
  destruct (static_validation (metadata best_response_data))
    as [initial_validation|]; [|eauto].
  destruct (negb (has_errors initial_validation)); [eauto|].
  apply refinement_loop_result in Hrun.
  2:{ unfold loop_entry. cbn. repeat split; lia. }
  destruct Hrun as (H1 & H2 & H3 & H4 & H5 & H6). cbv zeta.
  repeat split; try lia.
  - apply H4. assumption.
  - apply H5, H4. assumption.
  - destruct (H5 (proj1 H4 H)) as (_ & earlier & d & E & Ha & Ht & _).
    eauto 6.
  - intros Hexit. destruct (H6 Hexit) as (earlier & d & E & _ & Hi & Hd & Hle).
    eauto 8.
Qed.

(** The validator returns whenever the temporary directory can be
    created, and then so does the refinement. *)
Lemma validate_code_returns (code language model : string) :
  (forall c m, mkdtemp (lint_env o c m) = Ok tt) ->
  exists r, fst (validate_code o code language model) = Ok r.
Proof.
  intros Htmp. unfold validate_code.
  destruct (String.eqb _ "go"); [|eexists; reflexivity].
  unfold validate_and_fix_go_code.
  destruct (is_empty code || is_empty (strip code)); [eexists; reflexivity|].
  rewrite Htmp.
  destruct (guarded_region _ _ _ _) as [[n|msg] s]; eexists; reflexivity.
Qed.

Lemma refinement_loop_returns (best_model : string) (model_config : ModelConfig)
  (initial_validation : ValidationResult) (remaining : nat) :
  (forall c m, mkdtemp (lint_env o c m) = Ok tt) ->
  forall (i : Z) (st : RefineState),
  exists res exit,
    refinement_loop o backend best_model model_config
      initial_validation remaining i st = Ok (res, exit).
Proof.
  intros Htmp. induction remaining as [|r IH]; intros i st.
  - do 2 eexists. reflexivity.
  - cbn [refinement_loop].
    destruct (request_refinement _ _ _ _ _) as [refined|];
      [|do 2 eexists; reflexivity].
    destruct (is_empty refined); [do 2 eexists; reflexivity|].
    destruct (validate_code_returns (clean_code_artifacts refined) "auto"
                (best_model ++ "_refined_iter" ++ str_of_Z i) Htmp) as [v ->].
    cbv zeta.
    destruct (total_errors v =? 0); [do 2 eexists; reflexivity|].
    destruct (_ && _); [do 2 eexists; reflexivity|].
    apply IH.
Qed.

Lemma refine_response_iteratively_returns (max_refinement_iterations : Z)
  (best_response_data : Candidate) (model_config : ModelConfig) :
  (forall c m, mkdtemp (lint_env o c m) = Ok tt) ->
  exists res exit,
    refine_response_iteratively o backend
      max_refinement_iterations best_response_data model_config
    = Ok (res, exit).
Proof.
  intros Htmp. unfold refine_response_iteratively.
  destruct (static_validation _); [|do 2 eexists; reflexivity].
  destruct (negb _); [do 2 eexists; reflexivity|].
  apply refinement_loop_returns, Htmp.
Qed.

End RefinementFacts.

(** C6 on the run whose validations count 5, 2 and 2 errors, with a
    budget of five iterations: it stops at the third for lack of
    improvement. *)
Lemma refinement_within_budget_witness :
  exists res,
    refine_response_iteratively oracles_5_2_2 steady_backend
      5 faulty_candidate azure_config = Ok (res, ExitNoImprovement)
    /\ iterations_performed (refinement_metadata res) = 3
    /\ iterations_performed (refinement_metadata res) <= Z.max 0 5
    /\ map errors_after (iteration_details (refinement_metadata res)) = [5; 2; 2]
    /\ map improvement (iteration_details (refinement_metadata res)) = [3; 3; 0].
Proof.
  eexists. split; [vm_compute; reflexivity|].
  split; [reflexivity|]. split.
  - refine (proj1 (@refinement_within_budget oracles_5_2_2
                     steady_backend 5 faulty_candidate azure_config _
                     ExitNoImprovement _)).
    vm_compute. reflexivity.
  - split; reflexivity.
Defined.

(** The run whose validations count 4 and then 0 errors stops at the
    second iteration as successful. *)
Example refinement_4_0 :
  exists res,
    refine_response_iteratively oracles_4_0 steady_backend
      3 faulty_candidate azure_config = Ok (res, ExitSuccessful)
    /\ iterations_performed (refinement_metadata res) = 2
    /\ refinement_successful (refinement_metadata res) = true
    /\ map errors_after (iteration_details (refinement_metadata res)) = [4; 0].
Proof. eexists. split; [vm_compute; reflexivity|]. repeat split. Qed.

(* ================================================================== *)
(** * The combined score *)
(* ================================================================== *)

Lemma time_score_range (d : Q) :
  (0 <= d -> 0 <= Qmax 0 (1 - d / 30) <= 1)%Q.
Proof.
  intros Hd. split; [apply Q.le_max_l|].
  apply Q.max_lub; [lra|].
  assert (0 <= d / 30)%Q by (apply Qle_shift_div_l; lra). lra.
Qed.

Lemma completeness_range (len : Z) :
  0 <= len -> (0 <= Qmin (inject_Z len / 3000) 1 <= 1)%Q.
Proof.
  intros Hl. split; [|apply Q.le_min_r].
  assert (inject_Z 0 <= inject_Z len)%Q by (rewrite <- Zle_Qle; exact Hl).
  change (inject_Z 0) with 0%Q in *.
  apply Q.min_glb; [|lra]. apply Qle_shift_div_l; lra.
Qed.

Lemma combined_score_formula (r : Candidate) :
  (get_combined_score r
   == spec_combined_score (candidate_quality r) (duration r) (response_length r))%Q.
Proof. unfold get_combined_score, spec_combined_score. ring. Qed.

Lemma combined_score_expanded (r : Candidate) :
  (get_combined_score r
   == (70 # 100) * candidate_quality r
      + (10 # 100) * Qmax 0 (1 - duration r / 30)
      + (20 # 100) * Qmin (inject_Z (response_length r) / 3000) 1)%Q.
Proof. unfold get_combined_score. ring. Qed.

Lemma combined_score_range (r : Candidate) :
  (0 <= duration r)%Q ->
  0 <= response_length r ->
  (0 <= candidate_quality r <= 1)%Q ->
  (0 <= get_combined_score r <= 1)%Q.
Proof.
  intros Hd Hl Hq. rewrite combined_score_expanded.
  pose proof (time_score_range Hd) as Ht.
  pose proof (completeness_range Hl) as Hc.
  set (t := Qmax 0 (1 - duration r / 30)) in *.
  set (c := Qmin (inject_Z (response_length r) / 3000) 1) in *.
  set (q := candidate_quality r) in *.
  lra.
Qed.

(** C5.  The combined score of a candidate is
    [0.70 q + 0.10 max(0, 1 - d/30) + 0.20 min(len/3000, 1)], where [d] is
    its duration, [len] its response length and [q] the [quality_score]
    of the report in its metadata, or 0 when it carries no report.  For a
    duration and a length that are not negative the score lies between 0
    and 1 when the candidate has no report, when [q] lies between 0 and
    1, and in particular when [q] is the score that the validator gives
    to an issue count that is not negative. *)
Theorem combined_score_bounded (r : Candidate) :
  (0 <= duration r)%Q ->
  0 <= response_length r ->
  match static_validation (metadata r) with
  | Some v =>
      (get_combined_score r
       == (70 # 100) * quality_score v
          + (10 # 100) * Qmax 0 (1 - duration r / 30)
          + (20 # 100) * Qmin (inject_Z (response_length r) / 3000) 1)%Q
      /\ ((0 <= quality_score v <= 1)%Q ->
          (0 <= get_combined_score r <= 1)%Q)
      /\ (forall n, 0 <= n ->
            (quality_score v == score_of_count n)%Q ->
            (get_combined_score r
             == (70 # 100) * Qmax 0 (1 - inject_Z n * (8 # 100))
                + (10 # 100) * Qmax 0 (1 - duration r / 30)
                + (20 # 100) * Qmin (inject_Z (response_length r) / 3000) 1)%Q
            /\ (0 <= get_combined_score r <= 1)%Q)
  | None =>
      (get_combined_score r
       == (10 # 100) * Qmax 0 (1 - duration r / 30)
          + (20 # 100) * Qmin (inject_Z (response_length r) / 3000) 1)%Q
      /\ (0 <= get_combined_score r <= 1)%Q
  end.
Proof.
  intros Hd Hl.
  pose proof (combined_score_expanded r) as Hexp.
  pose proof (@combined_score_range r Hd Hl) as Hrange.
  unfold candidate_quality in Hexp, Hrange.
  destruct (static_validation (metadata r)) as [v|].
  - split; [exact Hexp|]. split; [exact Hrange|].
    intros n Hn Hq. split.
    + rewrite Hexp, Hq. unfold score_of_count. reflexivity.
    + apply Hrange. rewrite Hq. apply score_of_count_range, Hn.
  - split.
    + rewrite Hexp. ring.
    + apply Hrange. split; [apply Qle_refl | discriminate].
Qed.

(** C5 at the candidate used in the refinement runs, whose report counts
    8 errors and scores 0.36. *)
Lemma combined_score_bounded_witness :
  (0 <= duration faulty_candidate)%Q
  /\ 0 <= response_length faulty_candidate
  /\ option_map quality_score (static_validation (metadata faulty_candidate))
     = Some (36 # 100)
  /\ (36 # 100 == score_of_count 8)%Q
  /\ (get_combined_score faulty_candidate
      == (70 # 100) * (36 # 100)
         + (10 # 100) * Qmax 0 (1 - duration faulty_candidate / 30)
         + (20 # 100)
           * Qmin (inject_Z (response_length faulty_candidate) / 3000) 1)%Q
  /\ (0 <= get_combined_score faulty_candidate <= 1)%Q.
Proof.
  assert (Hd : (0 <= duration faulty_candidate)%Q) by (vm_compute; discriminate).
  assert (Hl : 0 <= response_length faulty_candidate)
    by (vm_compute; discriminate).
  assert (Hq : (36 # 100 == score_of_count 8)%Q) by reflexivity.
  split; [exact Hd|]. split; [exact Hl|]. split; [reflexivity|].
  split; [exact Hq|].
  destruct (@combined_score_bounded faulty_candidate Hd Hl)
    as (Hformula & _ & Hcount).
  split; [exact Hformula|].
  exact (proj2 (Hcount 8 ltac:(lia) Hq)).
Defined.

Lemma round2_nonneg (x : Q) : (0 <= x -> 0 <= round2 x)%Q.
Proof.
  intros Hx. unfold round2.
  assert (Hf : 0 <= Qfloor (x * 100)).
  { change 0 with (Qfloor 0). apply Qfloor_resp_le. lra. }
  set (low := Qfloor (x * 100)) in *.
  assert (Hh : forall h, 0 <= h -> (0 <= inject_Z h / 100)%Q).
  { intros h Hh. apply Qle_shift_div_l; [lra|].
    assert (inject_Z 0 <= inject_Z h)%Q by (rewrite <- Zle_Qle; exact Hh).
    change (inject_Z 0) with 0%Q in *. lra. }
  apply Hh.
  destruct (Qcompare _ _); [destruct (Z.even low)| |]; lia.
Qed.

(* ================================================================== *)
(** * The ranking *)
(* ================================================================== *)

Section Ranking.

Context {A : Type} (key : A -> Q).

Lemma insert_desc_perm (x : A) (l : list A) :
  Permutation (insert_desc key x l) (x :: l).
Proof.
  induction l as [|y ys IH]; simpl; [reflexivity|].
  destruct (Qle_bool (key y) (key x)); [reflexivity|].
  rewrite IH. apply perm_swap.
Qed.

Lemma sort_desc_perm (l : list A) : Permutation (sort_desc key l) l.
Proof.
  induction l as [|x l IH]; simpl; [reflexivity|].
  rewrite insert_desc_perm. constructor. exact IH.
Qed.

Lemma sort_desc_length (l : list A) :
  List.length (sort_desc key l) = List.length l.
Proof. apply Permutation_length, sort_desc_perm. Qed.

Lemma sort_desc_in (x : A) (l : list A) : In x (sort_desc key l) <-> In x l.
Proof.
  split; apply Permutation_in;
    [apply sort_desc_perm | symmetry; apply sort_desc_perm].
Qed.

(** The ranking puts larger keys first. *)
Lemma insert_desc_sorted (x : A) (l : list A) :
  StronglySorted (fun a b => (key b <= key a)%Q) l ->
  StronglySorted (fun a b => (key b <= key a)%Q) (insert_desc key x l).
Proof.
  induction 1 as [|y ys Hs IH Hy]; simpl.
  - repeat constructor.
  - destruct (Qle_bool (key y) (key x)) eqn:E.
    + apply Qle_bool_iff in E. constructor; [constructor; assumption|].
      constructor; [exact E|].
      rewrite Forall_forall in *. intros z Hz.
      apply Qle_trans with (key y); [apply Hy, Hz | exact E].
    + constructor; [exact IH|].
      assert (Hxy : (key x <= key y)%Q).
      { destruct (Qlt_le_dec (key x) (key y)) as [H|H]; [apply Qlt_le_weak, H|].
        apply Qle_bool_iff in H. congruence. }
      rewrite Forall_forall in *. intros z Hz.
      apply (Permutation_in _ (insert_desc_perm x ys)) in Hz.
      destruct Hz as [<-|Hz]; [exact Hxy | apply Hy, Hz].
Qed.

Lemma sort_desc_sorted (l : list A) :
  StronglySorted (fun a b => (key b <= key a)%Q) (sort_desc key l).
Proof.
  induction l as [|x l IH]; simpl; [constructor|].
  apply insert_desc_sorted, IH.
Qed.

(** An element below all the others goes to the end. *)
Lemma insert_desc_lowest (x : A) (l : list A) :
  (forall y, In y l -> (key x < key y)%Q) ->
  insert_desc key x l = (l ++ [x])%list.
Proof.
  induction l as [|y ys IH]; intros H; simpl; [reflexivity|].
  destruct (Qle_bool (key y) (key x)) eqn:E.
  - apply Qle_bool_iff in E.
    pose proof (H y (or_introl eq_refl)) as Hlt.
    exfalso. apply (Qlt_not_le _ _ Hlt E).
  - f_equal. apply IH. intros z Hz. apply H. right. exact Hz.
Qed.

Lemma insert_desc_above_last (x y : A) (l : list A) :
  (key x < key y)%Q ->
  insert_desc key y (l ++ [x]) = (insert_desc key y l ++ [x])%list.
Proof.
  intros Hlt. induction l as [|z zs IH]; simpl.
  - assert (E : Qle_bool (key x) (key y) = true)
      by (apply Qle_bool_iff, Qlt_le_weak, Hlt).
    rewrite E. reflexivity.
  - destruct (Qle_bool (key z) (key y)); [reflexivity|].
    rewrite IH. reflexivity.
Qed.

Lemma sort_desc_lowest_last (pre post : list A) (x : A) :
  (forall y, In y (pre ++ post) -> (key x < key y)%Q) ->
  sort_desc key (pre ++ x :: post) = (sort_desc key (pre ++ post) ++ [x])%list.
Proof.
  induction pre as [|p pre IH]; intros H; simpl.
  - apply insert_desc_lowest. intros y Hy. apply H.
    simpl. apply -> sort_desc_in in Hy. exact Hy.
  - rewrite IH by (intros y Hy; apply H; right; exact Hy).
    apply insert_desc_above_last. apply H. left. reflexivity.
Qed.

End Ranking.

(* ================================================================== *)
(** * The fan-out under a failing backend *)
(* ================================================================== *)

Lemma as_candidate_length_nonneg answer : 0 <= response_length (as_candidate answer).
Proof.
  destruct answer as [[[name response] d] md]. simpl.
  destruct (is_empty response); lia.
Qed.

Section FanOutFacts.

Variable o : Oracles.
Variable host : string -> Host.


(** One result per configured model. *)
Lemma query_all_models_length query model_configs :
  List.length (query_all_models o host query model_configs)
  = List.length model_configs.
Proof.
  unfold query_all_models, collect_results.
  rewrite sort_desc_length, length_map. reflexivity.
Qed.

(** The candidate of a model whose query raises. *)
Lemma failing_candidate_shape query model_key config msg :
  query_attempt o host query model_key config = Raise msg ->
  as_candidate (query_single_model o host query model_key config)
  = mkCandidate (cfg_name config) (unescape ("Error: " ++ msg))
      (round2 (elapsed (host model_key)))
      (Z.of_nat (String.length ("Error: " ++ msg)))
      (mkMetadata None None None (Some msg)).
Proof.
  intros H. unfold query_single_model. rewrite H. reflexivity.
Qed.

Lemma failing_candidate_score query model_key config msg :
  query_attempt o host query model_key config = Raise msg ->
  (0 <= elapsed (host model_key))%Q ->
  (get_combined_score
     (as_candidate (query_single_model o host query model_key config))
   <= 3 # 10)%Q.
Proof.
  intros H Hd. rewrite (failing_candidate_shape _ _ _ H).
  unfold get_combined_score, candidate_quality. cbn.
  pose proof (time_score_range (round2_nonneg Hd)) as Ht.
  pose proof (@completeness_range (Z.of_nat (String.length ("Error: " ++ msg)))
                (Nat2Z.is_nonneg _)) as Hc.
  cbn in Hc.
  set (t := Qmax 0 _) in *. set (c := Qmin _ 1) in *. lra.
Qed.

Lemma collected_candidate query model_configs c :
  In c (collect_results o host query model_configs) ->
  exists key config,
    In (key, config) model_configs
    /\ c = as_candidate (query_single_model o host query key config).
Proof.
  unfold collect_results. intros H. apply in_map_iff in H.
  destruct H as ([key config] & <- & Hin). eauto.
Qed.

Lemma passing_candidate_score query model_configs c :
  In c (collect_results o host query model_configs) ->
  (3 # 7 < candidate_quality c)%Q ->
  (3 # 10 < get_combined_score c)%Q.
Proof.
  intros Hin Hq. destruct (collected_candidate _ _ _ Hin) as (k & cfg & _ & ->).
  unfold get_combined_score.
  pose proof (@completeness_range _
                (as_candidate_length_nonneg
                   (query_single_model o host query k cfg))) as Hc.
  set (c := as_candidate _) in *.
  pose proof (Q.le_max_l 0 (1 - duration c / 30)) as Ht.
  set (t := Qmax 0 _) in *. set (l := Qmin _ 1) in *.
  set (q := candidate_quality c) in *. lra.
Qed.

(** C7 (as amended).  When the query of one configured model raises,
    the fan-out still returns one candidate per configured model.  The
    candidate of the failing model has the text [Error: ...] and a
    metadata with the error alone: it carries no validation report, so
    that [has_errors] reads false and its quality 0.  It ranks last
    whenever every other candidate has a larger combined score, and so
    whenever the failing query took a non-negative time and every other
    candidate has a quality score above 3/7. *)
Theorem failing_backend_is_ranked query pre post model_key config msg :
  query_attempt o host query model_key config = Raise msg ->
  let model_configs := (pre ++ (model_key, config) :: post)%list in
  let failing :=
    as_candidate (query_single_model o host query model_key config) in
  let others := collect_results o host query (pre ++ post) in
  List.length (query_all_models o host query model_configs)
  = List.length model_configs
  /\ In failing (query_all_models o host query model_configs)
  /\ model failing = cfg_name config
  /\ response failing = unescape ("Error: " ++ msg)
  /\ metadata failing = mkMetadata None None None (Some msg)
  /\ candidate_has_errors failing = false
  /\ (candidate_quality failing == 0)%Q
  /\ ((forall c, In c others ->
         (get_combined_score failing < get_combined_score c)%Q) ->
      query_all_models o host query model_configs
      = (sort_desc get_combined_score others ++ [failing])%list)
  /\ ((0 <= elapsed (host model_key))%Q ->
      (forall c, In c others -> (3 # 7 < candidate_quality c)%Q) ->
      query_all_models o host query model_configs
      = (sort_desc get_combined_score others ++ [failing])%list).
Proof.
  intros Hfail model_configs failing others.
  assert (Hsplit : collect_results o host query
                     model_configs
                   = (collect_results o host
                        query pre
                      ++ failing
                         :: collect_results o
                              host query post)%list).
  { unfold model_configs, collect_results. rewrite map_app. reflexivity. }
  assert (Hothers : others
                    = (collect_results o host
                         query pre
                       ++ collect_results o host
                            query post)%list).
  { unfold others, collect_results. rewrite map_app. reflexivity. }
  assert (Hlast :
            (forall c, In c others ->
               (get_combined_score failing < get_combined_score c)%Q) ->
            query_all_models o host query
              model_configs
            = (sort_desc get_combined_score others ++ [failing])%list).
  { intros Hlow. unfold query_all_models. rewrite Hsplit, Hothers.
    apply sort_desc_lowest_last. rewrite <- Hothers. exact Hlow. }
  pose proof (failing_candidate_shape _ _ _ Hfail) as Hshape.
  fold failing in Hshape.
  split; [apply query_all_models_length|].
  split.
  { unfold query_all_models. apply sort_desc_in. rewrite Hsplit.
    apply in_or_app. right. left. reflexivity. }
  do 4 (split; [rewrite Hshape; reflexivity|]).
  split; [rewrite Hshape; unfold candidate_quality; cbn; reflexivity|].
  split; [exact Hlast|].
  intros Hd Hq. apply Hlast. intros c Hc.
  apply Qle_lt_trans with (3 # 10)%Q.
  - apply (failing_candidate_score _ _ _ Hfail Hd).
  - apply (passing_candidate_score _ _ _ Hc), Hq, Hc.
Qed.

(** An Azure backend whose query engine raises makes the query raise. *)
Lemma azure_failure_raises query model_key config nodes msg :
  cfg_type config = "azure_openai" ->
  retrieve (host model_key) query = Ok nodes ->
  azure_query (host model_key) query = Raise msg ->
  query_attempt o host query model_key config = Raise msg.
Proof.
  intros Hty Hret Hq. unfold query_attempt. rewrite Hret, Hty, Hq. reflexivity.
Qed.

(** A chat backend whose client raises on every call is not seen by
    [query_single_model]: the generator keeps the exception to itself,
    the empty text is not taken for Go, and the candidate carries the
    default report, with the score 0.5 and [has_errors] false. *)
Lemma chat_failure_is_swallowed query model_key config nodes :
  cfg_type config = "openai_compatible" ->
  retrieve (host model_key) query = Ok nodes ->
  (forall call sys usr,
      exists msg, chat_create (host model_key) call sys usr = Raise msg) ->
  exists gen ctx,
    query_single_model o host query model_key config
    = (cfg_name config, "", elapsed (host model_key),
       mkMetadata (Some gen)
         (Some (unsupported_result "" (cfg_name config))) (Some ctx) None)
    /\ gen_error gen <> None.
Proof.
  intros Hty Hret Hraise.
  unfold query_single_model, query_attempt.
  rewrite Hret, Hty.
  change (String.eqb "openai_compatible" "azure_openai") with false.
  change (String.eqb "openai_compatible" "openai_compatible") with true.
  cbv iota.
  unfold generate_with_continuation.
  change (Z.to_nat 3) with 3%nat.
  cbn [generation_loop initial_gen_state iteration current_system current_user].
  destruct (Hraise (0 + 1) generation_system
              (generation_user (assemble_context nodes) query)) as [msg ->].
  cbn. do 2 eexists. split; [reflexivity|]. discriminate.
Qed.

(** Every report attached by a query scores between 0 and 1. *)
Lemma query_quality_range query model_key config :
  (0 <= candidate_quality
          (as_candidate (query_single_model o host query model_key config)) <= 1)%Q.
Proof.
  unfold query_single_model.
  destruct (query_attempt o host query
              model_key config) as [[text md]|msg] eqn:E.
  2:{ unfold candidate_quality. cbn. lra. }
  unfold candidate_quality. cbn [as_candidate metadata].
  unfold query_attempt in E.
  destruct (retrieve _ _); [|discriminate].
  match type of E with
  | match ?g with _ => _ end = _ => destruct g as [[t0 g0]|]; [|discriminate]
  end.
  destruct (validate_code o t0 "auto"
              (cfg_name config)) as [[v|m] calls] eqn:Ev;
    cbn [fst] in E; [|discriminate].
  injection E as _ <-. cbn.
  apply (validate_code_quality_range _ _ _ _ Ev).
Qed.

(** With clocks that do not run backwards, every ranked candidate has
    a combined score between 0 and 1. *)
Lemma ranked_scores_in_range query model_configs c :
  (forall key, 0 <= elapsed (host key))%Q ->
  In c (query_all_models o host query model_configs) ->
  (0 <= get_combined_score c <= 1)%Q.
Proof.
  intros Hclock Hin. unfold query_all_models in Hin.
  apply sort_desc_in in Hin.
  destruct (collected_candidate _ _ _ Hin) as (k & cfg & _ & ->).
  apply combined_score_range.
  - destruct (query_single_model o host query k cfg) as [[[n r] d] md] eqn:E.
    cbn. apply round2_nonneg.
    unfold query_single_model in E.
    destruct (query_attempt _ _ _ _ _) as [[? ?]|?];
      injection E as _ _ <- _; apply Hclock.
  - apply as_candidate_length_nonneg.
  - apply query_quality_range.
Qed.

End FanOutFacts.

(** C7 where the lint run finds nothing in the files of the two models
    that answer: the failing model is ranked last of three. *)
Lemma failing_backend_is_ranked_witness :
  query_attempt clean_oracles three_hosts
    "add a webhook" "MODEL_1" (mkConfig "alpha" "azure_openai")
  = Raise "connection refused"
  /\ List.length
       (query_all_models clean_oracles three_hosts
          "add a webhook" three_models) = 3%nat
  /\ map model
       (query_all_models clean_oracles three_hosts
          "add a webhook" three_models) = ["beta"; "gamma"; "alpha"].
Proof.
  split; [reflexivity|].
  pose proof (@failing_backend_is_ranked clean_oracles
                three_hosts "add a webhook" []
                [("MODEL_2", mkConfig "beta" "azure_openai");
                 ("MODEL_3", mkConfig "gamma" "azure_openai")]
                "MODEL_1" (mkConfig "alpha" "azure_openai")
                "connection refused" eq_refl) as H.
  cbv zeta in H. destruct H as (Hlen & _).
  split; [exact Hlen|]. vm_compute. reflexivity.
Defined.

(** C7 (as stated) fails: of three models the first raises on every
    query and the other two score a quality of 0.04, not zero.  Three
    candidates come back, but the one of the failing model carries no
    report, its [has_errors] reads false, and it is ranked first. *)
Lemma failing_backend_ranked_first :
  List.length ranked_with_twelve_errors = 3%nat
  /\ map model ranked_with_twelve_errors = ["alpha"; "beta"; "gamma"]
  /\ map md_error (map metadata ranked_with_twelve_errors)
     = [Some "connection refused"; None; None]
  /\ option_map has_errors
       (static_validation (metadata (hd faulty_candidate ranked_with_twelve_errors)))
     = None
  /\ map candidate_has_errors ranked_with_twelve_errors = [false; true; true]
  /\ Forall (fun c => (0 < candidate_quality c)%Q) (tl ranked_with_twelve_errors).
Proof.
  split; [vm_compute; reflexivity|].
  split; [vm_compute; reflexivity|].
  split; [vm_compute; reflexivity|].
  split; [vm_compute; reflexivity|].
  split; [vm_compute; reflexivity|].
  vm_compute. repeat constructor.
Qed.

(* ================================================================== *)
(** * The generator under any backend *)
(* ================================================================== *)

Lemma removelast_snoc {A} (l : list A) (x : A) : removelast (l ++ [x]) = l.
Proof. apply removelast_last. Qed.

Lemma in_removelast_in {A} (x : A) (l : list A) :
  In x (removelast l) -> In x l.
Proof.
  induction l as [|a l IH]; intros H; [destruct H|].
  destruct l as [|b l]; [destruct H|].
  destruct H as [<-|H]; [left; reflexivity | right; apply IH, H].
Qed.

Lemma forall_removelast {A} (P : A -> Prop) (l : list A) :
  Forall P l -> Forall P (removelast l).
Proof.
  rewrite !Forall_forall. intros H x Hx. apply H, in_removelast_in, Hx.
Qed.

Lemma forall_length_in (l : list string) :
  Forall (eq "length") l -> l <> [] -> In "length" l.
Proof.
  intros H Hne. destruct l as [|x l]; [congruence|].
  inversion H; subst. left. reflexivity.
Qed.

Lemma generation_loop_exit (client : ChatClient) (remaining : nat) :
  forall st, gen_entry st ->
             gen_exit (iteration st + Z.of_nat remaining)
               (generation_loop client remaining st).
Proof.
  induction remaining as [|r IH]; intros st (H0 & Hit & Hlen & Hcalls & Hall & Htr & Herr).
  - cbn [generation_loop]. unfold gen_exit. cbv zeta.
    repeat split; try lia.
    + apply forall_removelast, Hall.
    + intros Ht. apply forall_length_in; [exact Hall | apply Htr, Ht].
  - cbn [generation_loop].
    replace (iteration st + Z.of_nat (S r)) with (iteration st + 1 + Z.of_nat r)
      by lia.
    assert (Hfailed :
              forall full md msg,
                Z.of_nat (List.length (finish_reasons md)) = iterations md ->
                iterations md <= iteration st + 1 ->
                Forall (eq "length") (removelast (finish_reasons md)) ->
                (was_truncated md = true -> In "length" (finish_reasons md)) ->
                gen_exit (iteration st + 1 + Z.of_nat r)
                  (mkGenState full (iteration st + 1) (set_gen_error msg md)
                     (current_system st) (current_user st)
                     (backend_calls st
                      ++ [(current_system st, current_user st)])%list)).
    { intros full md msg H1 H2 H3 H4. unfold gen_exit. cbn.
      rewrite length_app. cbn.
      repeat split; try lia; try assumption. discriminate. }
    assert (Hprefix : Forall (eq "length")
                        (removelast (finish_reasons (gen_metadata st)))).
    { apply forall_removelast, Hall. }
    assert (Htrunc : was_truncated (gen_metadata st) = true ->
                     In "length" (finish_reasons (gen_metadata st))).
    { intros Ht. apply forall_length_in; [exact Hall | apply Htr, Ht]. }
    destruct (client (iteration st + 1) (current_system st) (current_user st))
      as [completion|msg].
    2:{ apply Hfailed; try assumption; lia. }
    destruct (content completion) as [chunk|].
    2:{ apply Hfailed; try assumption; lia. }
    destruct (usage_total_tokens completion) as [used|].
    2:{ apply Hfailed; cbn.
        - rewrite length_app. cbn. lia.
        - lia.
        - rewrite removelast_snoc. exact Hall.
        - intros Ht. apply in_or_app. left. apply Htrunc, Ht. }
    assert (Hdone :
              forall sys usr,
                gen_exit (iteration st + 1 + Z.of_nat r)
                  (mkGenState (full_response st ++ chunk) (iteration st + 1)
                     (mkGenMetadata (iteration st + 1)
                        (finish_reasons (gen_metadata st)
                         ++ [finish_reason completion])
                        (total_tokens (gen_metadata st) + used)
                        (was_truncated (gen_metadata st))
                        (gen_error (gen_metadata st)))
                     sys usr
                     (backend_calls st
                      ++ [(current_system st, current_user st)])%list)).
    { intros sys usr. unfold gen_exit. cbn. rewrite !length_app. cbn.
      rewrite removelast_snoc.
      repeat split; try lia; try assumption.
      intros Ht. apply in_or_app. left. apply Htrunc, Ht. }
    destruct (String.eqb (finish_reason completion) "stop"); [apply Hdone|].
    destruct (String.eqb (finish_reason completion) "length") eqn:Elen;
      [|apply Hdone].
    apply String.eqb_eq in Elen.
    match goal with
    | |- gen_exit _ (generation_loop client r ?s) =>
        specialize (IH s); cbn [iteration] in IH; apply IH
    end.
    unfold gen_entry. cbn. rewrite !length_app. cbn.
    split; [lia|]. split; [lia|]. split; [lia|]. split; [lia|].
    split.
    { apply Forall_app. split; [exact Hall|]. constructor; [|constructor].
      symmetry. exact Elen. }
    split; [|exact Herr].
    split; [|reflexivity].
    intros _ E. destruct (finish_reasons (gen_metadata st)); discriminate.
Qed.

Lemma initial_gen_entry (system_prompt user_prompt : string) :
  gen_entry (initial_gen_state system_prompt user_prompt).
Proof.
  unfold gen_entry, initial_gen_state. cbn.
  repeat split; try lia; try constructor; try congruence.
Qed.

(** X1.  Whatever the backend does, the generator calls it at most
    [max_iterations] times (never for a budget of zero or less); the
    iterations it reports are the calls whose text and usage it took, as
    many as the finish reasons it recorded, and equal to the calls made
    when no error is reported. *)
Theorem generator_calls_within_budget (client : ChatClient) (max_iterations : Z)
  (system_prompt user_prompt : string) :
  let run := generate_with_continuation client max_iterations
               system_prompt user_prompt in
  Z.of_nat (List.length (snd run)) <= Z.max 0 max_iterations
  /\ iterations (snd (fst run)) <= Z.of_nat (List.length (snd run))
  /\ Z.of_nat (List.length (finish_reasons (snd (fst run))))
     = iterations (snd (fst run))
  /\ (gen_error (snd (fst run)) = None ->
      iterations (snd (fst run)) = Z.of_nat (List.length (snd run))).
Proof.
  cbv zeta. unfold generate_with_continuation. cbn [fst snd].
  pose proof (@generation_loop_exit client (Z.to_nat max_iterations) _
                (initial_gen_entry system_prompt user_prompt)) as H.
  unfold gen_exit in H. cbv zeta in H.
  change (iteration (initial_gen_state system_prompt user_prompt)) with 0 in H.
  destruct H as (H1 & H2 & H3 & H4 & H5 & _).
  repeat split; try lia. intros E. rewrite (H5 E). lia.
Qed.

(** X2.  Whatever the backend does, every finish reason the generator
    records except the last is ['length'], and [was_truncated] is set only
    when ['length'] is among them. *)
Theorem generator_reasons_shape (client : ChatClient) (max_iterations : Z)
  (system_prompt user_prompt : string) :
  let md := snd (fst (generate_with_continuation client max_iterations
                        system_prompt user_prompt)) in
  Forall (eq "length") (removelast (finish_reasons md))
  /\ (was_truncated md = true -> In "length" (finish_reasons md)).
Proof.
  cbv zeta. unfold generate_with_continuation. cbn [fst snd].
  pose proof (@generation_loop_exit client (Z.to_nat max_iterations) _
                (initial_gen_entry system_prompt user_prompt)) as H.
  unfold gen_exit in H. cbv zeta in H.
  destruct H as (_ & _ & _ & _ & _ & H6 & H7). split; assumption.
Qed.

(* ================================================================== *)
(** * What the generator accumulates *)
(* ================================================================== *)

Lemma call_numbers_succ (from : Z) (n : nat) :
  call_numbers from (S n) = from + 1 :: call_numbers (from + 1) n.
Proof.
  unfold call_numbers. cbn [seq map]. f_equal.
  rewrite <- seq_shift, map_map. apply map_ext. intros k. lia.
Qed.

Lemma call_numbers_snoc (from : Z) (n : nat) :
  call_numbers from (S n)
  = (call_numbers from n ++ [from + Z.of_nat (S n)])%list.
Proof.
  unfold call_numbers. rewrite seq_S, map_app. reflexivity.
Qed.

Lemma append_assoc (a b c : string) : (a ++ b) ++ c = a ++ b ++ c.
Proof. induction a; cbn; congruence. Qed.

Lemma append_nil_r (s : string) : s ++ "" = s.
Proof. induction s; cbn; congruence. Qed.

Lemma repeat_snoc {A} (x : A) (n : nat) :
  (x :: repeat x n = repeat x n ++ [x])%list.
Proof. induction n; cbn; congruence. Qed.

Lemma chunks_of_cons (chunk : Z -> string) (c : Z) (l : list Z) :
  chunks_of chunk (c :: l) = chunk c ++ chunks_of chunk l.
Proof. reflexivity. Qed.

Lemma tokens_of_cons (used : Z -> Z) (c : Z) (l : list Z) :
  tokens_of used (c :: l) = used c + tokens_of used l.
Proof. reflexivity. Qed.

Lemma chunks_of_app (chunk : Z -> string) (l1 l2 : list Z) :
  chunks_of chunk (l1 ++ l2) = chunks_of chunk l1 ++ chunks_of chunk l2.
Proof.
  induction l1 as [|c l1 IH]; [reflexivity|].
  cbn [app]. rewrite !chunks_of_cons, IH, append_assoc. reflexivity.
Qed.

Lemma tokens_of_app (used : Z -> Z) (l1 l2 : list Z) :
  tokens_of used (l1 ++ l2) = tokens_of used l1 + tokens_of used l2.
Proof.
  induction l1 as [|c l1 IH]; [reflexivity|].
  cbn [app]. rewrite !tokens_of_cons, IH. lia.
Qed.

Section ChunkedBackend.

Variable client : ChatClient.
(** The text and the token usage that each call returns. *)
Variable chunk : Z -> string.
Variable used : Z -> Z.

(** [m] calls that are cut off use up [m] turns of the loop. *)
Lemma generation_loop_cut_off_prefix (m : nat) :
  forall (st : GenState) (rest : nat),
    iterations (gen_metadata st) = iteration st ->
    cut_off_calls client chunk used (iteration st) m ->
    exists st',
      generation_loop client (m + rest) st = generation_loop client rest st'
      /\ after_cut_off chunk used st m st'.
Proof.
  induction m as [|m IH]; intros st rest Hit Hcut.
  - exists st. split; [reflexivity|]. unfold after_cut_off. cbn.
    rewrite append_nil_r, app_nil_r, orb_false_r, Z.add_0_r, Nat.add_0_r.
    repeat split; try assumption; try reflexivity; lia.
  - assert (E : client (iteration st + 1) (current_system st) (current_user st)
                = Ok (mkCompletion (Some (chunk (iteration st + 1))) "length"
                        (Some (used (iteration st + 1)))))
      by (apply Hcut; lia).
    change (S m + rest)%nat with (S (m + rest)).
    rewrite (generation_loop_cut_off _ _ _ E).
    match goal with
    | |- context [generation_loop client (m + rest) ?s] =>
        destruct (IH s rest) as (st' & Hrun & H0 & H1 & H2 & H3 & H4 & H5 & H6 & H7)
    end.
    { reflexivity. }
    { intros call sys usr Hc. apply Hcut. cbn [iteration] in Hc. lia. }
    cbn [iteration full_response gen_metadata finish_reasons total_tokens
           was_truncated gen_error backend_calls] in *.
    exists st'. split; [exact Hrun|]. unfold after_cut_off.
    rewrite H0, H1, H2, H3, H4, H5, H6, H7, H0, call_numbers_succ,
      chunks_of_cons, tokens_of_cons, append_assoc, <- app_assoc, length_app.
    cbn [repeat List.length app].
    assert (Hpos : (0 <? Z.of_nat (S m)) = true) by (apply Z.ltb_lt; lia).
    rewrite Hpos, orb_true_r.
    split; [lia|]. split; [reflexivity|]. split; [reflexivity|].
    split; [reflexivity|]. split; [lia|]. split; [reflexivity|].
    split; [reflexivity|]. lia.
Qed.

(** X3.  When the budget runs out on a backend that is cut off on every
    call, the generator has made exactly [max_iterations] calls and
    reports no error: the text is the cleaned concatenation of all the
    chunks in call order, every finish reason is ['length'],
    [was_truncated] is set, the tokens are summed and the iterations
    equal the budget. *)
Theorem generator_budget_exhausted (max_iterations : Z)
  (system_prompt user_prompt : string) :
  1 <= max_iterations ->
  cut_off_calls client chunk used 0 (Z.to_nat max_iterations) ->
  let run := generate_with_continuation client max_iterations
               system_prompt user_prompt in
  let calls := call_numbers 0 (Z.to_nat max_iterations) in
  fst (fst run) = clean_code_artifacts (chunks_of chunk calls)
  /\ Z.of_nat (List.length (snd run)) = max_iterations
  /\ iterations (snd (fst run)) = max_iterations
  /\ finish_reasons (snd (fst run)) = repeat "length" (Z.to_nat max_iterations)
  /\ total_tokens (snd (fst run)) = tokens_of used calls
  /\ was_truncated (snd (fst run)) = true
  /\ gen_error (snd (fst run)) = None.
Proof.
  intros Hb Hcut. cbv zeta. unfold generate_with_continuation. cbn [fst snd].
  destruct (@generation_loop_cut_off_prefix (Z.to_nat max_iterations)
              (initial_gen_state system_prompt user_prompt) 0%nat
              eq_refl Hcut)
    as (st' & Hrun & H0 & H1 & H2 & H3 & H4 & H5 & H6 & H7).
  rewrite Nat.add_0_r in Hrun. rewrite Hrun. cbn [generation_loop].
  rewrite H1, H2, H3, H4, H5, H6, H7, H0.
  cbn [initial_gen_state full_response gen_metadata finish_reasons
         total_tokens was_truncated gen_error backend_calls iteration
         String.append app List.length orb].
  split; [reflexivity|]. split; [lia|]. split; [lia|].
  split; [reflexivity|]. split; [lia|]. split; [|reflexivity].
  apply Z.ltb_lt. lia.
Qed.

(** X4.  When the calls before call [n] are cut off and call [n], within
    the budget, ends for any reason other than ['length'] (['stop'] or an
    unexpected one), the generator stops there: it has made exactly [n]
    calls, its text is the cleaned concatenation of the [n] chunks, and
    the recorded reasons are ['length'] [n - 1] times and then that
    reason. *)
Theorem generator_stops_at_other_reason (max_iterations : Z) (n : nat)
  (reason : string) (system_prompt user_prompt : string) :
  (1 <= n)%nat ->
  Z.of_nat n <= max_iterations ->
  reason <> "length" ->
  cut_off_calls client chunk used 0 (n - 1) ->
  (forall sys usr,
      client (Z.of_nat n) sys usr
      = Ok (mkCompletion (Some (chunk (Z.of_nat n))) reason
              (Some (used (Z.of_nat n))))) ->
  let run := generate_with_continuation client max_iterations
               system_prompt user_prompt in
  let calls := call_numbers 0 n in
  fst (fst run) = clean_code_artifacts (chunks_of chunk calls)
  /\ List.length (snd run) = n
  /\ iterations (snd (fst run)) = Z.of_nat n
  /\ finish_reasons (snd (fst run))
     = (repeat "length" (n - 1) ++ [reason])%list
  /\ total_tokens (snd (fst run)) = tokens_of used calls
  /\ was_truncated (snd (fst run)) = (2 <=? n)%nat
  /\ gen_error (snd (fst run)) = None.
Proof.
  intros Hn Hb Hreason Hcut Hlast. cbv zeta.
  unfold generate_with_continuation. cbn [fst snd].
  replace (Z.to_nat max_iterations)
    with ((n - 1) + S (Z.to_nat max_iterations - n))%nat by lia.
  destruct (@generation_loop_cut_off_prefix (n - 1)
              (initial_gen_state system_prompt user_prompt)
              (S (Z.to_nat max_iterations - n)) eq_refl Hcut)
    as (st' & Hrun & H0 & H1 & H2 & H3 & H4 & H5 & H6 & H7).
  rewrite Hrun. cbn [initial_gen_state iteration full_response gen_metadata
                       finish_reasons total_tokens was_truncated gen_error
                       backend_calls Z.add app List.length orb
                       String.append] in *.
  assert (Hcall : iteration st' + 1 = Z.of_nat n) by lia.
  cbn [generation_loop]. rewrite Hcall, Hlast.
  cbn [content usage_total_tokens finish_reason].
  assert (Hl : String.eqb reason "length" = false)
    by (apply String.eqb_neq, Hreason).
  rewrite Hl.
  replace (call_numbers 0 n)
    with (call_numbers 0 (n - 1) ++ [Z.of_nat n])%list.
  2:{ replace n with (S (n - 1)) at 3 by lia.
      rewrite call_numbers_snoc. do 2 f_equal. lia. }
  rewrite chunks_of_app, tokens_of_app.
  cbn [chunks_of tokens_of fold_right].
  rewrite append_nil_r, Z.add_0_r.
  assert (Htr : (0 <? Z.of_nat (n - 1)) = (2 <=? n)%nat).
  { destruct (Z.ltb_spec 0 (Z.of_nat (n - 1))), (Nat.leb_spec 2 n);
      try reflexivity; lia. }
  destruct (String.eqb reason "stop");
    cbn [full_response gen_metadata backend_calls iterations finish_reasons
           total_tokens was_truncated gen_error];
    rewrite H1, H3, H4, H5, H6, length_app, H7, Htr; cbn [List.length];
    (split; [reflexivity|]); (split; [lia|]); (split; [reflexivity|]);
    (split; [reflexivity|]); (split; [reflexivity|]); split; reflexivity.
Qed.

(** X5.  An exception on call [n], after calls that were cut off, ends
    the generation without propagating: the chunks received so far are
    kept and cleaned, the exception's message is recorded under
    [error], and [iterations] counts the [n - 1] calls that answered,
    one less than the calls made. *)
Theorem generator_keeps_text_on_failure (max_iterations : Z) (n : nat)
  (msg : string) (system_prompt user_prompt : string) :
  (1 <= n)%nat ->
  Z.of_nat n <= max_iterations ->
  cut_off_calls client chunk used 0 (n - 1) ->
  (forall sys usr, client (Z.of_nat n) sys usr = Raise msg) ->
  let run := generate_with_continuation client max_iterations
               system_prompt user_prompt in
  let calls := call_numbers 0 (n - 1) in
  fst (fst run) = clean_code_artifacts (chunks_of chunk calls)
  /\ List.length (snd run) = n
  /\ iterations (snd (fst run)) = Z.of_nat n - 1
  /\ finish_reasons (snd (fst run)) = repeat "length" (n - 1)
  /\ total_tokens (snd (fst run)) = tokens_of used calls
  /\ was_truncated (snd (fst run)) = (2 <=? n)%nat
  /\ gen_error (snd (fst run)) = Some msg.
Proof.
  intros Hn Hb Hcut Hlast. cbv zeta.
  unfold generate_with_continuation. cbn [fst snd].
  replace (Z.to_nat max_iterations)
    with ((n - 1) + S (Z.to_nat max_iterations - n))%nat by lia.
  destruct (@generation_loop_cut_off_prefix (n - 1)
              (initial_gen_state system_prompt user_prompt)
              (S (Z.to_nat max_iterations - n)) eq_refl Hcut)
    as (st' & Hrun & H0 & H1 & H2 & H3 & H4 & H5 & H6 & H7).
  rewrite Hrun. cbn [initial_gen_state iteration full_response gen_metadata
                       finish_reasons total_tokens was_truncated gen_error
                       backend_calls Z.add app List.length orb
                       String.append] in *.
  assert (Hcall : iteration st' + 1 = Z.of_nat n) by lia.
  cbn [generation_loop]. rewrite Hcall, Hlast.
  assert (Htr : (0 <? Z.of_nat (n - 1)) = (2 <=? n)%nat).
  { destruct (Z.ltb_spec 0 (Z.of_nat (n - 1))), (Nat.leb_spec 2 n);
      try reflexivity; lia. }
  cbn [full_response gen_metadata backend_calls set_gen_error iterations
         finish_reasons total_tokens was_truncated gen_error].
  rewrite H1, H2, H3, H4, H5, length_app, H7, Htr. cbn [List.length].
  split; [reflexivity|]. split; [lia|]. split; [lia|].
  split; [reflexivity|]. split; [reflexivity|]. split; reflexivity.
Qed.

End ChunkedBackend.

Lemma generator_budget_exhausted_witness :
  1 <= 3
  /\ fst (fst (generate_with_continuation cut_off_client 3 "system" "user"))
     = "1;2;3;"
  /\ finish_reasons
       (snd (fst (generate_with_continuation cut_off_client 3 "system" "user")))
     = ["length"; "length"; "length"]
  /\ total_tokens
       (snd (fst (generate_with_continuation cut_off_client 3 "system" "user")))
     = 6
  /\ gen_error
       (snd (fst (generate_with_continuation cut_off_client 3 "system" "user")))
     = None.
Proof.
  assert (Hcut : cut_off_calls cut_off_client numbering_chunk (fun call => call)
                   0 (Z.to_nat 3)) by (intros call sys usr _; reflexivity).
  destruct (@generator_budget_exhausted cut_off_client numbering_chunk
              (fun call => call) 3 "system" "user" ltac:(lia) Hcut)
    as (H1 & _ & _ & H4 & H5 & _ & H7).
  split; [lia|]. split; [rewrite H1; vm_compute; reflexivity|].
  split; [rewrite H4; reflexivity|].
  split; [rewrite H5; reflexivity|]. exact H7.
Defined.

Lemma generator_stops_at_other_reason_witness :
  (1 <= 2)%nat
  /\ "content_filter" <> "length"
  /\ fst (fst (generate_with_continuation (ending_client 2 "content_filter") 5
                 "system" "user"))
     = "1;2;"
  /\ List.length
       (snd (generate_with_continuation (ending_client 2 "content_filter") 5
               "system" "user")) = 2%nat
  /\ finish_reasons
       (snd (fst (generate_with_continuation (ending_client 2 "content_filter") 5
                    "system" "user")))
     = ["length"; "content_filter"].
Proof.
  assert (Hr : "content_filter" <> "length") by discriminate.
  assert (Hcut : cut_off_calls (ending_client 2 "content_filter")
                   numbering_chunk (fun call => call) 0 (2 - 1)).
  { intros call sys usr Hc. assert (call = 1) as -> by lia. reflexivity. }
  destruct (@generator_stops_at_other_reason (ending_client 2 "content_filter")
              numbering_chunk (fun call => call) 5 2 "content_filter"
              "system" "user" ltac:(lia) ltac:(lia) Hr Hcut
              ltac:(intros; reflexivity))
    as (H1 & H2 & _ & H4 & _).
  split; [lia|]. split; [exact Hr|].
  split; [rewrite H1; vm_compute; reflexivity|].
  split; [exact H2|]. rewrite H4. reflexivity.
Defined.

Lemma generator_keeps_text_on_failure_witness :
  (1 <= 3)%nat
  /\ fst (fst (generate_with_continuation (breaking_client 3 "timed out") 5
                 "system" "user"))
     = "1;2;"
  /\ List.length
       (snd (generate_with_continuation (breaking_client 3 "timed out") 5
               "system" "user")) = 3%nat
  /\ iterations
       (snd (fst (generate_with_continuation (breaking_client 3 "timed out") 5
                    "system" "user"))) = 2
  /\ gen_error
       (snd (fst (generate_with_continuation (breaking_client 3 "timed out") 5
                    "system" "user"))) = Some "timed out".
Proof.
  assert (Hcut : cut_off_calls (breaking_client 3 "timed out")
                   numbering_chunk (fun call => call) 0 (3 - 1)).
  { intros call sys usr Hc. unfold breaking_client.
    destruct (Z.eqb_spec call 3); [lia | reflexivity]. }
  destruct (@generator_keeps_text_on_failure (breaking_client 3 "timed out")
              numbering_chunk (fun call => call) 5 3 "timed out"
              "system" "user" ltac:(lia) ltac:(lia) Hcut
              ltac:(intros; reflexivity))
    as (H1 & H2 & H3 & _ & _ & _ & H7).
  split; [lia|]. split; [rewrite H1; vm_compute; reflexivity|].
  split; [exact H2|]. split; [rewrite H3; reflexivity|]. exact H7.
Defined.

(* ================================================================== *)
(** * The validator's report, whatever the host and the decoder do *)
(* ================================================================== *)

Lemma lift_inv {S A} (r : result A) (s s' : S) (x : result A) :
  lift r s = (x, s') -> x = r /\ s' = s.
Proof. unfold lift. intros H. injection H as <- <-. auto. Qed.

Lemma same_identity_refl (s : VState) : same_identity s s.
Proof. repeat split. Qed.

Lemma same_identity_on_report (s0 : VState)
  (f : ValidationResult -> ValidationResult) :
  (forall r, was_fixed (f r) = was_fixed r
             /\ model_name (f r) = model_name r
             /\ fixed_code (f r) = fixed_code r
             /\ golangci_lint_errors (f r) = golangci_lint_errors r) ->
  preserves (same_identity s0) (on_report f).
Proof.
  intros Hf. apply preserves_modify. intros s (H1 & H2 & H3 & H4 & H5).
  destruct (Hf (report s)) as (E1 & E2 & E3 & E4).
  unfold same_identity. cbn [report calls]. rewrite E1, E2, E3, E4. auto.
Qed.

Section ValidatorInvariants.

Variable o : Oracles.

Lemma record_error_line_identity s0 loc linter line :
  preserves (same_identity s0) (record_error_line o loc linter line).
Proof.
  unfold record_error_line. destruct (startswith "#" line).
  - apply preserves_ret.
  - apply preserves_bind; [apply preserves_lift|]. intros a.
    apply preserves_bind; intros;
      apply same_identity_on_report; intros r; auto.
Qed.

Lemma process_issue_identity s0 n issue :
  preserves (same_identity s0) (process_issue o n issue).
Proof.
  unfold process_issue.
  repeat (apply preserves_bind; [apply preserves_lift|]; intros ?).
  apply preserves_bind; [|intros; apply preserves_ret].
  apply preserves_for_each. intros. apply record_error_line_identity.
Qed.

Lemma count_lint_data_identity s0 lint_data :
  preserves (same_identity s0) (count_lint_data o lint_data).
Proof.
  assert (Hgen : preserves (same_identity s0)
            (bind (lift (json_in "Issues" lint_data))
               (fun has_key : bool =>
                  if has_key then
                    bind (lift (json_index lint_data "Issues"))
                      (fun lint_issues =>
                         if truthy lint_issues then
                           bind (lift (json_iter lint_issues))
                             (fun items => fold_each items 0 (process_issue o))
                         else ret 0)
                  else ret 0))).
  { apply preserves_bind; [apply preserves_lift|].
    intros [|]; [|apply preserves_ret].
    apply preserves_bind; [apply preserves_lift|]. intros v.
    destruct (truthy v); [|apply preserves_ret].
    apply preserves_bind; [apply preserves_lift|]. intros items.
    apply preserves_fold_each. intros. apply process_issue_identity. }
  unfold count_lint_data.
  destruct lint_data as [| | | | |fields]; try exact Hgen.
  - apply preserves_ret.
  - destruct fields; [apply preserves_ret | exact Hgen].
Qed.

Lemma count_issues_identity s0 p :
  preserves (same_identity s0) (count_issues o p).
Proof.
  unfold count_issues.
  destruct (negb (is_empty (stdout p)) && negb (is_empty (strip (stdout p)))).
  - destruct (_ || _); [apply preserves_ret|].
    destruct (json_loads o _);
      [apply count_lint_data_identity | apply preserves_ret].
  - destruct (returncode p =? 0); [apply preserves_ret|].
    apply preserves_bind;
      [apply same_identity_on_report; intros r; auto|]. intros _.
    apply preserves_bind;
      [apply same_identity_on_report; intros r; auto|]. intros _.
    apply preserves_ret.
Qed.

(** The guarded region invokes the external validator at most once, on
    the code and under the model name it was given, and leaves the
    report's code and name as they are or stores the given code. *)
Lemma guarded_region_identity code model s0 x s :
  guarded_region o code model s0 = (x, s) ->
  was_fixed (report s) = was_fixed (report s0)
  /\ model_name (report s) = model_name (report s0)
  /\ (calls s = calls s0 \/ calls s = (calls s0 ++ [(code, model)])%list)
  /\ match x with
     | Ok _ => fixed_code (report s) = Some code
     | Raise _ =>
         fixed_code (report s) = fixed_code (report s0)
         /\ golangci_lint_errors (report s) = golangci_lint_errors (report s0)
     end.
Proof.
  unfold guarded_region, bind, lift, log_call, modify. intros H.
  destruct (write_code (lint_env o code model));
    [|injection H as <- <-; auto].
  destruct (make_script (lint_env o code model));
    [|injection H as <- <-; auto].
  destruct (run_script (lint_env o code model)) as [p|msg];
    [|injection H as <- <-; cbn; auto].
  destruct (count_issues o p _) as [[n|msg] s2] eqn:E;
    apply count_issues_identity
      with (s0 := mkVState (report s0) (calls s0 ++ [(code, model)])%list) in E;
    specialize (E (same_identity_refl _));
    destruct E as (E1 & E2 & E3 & E4 & E5); cbn [report calls] in *.
  - unfold on_report, modify, ret in H. injection H as <- <-.
    cbn. rewrite E5. auto.
  - injection H as <- <-. rewrite E1, E2, E3, E4, E5. auto.
Qed.

(** X6.  The validator never alters the code it is given: every report
    of [validate_code] carries the input code as [fixed_code], has
    [was_fixed] false and the given model name; the external validator
    is invoked at most once, on that code, and not at all for a blank
    code or when the call raises. *)
Theorem validator_returns_code_unchanged (code language model : string) :
  let run := validate_code o code language model in
  (snd run = [] \/ snd run = [(code, model)])
  /\ (is_empty code || is_empty (strip code) = true -> snd run = [])
  /\ match fst run with
     | Ok r =>
         fixed_code r = Some code /\ was_fixed r = false
         /\ model_name r = model
     | Raise _ => snd run = []
     end.
Proof.
  cbv zeta. unfold validate_code.
  set (lang := if String.eqb language "auto" then _ else _).
  destruct (String.eqb lang "go"); [|cbn; auto].
  unfold validate_and_fix_go_code.
  destruct (is_empty code || is_empty (strip code)) eqn:Hcode; [cbn; auto|].
  destruct (mkdtemp (lint_env o code model)); [|cbn; auto].
  destruct (guarded_region o code model _) as [[n|msg] s] eqn:Hrun;
    apply guarded_region_identity in Hrun;
    destruct Hrun as (H1 & H2 & H3 & H4);
    cbn [fst snd report calls initial_result was_fixed model_name
           fixed_code app] in *.
  - split; [exact H3|]. split; [discriminate|]. auto.
  - split; [exact H3|]. split; [discriminate|].
    unfold on_exception. cbn. auto.
Qed.

(** An issue leaves messages only when its text counts for an error. *)
Lemma process_issue_errors_counted acc issue s acc' s' :
  process_issue o acc issue s = (Ok acc', s') ->
  0 <= acc -> errors_counted acc s -> errors_counted acc' s'.
Proof.
  unfold process_issue. intros H Hacc Hinv.
  apply bind_ok_inv in H. destruct H as (text & s1 & E1 & H).
  apply lift_inv in E1. destruct E1 as [_ ->].
  apply bind_ok_inv in H. destruct H as (cnt & s2 & E2 & H).
  apply lift_inv in E2. destruct E2 as [Hcnt ->].
  apply bind_ok_inv in H. destruct H as (loc & s3 & E3 & H).
  apply lift_inv in E3. destruct E3 as [_ ->].
  apply bind_ok_inv in H. destruct H as (linter & s4 & E4 & H).
  apply lift_inv in E4. destruct E4 as [_ ->].
  apply bind_ok_inv in H. destruct H as (lines & s5 & E5 & H).
  apply lift_inv in E5. destruct E5 as [Hlines ->].
  apply bind_ok_inv in H. destruct H as (u & s6 & Hloop & H).
  injection H as <- <-.
  destruct text as [| | |t| |]; try discriminate Hlines.
  cbn [count_error_lines_of error_lines_of] in Hcnt, Hlines.
  injection Hcnt as ->. injection Hlines as ->.
  destruct t as [|c t].
  - (* an empty text has no line to record *)
    cbn in Hloop. injection Hloop as _ <-.
    destruct Hinv as [Hinv|Hinv]; [left; exact Hinv | right].
    change (count_error_lines "") with 0. lia.
  - right. unfold count_error_lines. cbn [is_empty]. lia.
Qed.

Lemma fold_process_issue_errors_counted items :
  forall acc s acc' s',
    fold_each items acc (process_issue o) s = (Ok acc', s') ->
    0 <= acc -> errors_counted acc s -> errors_counted acc' s'.
Proof.
  induction items as [|i items IH]; intros acc s acc' s' H Hacc Hinv;
    cbn [fold_each] in H.
  - injection H as <- <-. exact Hinv.
  - apply bind_ok_inv in H. destruct H as (n1 & s1 & H1 & H).
    pose proof (process_issue_grows _ _ _ _ H1) as Hg.
    eapply IH; [exact H | lia |].
    eapply process_issue_errors_counted; eauto.
Qed.

Lemma count_lint_data_errors_counted lint_data s n s' :
  count_lint_data o lint_data s = (Ok n, s') ->
  errors (report s) = [] -> errors_counted n s'.
Proof.
  intros H Hs.
  assert (Hgen :
            bind (lift (json_in "Issues" lint_data))
               (fun has_key : bool =>
                  if has_key then
                    bind (lift (json_index lint_data "Issues"))
                      (fun lint_issues =>
                         if truthy lint_issues then
                           bind (lift (json_iter lint_issues))
                             (fun items => fold_each items 0 (process_issue o))
                         else ret 0)
                  else ret 0) s = (Ok n, s') -> errors_counted n s').
  { clear H. intros H.
    apply bind_ok_inv in H. destruct H as ([|] & s1 & E1 & H);
      apply lift_inv in E1; destruct E1 as [_ ->].
    - apply bind_ok_inv in H. destruct H as (v & s2 & E2 & H).
      apply lift_inv in E2. destruct E2 as [_ ->].
      destruct (truthy v).
      + apply bind_ok_inv in H. destruct H as (items & s3 & E3 & H).
        apply lift_inv in E3. destruct E3 as [_ ->].
        eapply fold_process_issue_errors_counted; [exact H | lia |].
        left. exact Hs.
      + injection H as <- <-. left. exact Hs.
    - injection H as <- <-. left. exact Hs. }
  unfold count_lint_data in H.
  destruct lint_data as [| | | | |fields]; try (apply Hgen; exact H).
  - injection H as <- <-. left. exact Hs.
  - destruct fields; [|apply Hgen; exact H].
    injection H as <- <-. left. exact Hs.
Qed.

Lemma count_issues_errors_counted p s n s' :
  count_issues o p s = (Ok n, s') ->
  errors (report s) = [] -> errors_counted n s'.
Proof.
  unfold count_issues. intros H Hs.
  destruct (negb (is_empty (stdout p)) && negb (is_empty (strip (stdout p)))).
  - destruct (_ || _); [injection H as <- <-; left; exact Hs|].
    destruct (json_loads o _);
      [eapply count_lint_data_errors_counted; eauto|].
    injection H as <- <-; left; exact Hs.
  - destruct (returncode p =? 0); [injection H as <- <-; left; exact Hs|].
    repeat (apply bind_ok_inv in H; destruct H as (? & ? & _ & H)).
    injection H as <- _. right. lia.
Qed.

Lemma guarded_region_errors_counted code model n s :
  guarded_region o code model (start_state model) = (Ok n, s) ->
  errors_counted n s.
Proof.
  unfold guarded_region. intros H.
  apply bind_ok_inv in H. destruct H as (? & s1 & E1 & H).
  apply lift_inv in E1. destruct E1 as [_ ->].
  apply bind_ok_inv in H. destruct H as (? & s2 & E2 & H).
  apply lift_inv in E2. destruct E2 as [_ ->].
  apply bind_ok_inv in H. destruct H as (? & s3 & E3 & H).
  unfold log_call, modify in E3. injection E3 as _ <-.
  apply bind_ok_inv in H. destruct H as (p & s4 & E4 & H).
  apply lift_inv in E4. destruct E4 as [_ ->].
  apply bind_ok_inv in H. destruct H as (m & s5 & Hc & H).
  apply bind_ok_inv in H. destruct H as (? & s6 & Hf & H).
  injection H as <- <-.
  apply count_issues_errors_counted in Hc; [|reflexivity].
  unfold on_report, modify in Hf. injection Hf as _ <-.
  exact Hc.
Qed.

(** X7.  Every report of [validate_code] is consistent: the two counts
    agree and are not negative; a counted error sets [has_errors]; a
    report without [has_errors] lists no message and has passed; and a
    report that has passed counts at most six errors and scores at least
    0.5. *)
Theorem validator_report_consistent (code language model : string)
  (r : ValidationResult) :
  fst (validate_code o code language model) = Ok r ->
  golangci_lint_errors r = total_errors r
  /\ 0 <= total_errors r
  /\ (0 < total_errors r -> has_errors r = true)
  /\ (has_errors r = false -> errors r = [] /\ validation_passed r = true)
  /\ (validation_passed r = true ->
      total_errors r <= 6 /\ (1 # 2 <= quality_score r)%Q).
Proof.
  unfold validate_code.
  set (lang := if String.eqb language "auto" then _ else _).
  destruct (String.eqb lang "go").
  2:{ intros H. injection H as <-. cbn.
      repeat split; try lia; try discriminate. }
  unfold validate_and_fix_go_code.
  destruct (is_empty code || is_empty (strip code)) eqn:Hcode.
  { intros H. injection H as <-. cbn.
    repeat split; try lia; discriminate. }
  destruct (mkdtemp (lint_env o code model)); [|discriminate].
  destruct (guarded_region o code model _) as [[n|msg] s] eqn:Hrun;
    cbn [fst]; intros H; injection H as <-.
  - pose proof (guarded_region_errors_counted _ _ Hrun) as Hcounted.
    destruct (guarded_region_ok _ _ _ _ Hrun) as (Hn & r0 & Hr).
    unfold errors_counted in Hcounted. rewrite Hr in *.
    cbn in Hcounted. cbn.
    split; [reflexivity|]. split; [exact Hn|].
    split; [intros Hpos; apply Z.ltb_lt, Hpos|].
    split.
    + intros Hflag. apply Z.ltb_ge in Hflag.
      assert (n = 0) as -> by lia.
      split; [destruct Hcounted as [E|E]; [exact E | lia]|].
      reflexivity.
    + intros Hpass. split.
      * apply threshold_at_count, meets_threshold_iff, Hpass.
      * apply meets_threshold_iff, Hpass.
  - pose proof Hrun as Hu.
    eapply guarded_region_raise in Hu; [|apply (start_unscored model)].
    destruct Hu as (H1 & H2 & H3).
    assert (Hg : golangci_lint_errors (report s) = 0).
    { apply guarded_region_identity in Hrun.
      destruct Hrun as (_ & _ & _ & _ & Hg). exact Hg. }
    cbn. rewrite H1, H3, Hg.
    repeat split; try lia; discriminate.
Qed.

End ValidatorInvariants.

(** X7 at the lint document with one issue that groups two errors. *)
Lemma validator_report_consistent_witness :
  fst (validate_code grouped_oracles go_code "auto" "gpt") = Ok grouped_report
  /\ total_errors grouped_report = 2
  /\ golangci_lint_errors grouped_report = total_errors grouped_report
  /\ 0 <= total_errors grouped_report
  /\ (0 < total_errors grouped_report -> has_errors grouped_report = true)
  /\ (has_errors grouped_report = false ->
      errors grouped_report = [] /\ validation_passed grouped_report = true)
  /\ (validation_passed grouped_report = true ->
      total_errors grouped_report <= 6
      /\ (1 # 2 <= quality_score grouped_report)%Q).
Proof.
  split; [vm_compute; reflexivity|]. split; [reflexivity|].
  apply (@validator_report_consistent grouped_oracles go_code "auto" "gpt").
  vm_compute. reflexivity.
Defined.

(* ================================================================== *)
(** * The history that the refinement records *)
(* ================================================================== *)

Lemma last_errors_snoc (before : Z) (details : list IterationData)
  (d : IterationData) :
  last_errors before (details ++ [d]) = errors_after d.
Proof. unfold last_errors. rewrite map_app. cbn [map]. apply last_last. Qed.

Lemma last_cons_default {A} (l : list A) :
  forall x a b, last (x :: l) a = last (x :: l) b.
Proof.
  induction l as [|y l IH]; intros x a b; [reflexivity|].
  change (last (x :: y :: l) a) with (last (y :: l) a).
  change (last (x :: y :: l) b) with (last (y :: l) b).
  apply IH.
Qed.

Lemma last_errors_cons (before : Z) (d : IterationData)
  (details : list IterationData) :
  last_errors before (d :: details) = last_errors (errors_after d) details.
Proof.
  unfold last_errors. cbn [map].
  destruct (map errors_after details) as [|x l]; [reflexivity|].
  change (last (errors_after d :: x :: l) before) with (last (x :: l) before).
  apply last_cons_default.
Qed.

Lemma chain_from_snoc (before i : Z) (details : list IterationData)
  (d : IterationData) :
  chain_from before i details ->
  it_iteration d = i + Z.of_nat (List.length details) ->
  errors_before d = last_errors before details ->
  errors_after d = total_errors (validation_result d) ->
  improvement d = errors_before d - errors_after d ->
  chain_from before i (details ++ [d]).
Proof.
  revert before i. induction details as [|x details IH];
    intros before i Hchain Hit Hbefore Hafter Himp.
  - cbn in *. repeat split; try assumption. lia.
  - destruct Hchain as (H1 & H2 & H3 & H4 & Hrest).
    cbn [app chain_from]. repeat split; try assumption.
    apply IH; try assumption.
    + cbn [List.length] in Hit. lia.
    + rewrite Hbefore. apply last_errors_cons.
Qed.

(** Along a chain the improvements add up to the whole decrease. *)
Lemma chain_from_telescopes (details : list IterationData) :
  forall before i,
    chain_from before i details ->
    before - last_errors before details = total_improvement details.
Proof.
  induction details as [|d details IH]; intros before i Hchain.
  - cbn. lia.
  - destruct Hchain as (H1 & H2 & H3 & H4 & Hrest).
    rewrite last_errors_cons. cbn [total_improvement fold_right].
    fold (total_improvement details).
    rewrite <- (IH _ _ Hrest), H4, H2. lia.
Qed.

Section RefinementInvariants.

Variable o : Oracles.
Variable backend : RefineBackend.

Lemma refinement_loop_post (best_model response0 : string)
  (model_config : ModelConfig) (initial_validation : ValidationResult)
  (remaining : nat) :
  forall (i : Z) (st res : RefineState) (exit : LoopExit),
    refinement_loop o backend best_model model_config
      initial_validation remaining i st = Ok (res, exit) ->
    refine_entry o best_model response0 i st ->
    initial_errors (refinement_metadata res)
    = initial_errors (refinement_metadata st)
    /\ history_ok (refinement_metadata res)
    /\ describes_response o best_model response0 res
    /\ exit_ok (i - 1 + Z.of_nat remaining) res exit.
Proof.
  induction remaining as [|r IH]; intros i st res exit Hrun Hin;
    destruct Hin as (Hi & Hhist & Hperf & Hsucc & Hneed & Hreq & Hdesc & Hleft).
  - cbn in Hrun. injection Hrun as <- <-.
    split; [reflexivity|]. split; [exact Hhist|]. split; [exact Hdesc|].
    unfold exit_ok. cbv zeta.
    split; [exact Hneed|]. split; [lia|]. split; [lia|].
    split; [intros H; apply Hleft; lia | exact Hsucc].
  - cbn [refinement_loop] in Hrun.
    replace (i - 1 + Z.of_nat (S r)) with (i + Z.of_nat r) by lia.
    assert (Hfail :
              forall res exit,
                Ok (mkRefineState (current_response st) (current_validation st)
                      (refinement_metadata st) (requests st ++ [i])%list,
                    ExitRequestFailed) = Ok (res, exit) ->
                initial_errors (refinement_metadata res)
                = initial_errors (refinement_metadata st)
                /\ history_ok (refinement_metadata res)
                /\ describes_response o best_model response0 res
                /\ exit_ok (i + Z.of_nat r) res exit).
    { intros res0 exit0 E. injection E as <- <-.
      split; [reflexivity|]. split; [exact Hhist|]. split; [exact Hdesc|].
      unfold exit_ok. cbn [refinement_metadata requests].
      rewrite length_app. cbn [List.length].
      split; [exact Hneed|]. split; [lia|].
      split; [intros H; apply Hleft; lia | exact Hsucc]. }
    destruct (request_refinement _ _ _ _ _) as [refined|]; [|eauto].
    destruct (is_empty refined); [eauto|].
    destruct (fst (validate_code _ _ _ _)) as [validation|msg] eqn:Hval;
      [|discriminate].
    cbv zeta in Hrun. cbn [improvement] in Hrun.
    destruct Hhist as (Hchain & Hfinal & Hlen).
    set (md := refinement_metadata st) in *.
    set (d := mkIterationData i (final_errors md) (total_errors validation)
                validation (final_errors md - total_errors validation)) in *.
    assert (Hchain' : chain_from (initial_errors md) 1
                        (iteration_details md ++ [d])).
    { apply chain_from_snoc; subst d;
        cbn [it_iteration errors_before errors_after validation_result
               improvement];
        try assumption; try reflexivity. lia. }
    assert (Hdesc' :
              forall md' asked,
                iterations_performed md' = i ->
                final_errors md' = total_errors validation ->
                iteration_details md' = (iteration_details md ++ [d])%list ->
                describes_response o best_model response0
                  (mkRefineState (clean_code_artifacts refined)
                     (Some validation) md' asked)).
    { intros md' asked Hp Hf Hd. right.
      cbn [refinement_metadata current_response current_validation].
      rewrite Hp. split; [lia|]. exists validation.
      split; [reflexivity|]. split; [exact Hval|]. split; [exact Hf|].
      exists (iteration_details md), d. split; [exact Hd | reflexivity]. }
    destruct (total_errors validation =? 0) eqn:Hzero.
    + (* no error left *)
      apply Z.eqb_eq in Hzero.
      injection Hrun as <- <-.
      cbn [refinement_metadata initial_errors refinement_needed
             iterations_performed iteration_details final_errors].
      split; [reflexivity|].
      split.
      { unfold history_ok.
        cbn [initial_errors iteration_details final_errors
               iterations_performed].
        split; [exact Hchain'|]. rewrite last_errors_snoc, length_app.
        cbn [List.length]. subst d. cbn [errors_after].
        split; [reflexivity | lia]. }
      split; [apply Hdesc'; reflexivity|].
      unfold exit_ok. cbn [refinement_metadata requests refinement_needed
                             iterations_performed final_errors
                             refinement_successful].
      rewrite length_app. cbn [List.length].
      split; [exact Hneed|]. split; [lia|]. split; [lia|].
      split; [exact Hzero | reflexivity].
    + apply Z.eqb_neq in Hzero.
      destruct ((1 <? i)
                && (final_errors md - total_errors validation <=? 0))
        eqn:Hstall.
      * (* no improvement after the first iteration *)
        apply andb_true_iff in Hstall. destruct Hstall as [H1 H2].
        apply Z.ltb_lt in H1.
        injection Hrun as <- <-.
        cbn [refinement_metadata initial_errors].
        split; [reflexivity|].
        split.
        { unfold history_ok.
          cbn [initial_errors iteration_details final_errors
                 iterations_performed].
          split; [exact Hchain'|]. rewrite last_errors_snoc, length_app.
          cbn [List.length]. subst d. cbn [errors_after].
          split; [reflexivity | lia]. }
        split; [apply Hdesc'; reflexivity|].
        unfold exit_ok. cbn [refinement_metadata requests refinement_needed
                               iterations_performed final_errors
                               refinement_successful].
        rewrite length_app. cbn [List.length].
        split; [exact Hneed|]. split; [lia|]. split; [lia|].
        split; [exact Hzero | exact Hsucc].
      * (* next iteration *)
        apply IH in Hrun.
        -- replace (i + Z.of_nat r) with (i + 1 - 1 + Z.of_nat r) by lia.
           exact Hrun.
        -- unfold refine_entry. cbv zeta.
           cbn [refinement_metadata requests refinement_needed
                  iterations_performed final_errors refinement_successful].
           rewrite length_app. cbn [List.length].
           split; [lia|].
           split.
           { unfold history_ok.
             cbn [initial_errors iteration_details final_errors
                    iterations_performed].
             split; [exact Hchain'|]. rewrite last_errors_snoc, length_app.
             cbn [List.length]. subst d. cbn [errors_after].
             split; [reflexivity | lia]. }
           split; [lia|]. split; [exact Hsucc|]. split; [exact Hneed|].
           split; [lia|].
           split; [apply Hdesc'; reflexivity|].
           intros _. exact Hzero.
Qed.

(** What every return of the refinement satisfies. *)
Lemma refine_response_iteratively_post (max_refinement_iterations : Z)
  (best_response_data : Candidate) (model_config : ModelConfig)
  (res : RefineState) (exit : LoopExit) :
  refine_response_iteratively o backend
    max_refinement_iterations best_response_data model_config
  = Ok (res, exit) ->
  history_ok (refinement_metadata res)
  /\ describes_response o (model best_response_data)
       (response best_response_data) res
  /\ exit_ok (Z.max 0 max_refinement_iterations) res exit
  /\ (exit <> ExitNotNeeded ->
      option_map total_errors
        (static_validation (metadata best_response_data))
      = Some (initial_errors (refinement_metadata res))).
Proof.
  unfold refine_response_iteratively. intros Hrun.
  assert (Hskip :
            forall res exit,
              Ok (mkRefineState (response best_response_data) None
                    (mkRefinementMetadata false 0 0 [] 0 false) [],
                  ExitNotNeeded) = Ok (res, exit) ->
              history_ok (refinement_metadata res)
              /\ describes_response o (model best_response_data)
                   (response best_response_data) res
              /\ exit_ok (Z.max 0 max_refinement_iterations) res exit
              /\ (exit <> ExitNotNeeded ->
                  option_map total_errors
                    (static_validation (metadata best_response_data))
                  = Some (initial_errors (refinement_metadata res)))).
  { intros res0 exit0 E. injection E as <- <-.
    split; [repeat split|]. split; [left; repeat split|].
    split; [repeat split|]. intros H. contradiction H. reflexivity. }
  destruct (static_validation (metadata best_response_data))
    as [initial_validation|]; [|eauto].
  destruct (negb (has_errors initial_validation)); [eauto|].
  apply refinement_loop_post with (response0 := response best_response_data)
    in Hrun.
  - destruct Hrun as (Hinit & Hhist & Hdesc & Hexit).
    cbn [refinement_metadata initial_errors] in Hinit.
    split; [exact Hhist|]. split; [exact Hdesc|].
    split.
    + replace (Z.max 0 max_refinement_iterations)
        with (1 - 1 + Z.of_nat (Z.to_nat max_refinement_iterations)) by lia.
      exact Hexit.
    + intros _. cbn. rewrite Hinit. reflexivity.
  - unfold refine_entry. cbv zeta. cbn.
    split; [lia|]. split; [repeat split|].
    split; [reflexivity|]. split; [reflexivity|]. split; [reflexivity|].
    split; [reflexivity|]. split; [left; repeat split | lia].
Qed.

(** The response that the loop leaves is the cleaned answer to its
    last request that was validated. *)
Lemma refinement_loop_last_answer (best_model response0 : string)
  (model_config : ModelConfig) (initial_validation : ValidationResult)
  (remaining : nat) :
  forall (i : Z) (st res : RefineState) (exit : LoopExit),
    refinement_loop o backend best_model model_config
      initial_validation remaining i st = Ok (res, exit) ->
    1 <= i ->
    iterations_performed (refinement_metadata st) = i - 1 ->
    (i = 1 -> current_response st = response0) ->
    last_answer backend model_config response0
      (errors initial_validation) st ->
    last_answer backend model_config response0
      (errors initial_validation) res.
Proof.
  induction remaining as [|r IH];
    intros i st res exit Hrun Hi Hperf Hfirst Hlast.
  - cbn in Hrun. injection Hrun as <- _. exact Hlast.
  - cbn [refinement_loop] in Hrun.
    set (code := if 1 <? i then clean_code_artifacts (current_response st)
                 else current_response st) in *.
    set (context := if i =? 1 then errors initial_validation
                    else match current_validation st with
                         | Some v => errors v
                         | None => []
                         end) in *.
    destruct (request_refinement backend code context model_config i)
      as [refined|] eqn:Hreq;
      [|injection Hrun as <- _; exact Hlast].
    destruct (is_empty refined) eqn:Hempty;
      [injection Hrun as <- _; exact Hlast|].
    destruct (fst (validate_code _ _ _ _)) as [validation|msg];
      [|discriminate].
    cbv zeta in Hrun.
    assert (Hnew :
              forall md' asked,
                iterations_performed md' = i ->
                last_answer backend model_config response0
                  (errors initial_validation)
                  (mkRefineState (clean_code_artifacts refined)
                     (Some validation) md' asked)).
    { intros md' asked Hp _.
      cbn [refinement_metadata current_response]. rewrite Hp.
      exists code, context, refined.
      split; [exact Hreq|]. split; [exact Hempty|].
      split; [reflexivity|].
      intros ->. subst code context. cbn. split; [apply Hfirst|];
        reflexivity. }
    destruct (total_errors validation =? 0);
      [injection Hrun as <- _; apply Hnew; reflexivity|].
    destruct (_ && _); [injection Hrun as <- _; apply Hnew; reflexivity|].
    eapply IH; [exact Hrun | lia | cbn; lia | | apply Hnew; reflexivity].
    intros E. lia.
Qed.

Lemma refine_response_iteratively_last_answer (max_refinement_iterations : Z)
  (best_response_data : Candidate) (model_config : ModelConfig)
  (res : RefineState) (exit : LoopExit) :
  refine_response_iteratively o backend
    max_refinement_iterations best_response_data model_config
  = Ok (res, exit) ->
  forall initial_validation,
    static_validation (metadata best_response_data)
    = Some initial_validation ->
    last_answer backend model_config (response best_response_data)
      (errors initial_validation) res.
Proof.
  unfold refine_response_iteratively. intros Hrun v Hv. rewrite Hv in Hrun.
  destruct (negb (has_errors v)).
  - injection Hrun as <- _. intros H. cbn in H. lia.
  - eapply refinement_loop_last_answer;
      [exact Hrun | lia | reflexivity | reflexivity |].
    intros H. cbn in H. lia.
Qed.

(** X8.  The history that the refinement returns is a chain: the
    entries of [iteration_details] are numbered 1, 2, ..., one per
    performed iteration; the first starts from [initial_errors], each
    later one from the count the previous one ended with; each ends
    with the [total_errors] of its own validation and records the
    difference as [improvement]; [final_errors] is the count the last
    entry ended with; so the improvements add up to
    [initial_errors - final_errors]. *)
Theorem refinement_history_chain (max_refinement_iterations : Z)
  (best_response_data : Candidate) (model_config : ModelConfig)
  (res : RefineState) (exit : LoopExit) :
  refine_response_iteratively o backend
    max_refinement_iterations best_response_data model_config
  = Ok (res, exit) ->
  let md := refinement_metadata res in
  chain_from (initial_errors md) 1 (iteration_details md)
  /\ Z.of_nat (List.length (iteration_details md)) = iterations_performed md
  /\ final_errors md = last_errors (initial_errors md) (iteration_details md)
  /\ initial_errors md - final_errors md
     = total_improvement (iteration_details md)
  /\ (exit <> ExitNotNeeded ->
      option_map total_errors
        (static_validation (metadata best_response_data))
      = Some (initial_errors md)).
Proof.
  intros Hrun. cbv zeta.
  destruct (refine_response_iteratively_post _ _ _ Hrun)
    as ((Hchain & Hfinal & Hlen) & _ & _ & Hinit).
  split; [exact Hchain|]. split; [exact Hlen|]. split; [exact Hfinal|].
  split; [|exact Hinit].
  rewrite Hfinal. eapply chain_from_telescopes, Hchain.
Qed.

(** X9.  The refinement never goes back to an earlier version: when at
    least one iteration was performed, the returned response is
    [clean_code_artifacts] of the answer that the model gave to the
    refinement request of the last performed iteration, whether or not
    it has fewer errors than the code it replaced (the request of the
    first iteration being made for the candidate's response with the
    errors of its report), and [final_errors] is the [total_errors] of
    the validation of exactly that text, which is the last entry of the
    history; when no iteration was performed, the candidate's response
    is returned as it was and [final_errors] equals [initial_errors]. *)
Theorem refinement_describes_returned_code (max_refinement_iterations : Z)
  (best_response_data : Candidate) (model_config : ModelConfig)
  (res : RefineState) (exit : LoopExit) :
  refine_response_iteratively o backend
    max_refinement_iterations best_response_data model_config
  = Ok (res, exit) ->
  let md := refinement_metadata res in
  (iterations_performed md = 0 ->
   current_response res = response best_response_data
   /\ final_errors md = initial_errors md)
  /\ (1 <= iterations_performed md ->
      (exists initial_validation code_to_refine errors_context refined,
          static_validation (metadata best_response_data)
          = Some initial_validation
          /\ request_refinement backend code_to_refine errors_context
               model_config (iterations_performed md) = Some refined
          /\ current_response res = clean_code_artifacts refined
          /\ (iterations_performed md = 1 ->
              code_to_refine = response best_response_data
              /\ errors_context = errors initial_validation))
      /\ exists v,
          current_validation res = Some v
          /\ fst (validate_code o (current_response res) "auto"
                    (model best_response_data ++ "_refined_iter"
                       ++ str_of_Z (iterations_performed md))) = Ok v
          /\ final_errors md = total_errors v
          /\ exists earlier d,
              iteration_details md = (earlier ++ [d])%list
              /\ validation_result d = v).
Proof.
  intros Hrun. cbv zeta.
  destruct (refine_response_iteratively_post _ _ _ Hrun)
    as (_ & Hdesc & _ & _).
  pose proof (refine_response_iteratively_last_answer _ _ _ Hrun) as Hlast.
  destruct Hdesc as [(Hp & Hr & Hv & Hf)|(Hp & v & Hv & Hval & Hf & Hd)].
  - split; [intros _; split; assumption | intros H; lia].
  - split; [intros H; lia|]. intros _. split; [|exists v; auto].
    destruct (static_validation (metadata best_response_data))
      as [initial_validation|] eqn:Hinit.
    + destruct (Hlast _ eq_refl Hp)
        as (code & context & refined & H1 & _ & H3 & H4).
      exists initial_validation, code, context, refined. auto.
    + exfalso. unfold refine_response_iteratively in Hrun.
      rewrite Hinit in Hrun. injection Hrun as <- _. cbn in Hp. lia.
Qed.

(** X10.  How the refinement was left can be read off what it returns:
    it was skipped exactly when [refinement_needed] is false, and then
    nothing was requested and the response is the candidate's;
    otherwise one refinement was requested per performed iteration,
    and one more when the last request gave nothing; the range was used
    up only after [max(0, max_refinement_iterations)] iterations; and
    [refinement_successful] is set exactly when at least one iteration
    was performed and [final_errors] is 0. *)
Theorem refinement_exit_reasons (max_refinement_iterations : Z)
  (best_response_data : Candidate) (model_config : ModelConfig)
  (res : RefineState) (exit : LoopExit) :
  refine_response_iteratively o backend
    max_refinement_iterations best_response_data model_config
  = Ok (res, exit) ->
  let md := refinement_metadata res in
  exit_ok (Z.max 0 max_refinement_iterations) res exit
  /\ (refinement_needed md = false <-> exit = ExitNotNeeded)
  /\ (exit = ExitNotNeeded ->
      current_response res = response best_response_data
      /\ requests res = [])
  /\ (refinement_successful md = true <->
      1 <= iterations_performed md /\ final_errors md = 0).
Proof.
  intros Hrun. cbv zeta.
  destruct (refine_response_iteratively_post _ _ _ Hrun)
    as (_ & Hdesc & Hexit & _).
  split; [exact Hexit|].
  destruct exit; cbn [exit_ok] in Hexit; cbv zeta in Hexit.
  - destruct Hexit as (H1 & H2 & H3 & H4).
    split; [split; auto|]. split.
    + intros _. split.
      * destruct Hdesc as [(_ & Hr & _)|(Hp & _)]; [exact Hr | lia].
      * destruct (requests res); [reflexivity | discriminate H2].
    + rewrite H4, H3. split; [discriminate | intros [H _]; lia].
  - destruct Hexit as (H1 & H2 & H3 & H4).
    split; [split; [congruence | discriminate]|].
    split; [discriminate|].
    rewrite H4. split; [discriminate|]. intros [Hp Hf].
    exfalso. apply (H3 Hp Hf).
  - destruct Hexit as (H1 & H2 & H3 & H4 & H5).
    split; [split; [congruence | discriminate]|].
    split; [discriminate|]. rewrite H5. split; auto.
  - destruct Hexit as (H1 & H2 & H3 & H4 & H5).
    split; [split; [congruence | discriminate]|].
    split; [discriminate|].
    rewrite H5. split; [discriminate|]. intros [_ Hf]. contradiction.
  - destruct Hexit as (H1 & H2 & H3 & H4 & H5).
    split; [split; [congruence | discriminate]|].
    split; [discriminate|].
    rewrite H5. split; [discriminate|]. intros [Hp Hf].
    exfalso. apply (H4 Hp Hf).
Qed.

(** X11.  A model whose type is neither ['azure_openai'] nor
    ['openai_compatible'] is never refined: whatever its backend and
    the validator would do, when the candidate has errors and at least
    one iteration is allowed, exactly one refinement is requested, it
    gives nothing, and the candidate's response is returned unchanged
    with [iterations_performed] 0 and [final_errors] equal to
    [initial_errors]. *)
Theorem refinement_skips_unsupported_type (max_refinement_iterations : Z)
  (best_response_data : Candidate) (model_config : ModelConfig)
  (initial_validation : ValidationResult) :
  static_validation (metadata best_response_data) = Some initial_validation ->
  has_errors initial_validation = true ->
  1 <= max_refinement_iterations ->
  cfg_type model_config <> "azure_openai" ->
  cfg_type model_config <> "openai_compatible" ->
  refine_response_iteratively o backend
    max_refinement_iterations best_response_data model_config
  = Ok (mkRefineState (response best_response_data) None
          (mkRefinementMetadata true (total_errors initial_validation) 0 []
             (total_errors initial_validation) false)
          [1],
        ExitRequestFailed).
Proof.
  intros Hval Herr Hmax Hazure Hchat.
  unfold refine_response_iteratively. rewrite Hval, Herr. cbn [negb].
  destruct (Z.to_nat max_refinement_iterations) as [|k] eqn:Hk; [lia|].
  cbn [refinement_loop]. unfold request_refinement.
  apply String.eqb_neq in Hazure, Hchat. rewrite Hazure, Hchat.
  reflexivity.
Qed.

End RefinementInvariants.

(** X8 on the run whose validations count 5, 2 and 2 errors after a
    candidate with 8. *)
Lemma refinement_history_chain_witness :
  exists res,
    refine_response_iteratively oracles_5_2_2 steady_backend
      5 faulty_candidate azure_config = Ok (res, ExitNoImprovement)
    /\ map errors_before (iteration_details (refinement_metadata res))
       = [8; 5; 2]
    /\ map errors_after (iteration_details (refinement_metadata res))
       = [5; 2; 2]
    /\ initial_errors (refinement_metadata res)
       - final_errors (refinement_metadata res)
       = total_improvement (iteration_details (refinement_metadata res)).
Proof.
  eexists. split; [vm_compute; reflexivity|].
  split; [reflexivity|]. split; [reflexivity|].
  refine (proj1 (proj2 (proj2 (proj2
            (@refinement_history_chain oracles_5_2_2 steady_backend 5
               faulty_candidate azure_config _ ExitNoImprovement _))))).
  vm_compute. reflexivity.
Defined.

(** X9 on the same run: the third answer is returned, cleaned, although
    it brought no improvement. *)
Lemma refinement_describes_returned_code_witness :
  exists res,
    refine_response_iteratively oracles_5_2_2 steady_backend
      5 faulty_candidate azure_config = Ok (res, ExitNoImprovement)
    /\ iterations_performed (refinement_metadata res) = 3
    /\ (exists initial_validation code_to_refine errors_context refined,
          static_validation (metadata faulty_candidate)
          = Some initial_validation
          /\ request_refinement steady_backend code_to_refine errors_context
               azure_config (iterations_performed (refinement_metadata res))
             = Some refined
          /\ current_response res = clean_code_artifacts refined
          /\ (iterations_performed (refinement_metadata res) = 1 ->
              code_to_refine = response faulty_candidate
              /\ errors_context = errors initial_validation))
    /\ exists v,
        current_validation res = Some v
        /\ fst (validate_code oracles_5_2_2 (current_response res) "auto"
                  "gpt_refined_iter3") = Ok v
        /\ final_errors (refinement_metadata res) = total_errors v.
Proof.
  eexists. split; [vm_compute; reflexivity|].
  split; [reflexivity|].
  destruct (proj2 (@refinement_describes_returned_code oracles_5_2_2
                     steady_backend 5 faulty_candidate azure_config _
                     ExitNoImprovement ltac:(vm_compute; reflexivity))
              ltac:(vm_compute; discriminate))
    as (Hanswer & v & H1 & H2 & H3 & _).
  split; [exact Hanswer|].
  exists v. split; [exact H1|]. split; [exact H2 | exact H3].
Defined.

(** X10 on the same run. *)
Lemma refinement_exit_reasons_witness :
  exists res,
    refine_response_iteratively oracles_5_2_2 steady_backend
      5 faulty_candidate azure_config = Ok (res, ExitNoImprovement)
    /\ List.length (requests res) = 3%nat
    /\ exit_ok (Z.max 0 5) res ExitNoImprovement.
Proof.
  eexists. split; [vm_compute; reflexivity|].
  split; [reflexivity|].
  refine (proj1 (@refinement_exit_reasons oracles_5_2_2 steady_backend 5
                   faulty_candidate azure_config _ ExitNoImprovement _)).
  vm_compute. reflexivity.
Defined.

(** X11 on a model of another type, with a backend that would answer. *)
Lemma refinement_skips_unsupported_type_witness :
  has_errors
    (mkValidation (36 # 100) true ["Line 4: undefined: y [typecheck]"]
       8 8 false "gpt" (Some go_code) false []) = true
  /\ cfg_type other_config <> "azure_openai"
  /\ cfg_type other_config <> "openai_compatible"
  /\ refine_response_iteratively oracles_5_2_2 steady_backend
       3 faulty_candidate other_config
     = Ok (mkRefineState go_code None
             (mkRefinementMetadata true 8 0 [] 8 false) [1],
           ExitRequestFailed).
Proof.
  split; [reflexivity|]. split; [discriminate|]. split; [discriminate|].
  apply (@refinement_skips_unsupported_type oracles_5_2_2 steady_backend 3
           faulty_candidate other_config
           (mkValidation (36 # 100) true ["Line 4: undefined: y [typecheck]"]
              8 8 false "gpt" (Some go_code) false [])).
  - reflexivity.
  - reflexivity.
  - lia.
  - discriminate.
  - discriminate.
Defined.

(* ================================================================== *)
(** * Bounds of the line counter *)
(* ================================================================== *)

Lemma filter_length_le {A} (f : A -> bool) (l : list A) :
  (List.length (filter f l) <= List.length l)%nat.
Proof.
  induction l as [|x l IH]; [apply le_n|].
  cbn [filter]. destruct (f x); cbn [List.length]; lia.
Qed.

(** X12.  [count_error_lines] gives 0 for the empty text only: every
    other text counts at least 1, also one of blanks or comment lines
    only, and at most the number of lines of the trimmed text. *)
Theorem count_error_lines_bounds (issue_text : string) :
  (count_error_lines issue_text = 0 <-> issue_text = "")
  /\ (issue_text <> "" ->
      1 <= count_error_lines issue_text
        <= Z.of_nat (List.length (split_nl (strip issue_text))))
  /\ (issue_text <> "" -> is_empty (strip issue_text) = true ->
      count_error_lines issue_text = 1).
Proof.
  unfold count_error_lines.
  destruct issue_text as [|c t].
  - split; [split; reflexivity|]. split; intros H; contradiction H; reflexivity.
  - cbn [is_empty]. rewrite fold_count_step.
    set (lines := split_nl (strip (String c t))).
    pose proof (filter_length_le counted_line (map strip lines)) as Hle.
    rewrite length_map in Hle.
    assert (Hne : (1 <= List.length lines)%nat).
    { subst lines. pose proof (split_nl_not_nil (strip (String c t))) as H.
      destruct (split_nl _); [contradiction H; reflexivity | cbn; lia]. }
    split; [split; [lia | discriminate]|].
    split; [intros _; lia|].
    intros _ Hblank. apply is_empty_true in Hblank.
    subst lines. rewrite Hblank. reflexivity.
Qed.

(* ================================================================== *)
(** * The cleaned text is trimmed *)
(* ================================================================== *)

Lemma lstrip_idempotent (s : string) : lstrip (lstrip s) = lstrip s.
Proof.
  induction s as [|c r IH]; [reflexivity|].
  cbn [lstrip]. destruct (isspace c) eqn:E; [exact IH|].
  cbn [lstrip]. rewrite E. reflexivity.
Qed.

Lemma rstrip_idempotent (s : string) : rstrip (rstrip s) = rstrip s.
Proof.
  induction s as [|c r IH]; [reflexivity|].
  cbn [rstrip]. destruct (is_empty (rstrip r) && isspace c) eqn:E;
    [reflexivity|].
  cbn [rstrip]. rewrite IH, E. reflexivity.
Qed.

Lemma rstrip_lstrip (s : string) : rstrip (lstrip s) = lstrip (rstrip s).
Proof.
  induction s as [|c r IH]; [reflexivity|].
  cbn [lstrip rstrip]. destruct (isspace c) eqn:E.
  - rewrite IH, andb_true_r. destruct (is_empty (rstrip r)) eqn:Hr.
    + apply is_empty_true in Hr. rewrite Hr. reflexivity.
    + cbn [lstrip]. rewrite E. reflexivity.
  - rewrite andb_false_r. cbn [rstrip lstrip]. rewrite E, andb_false_r.
    reflexivity.
Qed.

Lemma strip_idempotent (s : string) : strip (strip s) = strip s.
Proof.
  unfold strip.
  rewrite rstrip_lstrip, lstrip_idempotent, rstrip_idempotent. reflexivity.
Qed.

(** X13.  [clean_code_artifacts] leaves a blank text as it is, and turns
    every other text into one that is not empty and has no blank at
    either end: what is handed to the validator as a cleaned answer is
    never reported as empty code. *)
Theorem clean_code_artifacts_trimmed (response : string) :
  (is_empty (strip response) = true -> clean_code_artifacts response = response)
  /\ (is_empty (strip response) = false ->
      is_empty (clean_code_artifacts response) = false
      /\ strip (clean_code_artifacts response) = clean_code_artifacts response
      /\ is_empty (strip (clean_code_artifacts response)) = false).
Proof.
  unfold clean_code_artifacts. split.
  - intros H. rewrite H, orb_true_r. reflexivity.
  - intros H.
    assert (Hr : is_empty response = false).
    { destruct (is_empty response) eqn:E; [|reflexivity].
      apply strip_empty in E. congruence. }
    rewrite Hr, H. cbn [orb]. cbv zeta.
    match goal with
    | |- context [is_empty (strip ?j)] =>
        match j with
        | join_nl _ => set (joined := j)
        end
    end.
    destruct (is_empty (strip joined)) eqn:E.
    + rewrite strip_idempotent, H. auto.
    + rewrite strip_idempotent, E. auto.
Qed.

(** A blank text is returned as it is; a fenced answer loses the remark
    before the fence and the fence lines. *)
Example clean_code_artifacts_samples :
  clean_code_artifacts blank_text = blank_text
  /\ clean_code_artifacts fenced_text = "package main".
Proof. split; vm_compute; reflexivity. Qed.

(* ================================================================== *)
(** * The ranking *)
(* ================================================================== *)

Lemma sorted_head_is_max {A} (key : A -> Q) (d : A) (l : list A) :
  StronglySorted (fun a b => (key b <= key a)%Q) l ->
  forall c, In c l -> (key c <= key (hd d l))%Q.
Proof.
  intros Hs c Hin. destruct Hs as [|x l Hs Hx]; [destruct Hin|].
  cbn [hd]. destruct Hin as [<-|Hin]; [apply Qle_refl|].
  rewrite Forall_forall in Hx. apply Hx, Hin.
Qed.

(** Two pairs of candidates whose exact keys are equal and whose binary64
    keys are not: no issue, 2.5 s and 500 characters against one issue,
    2.5 s and 1340 characters; two issues, 1 s and 400 characters against
    four issues, 1 s and 2080 characters.  The program ranks the second
    of each pair first; a stable sort on the exact keys keeps the order
    of dispatch.  What is stated about the ranking below holds for both
    orders. *)
Example binary64_breaks_exact_tie :
  (exact_key 0 250 500 == exact_key 1 250 1340)%Q
  /\ PrimFloat.ltb (Binary64Key.combined 0 250 500)
       (Binary64Key.combined 1 250 1340) = true
  /\ (exact_key 2 100 400 == exact_key 4 100 2080)%Q
  /\ PrimFloat.ltb (Binary64Key.combined 2 100 400)
       (Binary64Key.combined 4 100 2080) = true.
Proof. repeat split; vm_compute; reflexivity. Qed.

Section RankingOfModels.

Variable o : Oracles.
Variable host : string -> Host.

Lemma query_all_models_is_ranking (query : string)
  (model_configs : list (string * ModelConfig)) :
  ranking_of (collect_results o host query model_configs)
    (query_all_models o host query model_configs).
Proof.
  unfold ranking_of, query_all_models.
  split; [symmetry; apply sort_desc_perm | apply sort_desc_sorted].
Qed.

(** X14.  [query_all_models] returns the collected candidates, each
    exactly once, by non-increasing combined score, so that no candidate
    scores above the first.  Nothing is said of the order among
    candidates whose exact scores are equal, which the program decides
    on binary64 values. *)
Theorem query_all_models_ranking (query : string)
  (model_configs : list (string * ModelConfig)) :
  let collected := collect_results o host query model_configs in
  let ranked := query_all_models o host query model_configs in
  Permutation collected ranked
  /\ StronglySorted
       (fun a b => (get_combined_score b <= get_combined_score a)%Q) ranked
  /\ (forall d c, In c collected ->
        (get_combined_score c <= get_combined_score (hd d ranked))%Q)
  /\ (forall a b before after,
        ranked = (before ++ a :: after)%list -> In b after ->
        (get_combined_score b <= get_combined_score a)%Q).
Proof.
  cbv zeta.
  destruct (query_all_models_is_ranking query model_configs) as [Hperm Hsort].
  split; [exact Hperm|]. split; [exact Hsort|]. split.
  - intros d c Hin. apply sorted_head_is_max; [exact Hsort|].
    apply (Permutation_in _ Hperm), Hin.
  - intros a b before after E Hin. rewrite E in Hsort.
    clear - Hsort Hin. induction before as [|x before IH].
    + cbn [app] in Hsort. apply StronglySorted_inv in Hsort.
      destruct Hsort as [_ Hall]. rewrite Forall_forall in Hall.
      apply Hall, Hin.
    + cbn [app] in Hsort. apply StronglySorted_inv in Hsort.
      apply IH, Hsort.
Qed.

End RankingOfModels.

(* ================================================================== *)
(** * The context of the prompt *)
(* ================================================================== *)



Lemma filter_none {A} (f : A -> bool) (l : list A) :
  (forall x, In x l -> f x = false) -> filter f l = [].
Proof.
  induction l as [|x l IH]; intros H; [reflexivity|].
  cbn [filter]. rewrite (H x (or_introl eq_refl)).
  apply IH. intros y Hy. apply H. right. exact Hy.
Qed.



(* ================================================================== *)
(** * What a successful query returns *)
(* ================================================================== *)

Section QueryFacts.

Variable o : Oracles.
Variable host : string -> Host.

Lemma validate_code_fixed_code (code language model : string)
  (r : ValidationResult) :
  fst (validate_code o code language model) = Ok r ->
  fixed_code r = Some code.
Proof.
  unfold validate_code.
  set (lang := if String.eqb language "auto" then _ else _).
  destruct (String.eqb lang "go");
    [|intros H; injection H as <-; reflexivity].
  unfold validate_and_fix_go_code.
  destruct (is_empty code || is_empty (strip code));
    [intros H; injection H as <-; reflexivity|].
  destruct (mkdtemp (lint_env o code model)); [|discriminate].
  destruct (guarded_region o code model _) as [[n|msg] s] eqn:Hrun;
    apply guarded_region_identity in Hrun;
    destruct Hrun as (_ & _ & _ & H4);
    cbn [fst]; intros H; injection H as <-.
  - exact H4.
  - reflexivity.
Qed.

(** X16.  A query that succeeds returns exactly the text that was
    validated: the report in its metadata is the validation of the
    returned text under the model's name, the context size is the
    length of the assembled context, and the model is of one of the
    two supported types. *)
Theorem query_attempt_report (query model_key : string)
  (config : ModelConfig) (text : string) (md : Metadata) :
  query_attempt o host query model_key config = Ok (text, md) ->
  exists nodes gen v,
    retrieve (host model_key) query = Ok nodes
    /\ md = mkMetadata (Some gen) (Some v)
             (Some (Z.of_nat (String.length (assemble_context nodes)))) None
    /\ fst (validate_code o text "auto" (cfg_name config)) = Ok v
    /\ fixed_code v = Some text
    /\ (cfg_type config = "azure_openai"
        \/ cfg_type config = "openai_compatible").
Proof.
  unfold query_attempt. intros H.
  destruct (retrieve (host model_key) query) as [nodes|msg]; [|discriminate].
  exists nodes.
  assert (Hgen :
            forall generated gen,
              match fst (validate_code o generated "auto" (cfg_name config)) with
              | Raise msg => Raise msg
              | Ok static_validation =>
                  Ok (match fixed_code static_validation with
                      | Some fixed => if is_empty fixed then generated else fixed
                      | None => generated
                      end,
                      mkMetadata (Some gen) (Some static_validation)
                        (Some (Z.of_nat
                                 (String.length (assemble_context nodes))))
                        None)
              end = Ok (text, md) ->
              exists v,
                md = mkMetadata (Some gen) (Some v)
                       (Some (Z.of_nat
                                (String.length (assemble_context nodes)))) None
                /\ fst (validate_code o text "auto" (cfg_name config)) = Ok v
                /\ fixed_code v = Some text).
  { intros generated gen E.
    destruct (fst (validate_code o generated "auto" (cfg_name config)))
      as [v|msg] eqn:Hv; [|discriminate].
    pose proof (validate_code_fixed_code _ _ _ Hv) as Hfix.
    rewrite Hfix in E.
    injection E as Htext Hmd.
    assert (Hsame : text = generated)
      by (destruct (is_empty generated); congruence).
    clear Htext. subst text. exists v.
    split; [congruence|]. split; assumption. }
  destruct (String.eqb (cfg_type config) "azure_openai") eqn:Hazure.
  - apply String.eqb_eq in Hazure.
    destruct (azure_query (host model_key) query) as [answer|msg];
      [|discriminate].
    destruct (Hgen _ _ H) as (v & H1 & H2 & H3).
    exists (mkGenMetadata 1 ["stop"] 0 false None), v.
    split; [reflexivity|]. split; [exact H1|]. split; [exact H2|].
    split; [exact H3 | left; exact Hazure].
  - destruct (String.eqb (cfg_type config) "openai_compatible") eqn:Hchat;
      [|discriminate].
    apply String.eqb_eq in Hchat.
    destruct (generate_with_continuation _ _ _ _) as [[generated gen] calls].
    destruct (Hgen _ _ H) as (v & H1 & H2 & H3).
    exists gen, v.
    split; [reflexivity|]. split; [exact H1|]. split; [exact H2|].
    split; [exact H3 | right; exact Hchat].
Qed.

Lemma candidate_model (query model_key : string) (config : ModelConfig) :
  model (as_candidate (query_single_model o host query model_key config))
  = cfg_name config.
Proof.
  unfold query_single_model.
  destruct (query_attempt o host query model_key config) as [[text md]|msg];
    reflexivity.
Qed.

Lemma ranked_candidate (query : string)
  (configs : list (string * ModelConfig)) (c : Candidate) :
  In c (query_all_models o host query configs) ->
  exists key config,
    In (key, config) configs
    /\ c = as_candidate (query_single_model o host query key config).
Proof.
  unfold query_all_models. intros H. apply sort_desc_in in H.
  apply collected_candidate in H. exact H.
Qed.

End QueryFacts.

(* ================================================================== *)
(** * The endpoints *)
(* ================================================================== *)

Lemma find_by_name {A} (g : A -> string) (l : list A) (x : A) :
  NoDup (map g l) -> In x l ->
  find (fun y => String.eqb (g y) (g x)) l = Some x.
Proof.
  induction l as [|a l IH]; intros Hnd Hin; [destruct Hin|].
  cbn [map] in Hnd. apply NoDup_cons_iff in Hnd. destruct Hnd as [Ha Hnd].
  cbn [find]. destruct Hin as [->|Hin].
  - rewrite String.eqb_refl. reflexivity.
  - destruct (String.eqb (g a) (g x)) eqn:E.
    + apply String.eqb_eq in E. exfalso. apply Ha. rewrite E.
      apply in_map, Hin.
    + apply IH; assumption.
Qed.

Section EndpointFacts.

Variable o : Oracles.
Variable host : string -> Host.
Variable backend : string -> RefineBackend.

Lemma refinement_loop_needed (b : RefineBackend) (best_model : string)
  (model_config : ModelConfig) (initial_validation : ValidationResult)
  (remaining : nat) :
  forall (i : Z) (st res : RefineState) (exit : LoopExit),
    refinement_loop o b best_model model_config
      initial_validation remaining i st = Ok (res, exit) ->
    refinement_needed (refinement_metadata res)
    = refinement_needed (refinement_metadata st).
Proof.
  induction remaining as [|r IH]; intros i st res exit Hrun.
  - cbn in Hrun. injection Hrun as <- _. reflexivity.
  - cbn [refinement_loop] in Hrun.
    destruct (request_refinement _ _ _ _ _) as [refined|];
      [|injection Hrun as <- _; reflexivity].
    destruct (is_empty refined); [injection Hrun as <- _; reflexivity|].
    destruct (fst (validate_code _ _ _ _)) as [validation|msg];
      [|discriminate].
    cbv zeta in Hrun.
    destruct (total_errors validation =? 0);
      [injection Hrun as <- _; reflexivity|].
    destruct (_ && _); [injection Hrun as <- _; reflexivity|].
    apply IH in Hrun. exact Hrun.
Qed.

(** X17.  The status of an answer of [/query] depends only on the
    builder: it is 400 exactly when the index has not been built, 500
    exactly when the index is built and no model is configured, and 200
    otherwise, whatever the models answered. *)
Theorem query_endpoint_status (b : Builder) (q body : string) (status : Z) :
  query_endpoint o host backend b q = Ok (body, status) ->
  (status = 400 <-> index_built b = false)
  /\ (status = 500 <-> index_built b = true /\ model_configs b = [])
  /\ (status = 200 <-> index_built b = true /\ model_configs b <> [])
  /\ (status = 400 ->
      body = "Error: Index not built yet. Call /build first.")
  /\ (status = 500 -> body = "Error: No valid responses received.").
Proof.
  unfold query_endpoint. intros H.
  destruct (index_built b); cbn [negb] in H.
  2:{ injection H as <- <-.
      split; [split; reflexivity|].
      split; [split; [discriminate | intros [E _]; discriminate E]|].
      split; [split; [discriminate | intros [E _]; discriminate E]|].
      split; [reflexivity | discriminate]. }
  pose proof (query_all_models_length o host q (model_configs b)) as Hlen.
  destruct (query_all_models o host q (model_configs b)) as [|best rest].
  - injection H as <- <-.
    assert (Hnil : model_configs b = [])
      by (destruct (model_configs b); [reflexivity | discriminate Hlen]).
    split; [split; discriminate|].
    split; [split; auto|].
    split; [split; [discriminate | intros [_ E]; contradiction]|].
    split; [discriminate | reflexivity].
  - assert (Hcons : model_configs b <> [])
      by (intros E; rewrite E in Hlen; discriminate Hlen).
    destruct (answer_of_best o backend b best); [|discriminate].
    injection H as <- <-.
    split; [split; discriminate|].
    split; [split; [discriminate | intros [_ E]; contradiction]|].
    split; [split; auto|].
    split; discriminate.
Qed.

(** X18.  When the index is built and every configured model fails, the
    answer of [/query] is still a 200: its body is the text
    [Error: ...] of one of the failures, and no refinement is run. *)
Theorem query_endpoint_all_failing (b : Builder) (q : string) :
  index_built b = true ->
  model_configs b <> [] ->
  (forall key config,
      In (key, config) (model_configs b) ->
      exists msg, query_attempt o host q key config = Raise msg) ->
  exists key config msg,
    In (key, config) (model_configs b)
    /\ query_attempt o host q key config = Raise msg
    /\ query_endpoint o host backend b q
       = Ok (unescape ("Error: " ++ msg), 200).
Proof.
  intros Hbuilt Hcons Hfail. unfold query_endpoint.
  rewrite Hbuilt. cbn [negb].
  pose proof (query_all_models_length o host q (model_configs b)) as Hlen.
  destruct (query_all_models o host q (model_configs b))
    as [|best rest] eqn:Hranked.
  { destruct (model_configs b); [contradiction | discriminate Hlen]. }
  assert (Hin : In best (query_all_models o host q (model_configs b)))
    by (rewrite Hranked; left; reflexivity).
  destruct (ranked_candidate _ _ _ _ _ Hin) as (key & config & Hkc & Hbest).
  destruct (Hfail _ _ Hkc) as [msg Hmsg].
  exists key, config, msg. split; [exact Hkc|]. split; [exact Hmsg|].
  rewrite (failing_candidate_shape _ _ _ _ _ Hmsg) in Hbest.
  subst best. reflexivity.
Qed.

(** X19.  When the names and the keys of the configured models are
    unique and no key is empty, whichever of the collected candidates
    [/query] takes as the best: if it has errors, the refinement runs
    on the configuration and the backend of the very model that
    produced it, and the text answered is the response that the
    refinement returns; an exception of the refinement escapes.  And
    once the index is built and a model is configured, the candidate
    the answer is made from is one that no other outscores. *)
Theorem query_endpoint_refines_best (b : Builder) (q : string) :
  NoDup (map (fun kc => cfg_name (snd kc)) (model_configs b)) ->
  NoDup (map fst (model_configs b)) ->
  (forall kc, In kc (model_configs b) -> fst kc <> "") ->
  (forall best,
      In best (collect_results o host q (model_configs b)) ->
      candidate_has_errors best = true ->
      exists key config,
        In (key, config) (model_configs b)
        /\ best = as_candidate (query_single_model o host q key config)
        /\ answer_of_best o backend b best
           = match refine_response_iteratively o (backend key)
                     (max_refinement_iterations b) best config with
             | Ok (res, _) => Ok (current_response res)
             | Raise msg => Raise msg
             end)
  /\ (index_built b = true -> model_configs b <> [] ->
      exists best,
        In best (collect_results o host q (model_configs b))
        /\ (forall c, In c (collect_results o host q (model_configs b)) ->
              (get_combined_score c <= get_combined_score best)%Q)
        /\ query_endpoint o host backend b q
           = match answer_of_best o backend b best with
             | Ok body => Ok (body, 200)
             | Raise msg => Raise msg
             end).
Proof.
  intros Hnames Hkeys Hnonempty. split.
  - intros best Hin Herr.
    destruct (collected_candidate _ _ _ _ _ Hin)
      as (key & config & Hkc & Hbest).
    exists key, config. split; [exact Hkc|]. split; [exact Hbest|].
    unfold answer_of_best.
    unfold candidate_has_errors in Herr.
    destruct (static_validation (metadata best)) as [v|] eqn:Hv;
      [|discriminate].
    rewrite Herr.
    assert (Hname : model best = cfg_name config)
      by (rewrite Hbest; apply candidate_model).
    assert (Hfind : find_model_key (model_configs b) (model best) = Some key).
    { unfold find_model_key. rewrite Hname.
      pose proof (find_by_name (fun kc => cfg_name (snd kc)) (model_configs b)
                    (key, config) Hnames Hkc) as Hf.
      cbn [fst snd] in Hf. rewrite Hf. reflexivity. }
    assert (Hcfg : config_of_key (model_configs b) key = Some config).
    { unfold config_of_key.
      pose proof (find_by_name fst (model_configs b) (key, config) Hkeys Hkc)
        as Hf.
      cbn [fst snd] in Hf. rewrite Hf. reflexivity. }
    rewrite Hfind, Hcfg.
    assert (Hk : is_empty key = false).
    { destruct key; [|reflexivity].
      exfalso. apply (Hnonempty _ Hkc). reflexivity. }
    rewrite Hk.
    destruct (refine_response_iteratively o (backend key)
                (max_refinement_iterations b) best config)
      as [[res exit]|msg] eqn:Hrun; [|reflexivity].
    assert (Hneeded : refinement_needed (refinement_metadata res) = true).
    { unfold refine_response_iteratively in Hrun. rewrite Hv, Herr in Hrun.
      cbn [negb] in Hrun. apply refinement_loop_needed in Hrun. exact Hrun. }
    rewrite Hneeded. reflexivity.
  - intros Hbuilt Hcons. unfold query_endpoint. rewrite Hbuilt. cbn [negb].
    destruct (query_all_models_is_ranking o host q (model_configs b))
      as [Hperm Hsort].
    pose proof (query_all_models_length o host q (model_configs b)) as Hlen.
    destruct (query_all_models o host q (model_configs b))
      as [|best rest] eqn:Hranked.
    { destruct (model_configs b); [contradiction | discriminate Hlen]. }
    exists best. split.
    + apply (Permutation_in _ (Permutation_sym Hperm)). left. reflexivity.
    + split; [|reflexivity].
      intros c Hc. apply (Permutation_in _ Hperm) in Hc.
      apply (sorted_head_is_max get_combined_score best Hsort c Hc).
Qed.

(** X20.  Once the index is built, [/query-multi] lists every
    configured model once, also those that failed, by non-increasing
    combined score, and names the first of the listing as the best; a
    model that failed is listed with its [Error: ...] text and with the
    defaults of a missing report: quality 0, no error counted and
    [has_errors] false.  Nothing is said of the order among candidates
    whose exact scores are equal. *)
Theorem query_multi_lists_every_model (b : Builder) (q : string) :
  index_built b = true ->
  exists ans ranked,
    query_multi_endpoint o host b q = inr ans
    /\ ranking_of (collect_results o host q (model_configs b)) ranked
    /\ ans_results ans = map summarize ranked
    /\ models_queried ans = Z.of_nat (List.length (model_configs b))
    /\ List.length (ans_results ans) = List.length (model_configs b)
    /\ best_model ans = hd_error (map sum_model (ans_results ans))
    /\ (forall key config msg,
          In (key, config) (model_configs b) ->
          query_attempt o host q key config = Raise msg ->
          exists s,
            In s (ans_results ans)
            /\ sum_model s = cfg_name config
            /\ sum_response s = unescape ("Error: " ++ msg)
            /\ sum_has_errors s = false
            /\ sum_total_errors s = 0
            /\ sum_quality_score s = 0%Q).
Proof.
  intros Hbuilt. unfold query_multi_endpoint. rewrite Hbuilt. cbn [negb].
  eexists. exists (query_all_models o host q (model_configs b)).
  split; [reflexivity|].
  cbn [models_queried ans_results best_model].
  split; [apply query_all_models_is_ranking|].
  split; [reflexivity|].
  split; [rewrite query_all_models_length; reflexivity|].
  split; [rewrite length_map; apply query_all_models_length|].
  split.
  { destruct (query_all_models o host q (model_configs b)); reflexivity. }
  intros key config msg Hkc Hmsg.
  exists (summarize (as_candidate (query_single_model o host q key config))).
  split.
  - apply in_map. unfold query_all_models. apply sort_desc_in.
    unfold collect_results.
    apply (in_map (fun kc => as_candidate
                               (query_single_model o host q (fst kc) (snd kc)))
             _ _ Hkc).
  - rewrite (failing_candidate_shape _ _ _ _ _ Hmsg). repeat split.
Qed.

End EndpointFacts.

(** X16 at the second of the three models, which answers with a file
    that the lint run accepts. *)
Lemma query_attempt_report_witness :
  exists text md,
    query_attempt clean_oracles three_hosts "add a webhook" "MODEL_2"
      (mkConfig "beta" "azure_openai") = Ok (text, md)
    /\ text = go_code
    /\ exists nodes gen v,
        retrieve (three_hosts "MODEL_2") "add a webhook" = Ok nodes
        /\ md = mkMetadata (Some gen) (Some v)
                 (Some (Z.of_nat (String.length (assemble_context nodes)))) None
        /\ fst (validate_code clean_oracles text "auto" "beta") = Ok v
        /\ fixed_code v = Some text
        /\ (cfg_type (mkConfig "beta" "azure_openai") = "azure_openai"
            \/ cfg_type (mkConfig "beta" "azure_openai") = "openai_compatible").
Proof.
  do 2 eexists. split; [vm_compute; reflexivity|]. split; [reflexivity|].
  apply (@query_attempt_report clean_oracles three_hosts "add a webhook"
           "MODEL_2" (mkConfig "beta" "azure_openai")).
  vm_compute. reflexivity.
Defined.

(** X17 at the three models, the first of which fails. *)
Lemma query_endpoint_status_witness :
  exists body,
    query_endpoint clean_oracles three_hosts steady_backends three_builder
      "add a webhook" = Ok (body, 200)
    /\ body = go_code
    /\ (200 = 200 <->
        index_built three_builder = true /\ model_configs three_builder <> []).
Proof.
  eexists. split; [vm_compute; reflexivity|]. split; [reflexivity|].
  refine (proj1 (proj2 (proj2
            (@query_endpoint_status clean_oracles three_hosts steady_backends
               three_builder "add a webhook" _ 200 _)))).
  vm_compute. reflexivity.
Defined.

(** X18 at a builder whose only model fails. *)
Lemma query_endpoint_all_failing_witness :
  index_built failing_builder = true
  /\ model_configs failing_builder <> []
  /\ query_endpoint clean_oracles three_hosts steady_backends failing_builder
       "add a webhook" = Ok ("Error: connection refused", 200)
  /\ exists key config msg,
      In (key, config) (model_configs failing_builder)
      /\ query_attempt clean_oracles three_hosts "add a webhook" key config
         = Raise msg
      /\ query_endpoint clean_oracles three_hosts steady_backends
           failing_builder "add a webhook"
         = Ok (unescape ("Error: " ++ msg), 200).
Proof.
  split; [reflexivity|]. split; [discriminate|].
  split; [vm_compute; reflexivity|].
  apply (@query_endpoint_all_failing clean_oracles three_hosts steady_backends
           failing_builder "add a webhook").
  - reflexivity.
  - discriminate.
  - intros key config [E|[]]. injection E as <- <-.
    eexists. vm_compute. reflexivity.
Defined.

(** X19 at the two models in whose files the lint run finds twelve
    errors: the first is refined, without success. *)
Lemma query_endpoint_refines_best_witness :
  NoDup (map (fun kc => cfg_name (snd kc)) (model_configs faulty_builder))
  /\ NoDup (map fst (model_configs faulty_builder))
  /\ (exists best,
        In best (collect_results twelve_errors_oracles three_hosts
                   "add a webhook" (model_configs faulty_builder))
        /\ model best = "beta"
        /\ candidate_has_errors best = true
        /\ exists key config,
            In (key, config) (model_configs faulty_builder)
            /\ best = as_candidate
                        (query_single_model twelve_errors_oracles three_hosts
                           "add a webhook" key config)
            /\ answer_of_best twelve_errors_oracles steady_backends
                 faulty_builder best
               = match refine_response_iteratively twelve_errors_oracles
                         (steady_backends key)
                         (max_refinement_iterations faulty_builder) best
                         config with
                 | Ok (res, _) => Ok (current_response res)
                 | Raise msg => Raise msg
                 end)
  /\ exists best,
      In best (collect_results twelve_errors_oracles three_hosts
                 "add a webhook" (model_configs faulty_builder))
      /\ (forall c,
            In c (collect_results twelve_errors_oracles three_hosts
                    "add a webhook" (model_configs faulty_builder)) ->
            (get_combined_score c <= get_combined_score best)%Q)
      /\ query_endpoint twelve_errors_oracles three_hosts steady_backends
           faulty_builder "add a webhook"
         = match answer_of_best twelve_errors_oracles steady_backends
                   faulty_builder best with
           | Ok body => Ok (body, 200)
           | Raise msg => Raise msg
           end.
Proof.
  assert (Hnames : NoDup (map (fun kc => cfg_name (snd kc))
                            (model_configs faulty_builder)))
    by (repeat constructor; cbn; intuition discriminate).
  assert (Hkeys : NoDup (map fst (model_configs faulty_builder)))
    by (repeat constructor; cbn; intuition discriminate).
  assert (Hnonempty : forall kc, In kc (model_configs faulty_builder) ->
                                 fst kc <> "")
    by (intros kc [<-|[<-|[]]]; discriminate).
  destruct (@query_endpoint_refines_best twelve_errors_oracles three_hosts
              steady_backends faulty_builder "add a webhook"
              Hnames Hkeys Hnonempty) as [Hany Hhead].
  split; [exact Hnames|]. split; [exact Hkeys|]. split.
  - eexists. split; [left; reflexivity|].
    split; [reflexivity|]. split; [reflexivity|].
    apply Hany; [left; reflexivity | reflexivity].
  - apply Hhead; [reflexivity | discriminate].
Defined.

(** X20 at the three models, the first of which fails. *)
Lemma query_multi_lists_every_model_witness :
  index_built three_builder = true
  /\ exists ans ranked,
      query_multi_endpoint clean_oracles three_hosts three_builder
        "add a webhook" = inr ans
      /\ ranking_of
           (collect_results clean_oracles three_hosts "add a webhook"
              (model_configs three_builder)) ranked
      /\ ans_results ans = map summarize ranked
      /\ models_queried ans = Z.of_nat (List.length (model_configs three_builder))
      /\ List.length (ans_results ans)
         = List.length (model_configs three_builder)
      /\ best_model ans = hd_error (map sum_model (ans_results ans))
      /\ (forall key config msg,
            In (key, config) (model_configs three_builder) ->
            query_attempt clean_oracles three_hosts "add a webhook" key config
            = Raise msg ->
            exists s,
              In s (ans_results ans)
              /\ sum_model s = cfg_name config
              /\ sum_response s = unescape ("Error: " ++ msg)
              /\ sum_has_errors s = false
              /\ sum_total_errors s = 0
              /\ sum_quality_score s = 0%Q).
Proof.
  split; [reflexivity|].
  apply (@query_multi_lists_every_model clean_oracles three_hosts
           three_builder "add a webhook").
  reflexivity.
Defined.

(* ================================================================== *)
(** * Metadata dictionaries *)
(* ================================================================== *)

Lemma meta_get_set_same (key : string) (v : MetaValue) (d : MetaDict) :
  meta_get key (meta_set key v d) = Some v.
Proof.
  induction d as [|[k w] d IH]; cbn [meta_set meta_get].
  - rewrite String.eqb_refl. reflexivity.
  - destruct (String.eqb k key) eqn:E; cbn [meta_get]; rewrite E;
      [reflexivity | exact IH].
Qed.

Lemma meta_get_set_other (key key' : string) (v : MetaValue) (d : MetaDict) :
  String.eqb key' key = false ->
  meta_get key (meta_set key' v d) = meta_get key d.
Proof.
  intros Hne. induction d as [|[k w] d IH]; cbn [meta_set meta_get].
  - rewrite Hne. reflexivity.
  - destruct (String.eqb k key') eqn:E; cbn [meta_get].
    + apply String.eqb_eq in E. subst k. rewrite Hne.
      reflexivity.
    + rewrite IH. reflexivity.
Qed.

(** Reading a key of a chunk of a Go file: what the node's metadata and
    the two marks write hides what the splitter gave. *)
Ltac read_meta :=
  repeat first
    [ rewrite meta_get_set_same
    | rewrite meta_get_set_other by reflexivity ].

Lemma marked_chunk_is_go_chunk (file_path ty : string) (sl el : Z)
  (text : string) (c : TextNode) :
  In ty go_declaration_types ->
  go_chunk file_path
    (mkTextNode (tn_text c)
       (mark_go (meta_update (tn_metadata c)
                   (go_node_metadata file_path ty sl el text)))).
Proof.
  intros Hty. unfold go_chunk, tn_node_type, mark_go, meta_update,
    go_node_metadata.
  cbn [tn_metadata fold_left fst snd].
  read_meta. repeat split. exists ty. split; [reflexivity | exact Hty].
Qed.

Lemma marked_node_is_go_chunk (file_path ty : string) (sl el : Z)
  (text : string) :
  In ty go_declaration_types ->
  go_chunk file_path
    (mkTextNode text (mark_go (go_node_metadata file_path ty sl el text))).
Proof.
  intros Hty. unfold go_chunk, tn_node_type, mark_go, go_node_metadata.
  cbn [tn_metadata].
  read_meta. cbn. repeat split. exists ty. split; [reflexivity | exact Hty].
Qed.

(* ================================================================== *)
(** * The syntactic nodes of a Go file *)
(* ================================================================== *)

Lemma ast_induction (P : Ast -> Prop) :
  (forall ty sb eb sl el children,
      Forall P children -> P (AstNode ty sb eb sl el children)) ->
  forall node, P node.
Proof.
  intros H. fix IH 1. intros [ty sb eb sl el children]. apply H.
  induction children as [|c cs IHcs]; constructor; [apply IH | exact IHcs].
Qed.

Lemma mem_in (x : string) (xs : list string) : mem x xs = true <-> In x xs.
Proof.
  unfold mem. rewrite existsb_exists. split.
  - intros (y & Hy & E). apply String.eqb_eq in E. subst y. exact Hy.
  - intros H. exists x. split; [exact H | apply String.eqb_refl].
Qed.

Lemma flat_map_ext_forall {A B} (f g : A -> list B) (l : list A) :
  Forall (fun x => f x = g x) l -> flat_map f l = flat_map g l.
Proof.
  induction 1 as [|x l Hx Hl IH]; [reflexivity|].
  cbn [flat_map]. rewrite Hx, IH. reflexivity.
Qed.

Section ParserFacts.

Variable env : ParserEnv.

(** Every extracted node has the metadata of a declaration. *)
Lemma walk_go_tree_nodes (content file_path : string) (node : Ast) :
  forall n,
    In n (walk_go_tree (decode_utf8 env) content file_path node) ->
    exists ty sl el,
      In ty go_declaration_types
      /\ tn_metadata n = go_node_metadata file_path ty sl el (tn_text n).
Proof.
  induction node as [ty sb eb sl el children IH] using ast_induction.
  intros n Hin. cbn [walk_go_tree] in Hin. apply in_app_or in Hin.
  destruct Hin as [Hin|Hin].
  - destruct (mem ty go_declaration_types) eqn:Hty; [|destruct Hin].
    destruct Hin as [<-|[]]. exists ty, sl, el.
    split; [apply mem_in, Hty | reflexivity].
  - apply in_flat_map in Hin. destruct Hin as (c & Hc & Hn).
    rewrite Forall_forall in IH. exact (IH c Hc n Hn).
Qed.

(** X21.  [_extract_go_nodes] keeps exactly the nodes of the six
    declaration types, parents before children and in the order of the
    tree: a declaration inside another one (a [var] in a function body)
    is extracted again on its own. *)
Theorem extract_go_nodes_preorder (root_node : Ast)
  (content file_path : string) :
  map tn_node_type (extract_go_nodes env root_node content file_path)
  = map Some
      (filter (fun ty => mem ty go_declaration_types)
         (preorder_types root_node))
  /\ Forall
       (fun n =>
          meta_get "source" (tn_metadata n) = Some (MStr file_path)
          /\ meta_get "size" (tn_metadata n)
             = Some (MInt (Z.of_nat (String.length (tn_text n)))))
       (extract_go_nodes env root_node content file_path).
Proof.
  unfold extract_go_nodes. split.
  - induction root_node as [ty sb eb sl el children IH] using ast_induction.
    cbn [walk_go_tree preorder_types filter].
    rewrite map_app.
    assert (Hchildren :
              map tn_node_type
                (flat_map (walk_go_tree (decode_utf8 env) content file_path)
                   children)
              = map Some
                  (filter (fun ty => mem ty go_declaration_types)
                     (flat_map preorder_types children))).
    { induction IH as [|c cs Hc Hcs IHcs]; [reflexivity|].
      cbn [flat_map]. rewrite map_app, filter_app, map_app, Hc, IHcs.
      reflexivity. }
    rewrite Hchildren.
    destruct (mem ty go_declaration_types); reflexivity.
  - apply Forall_forall. intros n Hn.
    destruct (walk_go_tree_nodes _ _ _ _ Hn) as (ty & sl & el & _ & E).
    rewrite E. split; reflexivity.
Qed.

Lemma split_go_node_chunks (file_path : string) (node c : TextNode) :
  (exists ty sl el,
      In ty go_declaration_types
      /\ tn_metadata node = go_node_metadata file_path ty sl el (tn_text node)) ->
  In c (split_go_node env node) ->
  go_chunk file_path c.
Proof.
  intros (ty & sl & el & Hty & Hmd) Hin. unfold split_go_node in Hin.
  rewrite Hmd in Hin.
  destruct (semantic_split env node) as [chunks|msg].
  - apply in_map_iff in Hin. destruct Hin as (chunk & <- & _).
    apply marked_chunk_is_go_chunk, Hty.
  - destruct Hin as [<-|[]]. apply marked_node_is_go_chunk, Hty.
Qed.

Lemma parse_go_file_go_chunks (file_path : string) (chunks : list TextNode) :
  parse_go_file env file_path = Ok chunks ->
  Forall (go_chunk file_path) chunks.
Proof.
  unfold parse_go_file. intros H.
  destruct (read_bytes env file_path) as [content|msg]; [|discriminate].
  destruct (go_parse env content) as [root|msg]; [|discriminate].
  injection H as <-. apply Forall_forall. intros c Hc.
  apply in_flat_map in Hc. destruct Hc as (node & Hnode & Hc).
  eapply split_go_node_chunks; [|exact Hc].
  unfold extract_go_nodes in Hnode.
  apply walk_go_tree_nodes in Hnode. exact Hnode.
Qed.

(** X22.  Every chunk that [_parse_go_file] returns for a Go file
    carries the language ['go'], the priority ['MEDIUM'], the path of
    the file as its source and the type of a declaration as its
    [node_type], whatever metadata the semantic splitter gave it and
    also when the splitter raised. *)
Theorem parse_go_file_chunks (file_path : string) (chunks : list TextNode) :
  parse_go_file env file_path = Ok chunks ->
  Forall
    (fun c =>
       meta_get "language" (tn_metadata c) = Some (MStr "go")
       /\ meta_get "priority" (tn_metadata c) = Some (MStr "MEDIUM")
       /\ meta_get "source" (tn_metadata c) = Some (MStr file_path)
       /\ meta_get "syntactic_type" (tn_metadata c)
          = Some (MStr "go_ast_node")
       /\ exists ty, tn_node_type c = Some ty /\ In ty go_declaration_types)
    chunks.
Proof.
  intros H. apply parse_go_file_go_chunks in H.
  rewrite Forall_forall in *. intros c Hc. exact (H c Hc).
Qed.

Lemma go_chunk_not_complete (file_path : string) (c : TextNode) :
  go_chunk file_path c -> is_complete_file (as_retrieved c) = false.
Proof.
  intros (_ & _ & _ & _ & ty & Hty & Hin).
  unfold is_complete_file, as_retrieved. cbn [node_type]. rewrite Hty.
  destruct Hin as [<-|[<-|[<-|[<-|[<-|[<-|[]]]]]]]; reflexivity.
Qed.

(** What [parse_file] returns. *)
Lemma parse_file_shape (file_path : string) (nodes : list TextNode) :
  parse_file env file_path = Ok nodes ->
  exists complete chunks,
    nodes = complete :: chunks
    /\ create_complete_file_node env file_path
         (detect_language (lower (path_suffix env file_path)))
       = Ok complete
    /\ tn_node_type complete = Some "COMPLETE_FILE"
    /\ Forall (fun c => is_complete_file (as_retrieved c) = false) chunks.
Proof.
  unfold parse_file. cbv zeta.
  set (lang := detect_language (lower (path_suffix env file_path))).
  intros H.
  assert (Hchunks :
            forall chunks,
              (if String.eqb lang "go" then parse_go_file env file_path
               else Ok (parse_generic_file env file_path lang)) = Ok chunks ->
              Forall (fun c => is_complete_file (as_retrieved c) = false)
                chunks).
  { intros chunks E. destruct (String.eqb lang "go").
    - apply parse_go_file_go_chunks in E.
      rewrite Forall_forall in *. intros c Hc.
      eapply go_chunk_not_complete, E, Hc.
    - injection E as <-. unfold parse_generic_file.
      destruct (read_text env file_path); repeat constructor. }
  destruct (if String.eqb lang "go" then _ else _) as [chunks|msg];
    [|discriminate].
  destruct (create_complete_file_node env file_path lang)
    as [complete|msg] eqn:Hc; [|discriminate].
  injection H as <-. exists complete, chunks.
  split; [reflexivity|]. split; [reflexivity|].
  split; [|apply Hchunks; reflexivity].
  unfold create_complete_file_node in Hc.
  destruct (read_text env file_path); [|discriminate].
  injection Hc as <-. reflexivity.
Qed.

(** X23.  [parse_file] never returns an empty list: its first node is
    the complete file, with [node_type] ['COMPLETE_FILE'] and priority
    ['CRITICAL'], and no other node it returns is a complete file, so
    that every parsed file counts for exactly one complete file. *)
Theorem parse_file_one_complete_file (file_path : string)
  (nodes : list TextNode) :
  parse_file env file_path = Ok nodes ->
  exists complete chunks,
    nodes = complete :: chunks
    /\ tn_node_type complete = Some "COMPLETE_FILE"
    /\ meta_get "priority" (tn_metadata complete) = Some (MStr "CRITICAL")
    /\ meta_get "source" (tn_metadata complete) = Some (MStr file_path)
    /\ Forall (fun c => is_complete_file (as_retrieved c) = false) chunks
    /\ count_complete_files nodes = 1.
Proof.
  intros H. destruct (parse_file_shape _ H)
    as (complete & chunks & -> & Hc & Hty & Hchunks).
  exists complete, chunks. split; [reflexivity|]. split; [exact Hty|].
  unfold create_complete_file_node in Hc.
  destruct (read_text env file_path); [|discriminate].
  injection Hc as <-.
  split; [reflexivity|]. split; [reflexivity|]. split; [exact Hchunks|].
  unfold count_complete_files. cbn [filter].
  change (is_complete_file (as_retrieved _)) with true at 1.
  cbn [List.length].
  rewrite (filter_none (fun n => is_complete_file (as_retrieved n)) chunks);
    [reflexivity|].
  rewrite Forall_forall in Hchunks. exact Hchunks.
Qed.

Lemma parse_file_raises (file_path msg : string) :
  read_text env file_path = Raise msg ->
  exists raised, parse_file env file_path = Raise raised.
Proof.
  intros Hread. unfold parse_file, create_complete_file_node. cbv zeta.
  rewrite Hread.
  destruct (String.eqb _ "go"); [|eexists; reflexivity].
  destruct (parse_go_file env file_path); eexists; reflexivity.
Qed.

(** X24.  A file that cannot be read as text makes [parse_file] raise,
    also when it is not a Go file: the generic parser swallows the
    error and returns no chunk, and the complete-file node then reads
    the file again and raises the same error. *)
Theorem parse_file_unreadable (file_path msg : string) :
  read_text env file_path = Raise msg ->
  (exists raised, parse_file env file_path = Raise raised)
  /\ parse_generic_file env file_path
       (detect_language (lower (path_suffix env file_path))) = []
  /\ (detect_language (lower (path_suffix env file_path)) <> "go" ->
      parse_file env file_path = Raise msg).
Proof.
  intros Hread. unfold parse_file, parse_generic_file,
    create_complete_file_node. cbv zeta. rewrite Hread.
  set (lang := detect_language (lower (path_suffix env file_path))).
  split; [|split; [reflexivity|]].
  - destruct (String.eqb lang "go"); [|eexists; reflexivity].
    destruct (parse_go_file env file_path); eexists; reflexivity.
  - intros Hlang. apply String.eqb_neq in Hlang. rewrite Hlang.
    reflexivity.
Qed.

Lemma parse_all_counts (file_paths : list string) :
  forall nodes,
    parse_all env file_paths = Ok nodes ->
    count_complete_files nodes = Z.of_nat (List.length file_paths)
    /\ (List.length file_paths <= List.length nodes)%nat.
Proof.
  induction file_paths as [|p ps IH]; intros nodes H; cbn [parse_all] in H.
  - injection H as <-. split; [reflexivity | apply le_n].
  - destruct (parse_file env p) as [parsed|msg] eqn:Hp; [|discriminate].
    destruct (parse_all env ps) as [others|msg]; [|discriminate].
    injection H as <-. destruct (IH _ eq_refl) as [Hcount Hlen].
    destruct (parse_file_shape _ Hp)
      as (complete & chunks & -> & _ & Hty & Hchunks).
    unfold count_complete_files in *.
    rewrite filter_app, !length_app. cbn [filter].
    assert (Hfirst : is_complete_file (as_retrieved complete) = true).
    { unfold is_complete_file, as_retrieved. cbn [node_type].
      rewrite Hty. reflexivity. }
    rewrite Hfirst.
    rewrite (filter_none (fun n => is_complete_file (as_retrieved n)) chunks)
      by (rewrite Forall_forall in Hchunks; exact Hchunks).
    cbn [List.length app]. split; lia.
Qed.

Lemma parse_all_raises (file_paths : list string) (p msg : string) :
  In p file_paths -> read_text env p = Raise msg ->
  exists raised, parse_all env file_paths = Raise raised.
Proof.
  intros Hin Hread. induction file_paths as [|x xs IH]; [destruct Hin|].
  cbn [parse_all]. destruct Hin as [->|Hin].
  - destruct (parse_file_raises _ Hread) as [raised ->].
    eexists. reflexivity.
  - destruct (parse_file env x); [|eexists; reflexivity].
    destruct (IH Hin) as [raised ->]. eexists. reflexivity.
Qed.

Variable benv : BuildEnv.

(** X25.  When [build_index] returns, the index holds the nodes of all
    the loaded documents in their order, [index_status] is built with
    the number of documents as [files] and the number of nodes as
    [nodes], and the statistic of complete files equals the number of
    documents: each document gave exactly one complete-file node, so
    that there are at least as many nodes as files. *)
Theorem build_index_counts (directory : string) (st st' : IndexState) :
  build_index env benv directory st = (Ok tt, st') ->
  exists docs nodes,
    load_data benv directory = Ok docs
    /\ parse_all env docs = Ok nodes
    /\ index st' = Some nodes
    /\ status_built st' = true
    /\ status_files st' = Z.of_nat (List.length docs)
    /\ status_nodes st' = Z.of_nat (List.length nodes)
    /\ indexed_files_list st' = docs
    /\ count_complete_files nodes = status_files st'
    /\ status_files st' <= status_nodes st'.
Proof.
  unfold build_index. intros H.
  destruct (load_data benv directory) as [docs|msg]; [|discriminate].
  destruct (parse_all env docs) as [nodes|msg] eqn:Hparse; [|discriminate].
  destruct (make_index benv nodes) as [u|msg]; [|discriminate].
  destruct (parse_all_counts _ Hparse) as [Hcount Hlen].
  assert (Hst : st' = mkIndexState (Some nodes) true
                        (Z.of_nat (List.length docs))
                        (Z.of_nat (List.length nodes)) docs).
  { destruct (use_qdrant benv); [destruct (qdrant_count benv)|];
      congruence. }
  subst st'. exists docs, nodes.
  cbn [index status_built status_files status_nodes indexed_files_list].
  split; [reflexivity|]. split; [exact Hparse|].
  split; [reflexivity|]. split; [reflexivity|]. split; [reflexivity|].
  split; [reflexivity|]. split; [reflexivity|].
  split; [exact Hcount | lia].
Qed.

(** X26.  [build_index] is all or nothing up to the Qdrant count: when
    it raises, the index, the status and the file list are as before
    the call, unless it is the count of the Qdrant collection that
    raised, after the new index was stored; and one document that
    cannot be read makes the whole build raise and leaves them as
    before. *)
Theorem build_index_all_or_nothing (directory : string) (st : IndexState) :
  (forall msg st',
      build_index env benv directory st = (Raise msg, st') ->
      st' = st
      \/ (use_qdrant benv = true /\ qdrant_count benv = Raise msg
          /\ status_built st' = true /\ index st' <> None))
  /\ (forall docs p msg,
        load_data benv directory = Ok docs ->
        In p docs ->
        read_text env p = Raise msg ->
        exists raised,
          build_index env benv directory st = (Raise raised, st)).
Proof.
  unfold build_index. split.
  - intros msg st' H.
    destruct (load_data benv directory) as [docs|m];
      [|injection H as _ <-; left; reflexivity].
    destruct (parse_all env docs) as [nodes|m];
      [|injection H as _ <-; left; reflexivity].
    destruct (make_index benv nodes) as [u|m];
      [|injection H as _ <-; left; reflexivity].
    destruct (use_qdrant benv); [|discriminate].
    destruct (qdrant_count benv) as [u'|m]; [discriminate|].
    injection H as -> <-. right. cbn.
    repeat split; try reflexivity. discriminate.
  - intros docs p msg Hload Hin Hread. rewrite Hload.
    destruct (parse_all_raises _ _ Hin Hread) as [raised ->].
    exists raised. reflexivity.
Qed.

End ParserFacts.

(** X22 at a Go file whose function declares a variable: the splitter
    gives the function a chunk of priority [HIGH] and raises on the
    variable. *)
Lemma parse_go_file_chunks_witness :
  exists chunks,
    parse_go_file sample_parser "main.GO" = Ok chunks
    /\ map tn_node_type chunks
       = [Some "function_declaration"; Some "var_declaration"]
    /\ Forall
         (fun c =>
            meta_get "language" (tn_metadata c) = Some (MStr "go")
            /\ meta_get "priority" (tn_metadata c) = Some (MStr "MEDIUM")
            /\ meta_get "source" (tn_metadata c) = Some (MStr "main.GO")
            /\ meta_get "syntactic_type" (tn_metadata c)
               = Some (MStr "go_ast_node")
            /\ exists ty,
                tn_node_type c = Some ty /\ In ty go_declaration_types)
         chunks.
Proof.
  eexists. split; [vm_compute; reflexivity|]. split; [reflexivity|].
  apply (@parse_go_file_chunks sample_parser "main.GO").
  vm_compute. reflexivity.
Defined.

(** X23 at the same file, whose suffix is in capitals. *)
Lemma parse_file_one_complete_file_witness :
  exists nodes,
    parse_file sample_parser "main.GO" = Ok nodes
    /\ List.length nodes = 3%nat
    /\ exists complete chunks,
        nodes = complete :: chunks
        /\ tn_node_type complete = Some "COMPLETE_FILE"
        /\ meta_get "priority" (tn_metadata complete) = Some (MStr "CRITICAL")
        /\ meta_get "source" (tn_metadata complete) = Some (MStr "main.GO")
        /\ Forall (fun c => is_complete_file (as_retrieved c) = false) chunks
        /\ count_complete_files nodes = 1.
Proof.
  eexists. split; [vm_compute; reflexivity|]. split; [reflexivity|].
  apply (@parse_file_one_complete_file sample_parser "main.GO").
  vm_compute. reflexivity.
Defined.

(** X24 at a text file that is missing. *)
Lemma parse_file_unreadable_witness :
  read_text sample_parser "missing.txt" = Raise "No such file"
  /\ detect_language (lower (path_suffix sample_parser "missing.txt")) <> "go"
  /\ parse_file sample_parser "missing.txt" = Raise "No such file".
Proof.
  split; [reflexivity|]. split; [discriminate|].
  apply (@parse_file_unreadable sample_parser "missing.txt" "No such file").
  - reflexivity.
  - discriminate.
Defined.

(** X25 at a directory with the Go file and a text file. *)
Lemma build_index_counts_witness :
  exists st',
    build_index sample_parser sample_build "./feeds" initial_index_state
    = (Ok tt, st')
    /\ status_files st' = 2
    /\ status_nodes st' = 5
    /\ exists docs nodes,
        load_data sample_build "./feeds" = Ok docs
        /\ parse_all sample_parser docs = Ok nodes
        /\ index st' = Some nodes
        /\ status_built st' = true
        /\ status_files st' = Z.of_nat (List.length docs)
        /\ status_nodes st' = Z.of_nat (List.length nodes)
        /\ indexed_files_list st' = docs
        /\ count_complete_files nodes = status_files st'
        /\ status_files st' <= status_nodes st'.
Proof.
  eexists. split; [vm_compute; reflexivity|].
  split; [reflexivity|]. split; [reflexivity|].
  apply (@build_index_counts sample_parser sample_build "./feeds"
           initial_index_state).
  vm_compute. reflexivity.
Defined.

(* ================================================================== *)
(** * The configured models *)
(* ================================================================== *)

Lemma load_model_config_keys (getenv : string -> option string) (i : Z) :
  map fst (load_model_config getenv i)
  = if model_is_set getenv (str_of_Z i) then ["model_" ++ str_of_Z i] else [].
Proof.
  unfold load_model_config, model_is_set. cbv zeta.
  destruct (getenv ("MODEL_" ++ str_of_Z i ++ "_TYPE")) as [ty|];
    [|reflexivity].
  destruct (getenv ("MODEL_" ++ str_of_Z i ++ "_NAME")) as [name|];
    [|reflexivity].
  destruct (negb (is_empty ty) && negb (is_empty name)); reflexivity.
Qed.

Lemma load_model_config_entry (getenv : string -> option string) (i : Z)
  (key : string) (config : ModelConfig) :
  In (key, config) (load_model_config getenv i)
  <-> key = "model_" ++ str_of_Z i
      /\ getenv ("MODEL_" ++ str_of_Z i ++ "_TYPE") = Some (cfg_type config)
      /\ getenv ("MODEL_" ++ str_of_Z i ++ "_NAME") = Some (cfg_name config)
      /\ cfg_type config <> "" /\ cfg_name config <> "".
Proof.
  unfold load_model_config. cbv zeta.
  destruct (getenv ("MODEL_" ++ str_of_Z i ++ "_TYPE")) as [ty|].
  2:{ split; [intros [] | intros (_ & H & _); discriminate H]. }
  destruct (getenv ("MODEL_" ++ str_of_Z i ++ "_NAME")) as [name|].
  2:{ split; [intros [] | intros (_ & _ & H & _); discriminate H]. }
  destruct (is_empty ty) eqn:Hty; cbn [negb andb].
  { apply is_empty_true in Hty. subst ty.
    split; [intros [] | intros (_ & H & _ & Hne & _)].
    injection H as H. symmetry in H. contradiction. }
  destruct (is_empty name) eqn:Hname; cbn [negb].
  { apply is_empty_true in Hname. subst name.
    split; [intros [] | intros (_ & _ & H & _ & Hne)].
    injection H as H. symmetry in H. contradiction. }
  split.
  - intros [E|[]]. injection E as <- <-. cbn [cfg_type cfg_name].
    split; [reflexivity|]. split; [reflexivity|]. split; [reflexivity|].
    split; intros E; subst; discriminate.
  - intros (-> & Ht & Hn & _ & _). left. destruct config as [n t].
    cbn [cfg_type cfg_name] in *. congruence.
Qed.

(** X27.  The builder configures the model [i], for [i] from 1 to 5
    only, exactly when [MODEL_i_TYPE] and [MODEL_i_NAME] are both set and
    not empty, whether or not the models before it are set; its key is
    [model_i]; so there are at most five models, their keys are distinct
    and not empty, and their names and types are not empty. *)
Theorem load_model_configs_spec (getenv : string -> option string) :
  (List.length (load_model_configs getenv) <= 5)%nat
  /\ NoDup (map fst (load_model_configs getenv))
  /\ (forall kc, In kc (load_model_configs getenv) -> fst kc <> "")
  /\ (forall key config,
        In (key, config) (load_model_configs getenv)
        <-> exists i,
            1 <= i <= 5
            /\ key = "model_" ++ str_of_Z i
            /\ getenv ("MODEL_" ++ str_of_Z i ++ "_TYPE")
               = Some (cfg_type config)
            /\ getenv ("MODEL_" ++ str_of_Z i ++ "_NAME")
               = Some (cfg_name config)
            /\ cfg_type config <> "" /\ cfg_name config <> "").
Proof.
  assert (Hkeys :
            map fst (load_model_configs getenv)
            = ((if model_is_set getenv "1" then ["model_1"] else [])
               ++ (if model_is_set getenv "2" then ["model_2"] else [])
               ++ (if model_is_set getenv "3" then ["model_3"] else [])
               ++ (if model_is_set getenv "4" then ["model_4"] else [])
               ++ (if model_is_set getenv "5" then ["model_5"] else []))%list).
  { unfold load_model_configs. cbn [flat_map].
    rewrite !map_app, !load_model_config_keys, app_nil_r. reflexivity. }
  assert (Hentry :
            forall key config,
              In (key, config) (load_model_configs getenv)
              <-> exists i,
                  1 <= i <= 5
                  /\ key = "model_" ++ str_of_Z i
                  /\ getenv ("MODEL_" ++ str_of_Z i ++ "_TYPE")
                     = Some (cfg_type config)
                  /\ getenv ("MODEL_" ++ str_of_Z i ++ "_NAME")
                     = Some (cfg_name config)
                  /\ cfg_type config <> "" /\ cfg_name config <> "").
  { intros key config. unfold load_model_configs. rewrite in_flat_map.
    split.
    - intros (i & Hi & Hin). exists i. split.
      + cbn in Hi. lia.
      + apply load_model_config_entry, Hin.
    - intros (i & Hi & Hrest). exists i. split.
      + cbn. lia.
      + apply load_model_config_entry, Hrest. }
  split.
  { rewrite <- (length_map fst), Hkeys.
    destruct (model_is_set getenv "1"), (model_is_set getenv "2"),
      (model_is_set getenv "3"), (model_is_set getenv "4"),
      (model_is_set getenv "5"); cbn; lia. }
  split.
  { rewrite Hkeys.
    destruct (model_is_set getenv "1"), (model_is_set getenv "2"),
      (model_is_set getenv "3"), (model_is_set getenv "4"),
      (model_is_set getenv "5"); cbn [app];
      repeat constructor; cbn; intuition discriminate. }
  split; [|exact Hentry].
  intros [key config] Hin. apply Hentry in Hin.
  destruct Hin as (i & _ & -> & _). cbn [fst]. discriminate.
Qed.

(** The models 1 and 3 are configured although the model 2 is not, and
    the model 6 is never read. *)
Example load_model_configs_sample :
  load_model_configs sample_getenv
  = [("model_1", mkConfig "gpt" "azure_openai");
     ("model_3", mkConfig "llama" "openai_compatible")].
Proof. vm_compute. reflexivity. Qed.

(* ================================================================== *)
(** * The refinement request *)
(* ================================================================== *)

(** X28.  A refinement request shows the model at most the first ten
    errors: the errors after the tenth do not change its outcome; and
    what it returns, if anything, is trimmed at both ends. *)
Theorem request_refinement_first_ten (backend : RefineBackend)
  (code_to_refine : string) (errors_context : list string)
  (model_config : ModelConfig) (iteration : Z) :
  request_refinement backend code_to_refine errors_context
    model_config iteration
  = request_refinement backend code_to_refine (firstn 10 errors_context)
      model_config iteration
  /\ (forall more,
        (10 <= List.length errors_context)%nat ->
        request_refinement backend code_to_refine
          (errors_context ++ more) model_config iteration
        = request_refinement backend code_to_refine errors_context
            model_config iteration)
  /\ (forall refined,
        request_refinement backend code_to_refine errors_context
          model_config iteration = Some refined ->
        strip refined = refined).
Proof.
  split; [|split].
  - unfold request_refinement. cbv zeta.
    rewrite firstn_firstn. reflexivity.
  - intros more Hlen. unfold request_refinement. cbv zeta.
    rewrite firstn_app.
    replace (10 - List.length errors_context)%nat with 0%nat by lia.
    rewrite firstn_0, app_nil_r. reflexivity.
  - intros refined. unfold request_refinement. cbv zeta.
    set (answer := if String.eqb (cfg_type model_config) "azure_openai"
                   then _ else _).
    destruct answer as [[text|]|msg]; try discriminate.
    destruct (is_empty text); [discriminate|].
    intros H. injection H as <-. apply strip_idempotent.
Qed.
